(** * SCGen generation engine: a shallow embedding and its properties

    The development follows the TypeScript sources of the repository:

    - [backend/src/utils/aiService.ts] (second revision in the file):
      [extractContractCode], [validateContractCode], [getFallbackContract]
      and the provider fallback of [generateCustomContract];
    - the contract controller that wraps [generateCustomContract]
      ([generateCustomizedContract]);
    - the main server: the axios response interceptor, the contract cache
      ([generateCacheKey], [getFromCache], [saveToCache],
      [checkDependencyVersions]), [processWithPersona] and the
      [/api/generate] endpoint, with the helpers that read a text
      ([extractVulnerabilities], [extractRecommendations],
      [extractContractName], [analyzeGasUsage]);
    - [backend/src/server.ts]: the earlier, sequential [/api/generate].

    Conventions of the embedding.  JavaScript strings are [string]s (the
    sources only handle ASCII text in the places modelled here, so the
    length in bytes is the JavaScript length).  Times are [Z], in
    milliseconds.  A network call is answered by an oracle; every call and
    every back-off delay is recorded in a trace of [Event]s, which is how
    the statements below count provider invocations.  A value of a request
    body is either a string or any other JavaScript value, the latter kept
    as its truthiness and its rendering by a template literal, or as the
    fact that it has no rendering: the code looks at nothing else.  A
    provider answers in the chat-completion format, where the content of
    a message is a string or is missing. *)

From Stdlib Require Import String Ascii ZArith List Bool Lia.
From stdpp Require Import gmap strings.

Local Open Scope Z_scope.

(** The double quote character, spliced into the literals below. *)
Definition dq : string := String "034"%char EmptyString.

(** ** JavaScript string operations *)

Module JsString.

(** [s.startsWith(p)], with the receiver second. *)
Fixpoint startsWith (p s : string) : bool :=
  match p, s with
  | EmptyString, _ => true
  | String _ _, EmptyString => false
  | String a p', String b s' => Ascii.eqb a b && startsWith p' s'
  end.

(** [s.includes(m)] *)
Fixpoint includes (s m : string) : bool :=
  startsWith m s ||
  match s with
  | EmptyString => false
  | String _ s' => includes s' m
  end.

(** White space as [\s] and [trim] see it, within ASCII: tab, line feed,
    vertical tab, form feed, carriage return and space. *)
Definition isSpace (c : ascii) : bool :=
  let n := nat_of_ascii c in
  ((9 <=? n)%nat && (n <=? 13)%nat) || (n =? 32)%nat.

Fixpoint trimStart (s : string) : string :=
  match s with
  | EmptyString => EmptyString
  | String c s' => if isSpace c then trimStart s' else s
  end.

Fixpoint trimEnd (s : string) : string :=
  match s with
  | EmptyString => EmptyString
  | String c s' =>
      match trimEnd s' with
      | EmptyString => if isSpace c then EmptyString else String c EmptyString
      | t => String c t
      end
  end.

Definition trim (s : string) : string := trimEnd (trimStart s).

(** [s.replace(/\s+/g, '')]: every white space character is removed. *)
Fixpoint removeSpaces (s : string) : string :=
  match s with
  | EmptyString => EmptyString
  | String c s' => if isSpace c then removeSpaces s' else String c (removeSpaces s')
  end.

(** [s.replace(c, '')] for a one-character pattern: the first occurrence
    only. *)
Fixpoint removeFirst (c : ascii) (s : string) : string :=
  match s with
  | EmptyString => EmptyString
  | String d s' => if Ascii.eqb c d then s' else String d (removeFirst c s')
  end.

(** [parts.join(sep)] *)
Fixpoint join (sep : string) (parts : list string) : string :=
  match parts with
  | [] => EmptyString
  | [x] => x
  | x :: rest => x +:+ sep +:+ join sep rest
  end.

(** The part of [s] before the first occurrence of [m], and the part
    after it ([s.indexOf(m)] and two [substring]s). *)
Fixpoint splitAt (m s : string) : option (string * string) :=
  if startsWith m s then Some (EmptyString, String.substring (String.length m) (String.length s) s)
  else match s with
       | EmptyString => None
       | String c s' =>
           match splitAt m s' with
           | Some (pre, post) => Some (String c pre, post)
           | None => None
           end
       end.

(** How many times the character [c] occurs in [s]. *)
Fixpoint count (c : ascii) (s : string) : nat :=
  match s with
  | EmptyString => 0%nat
  | String d s' => ((if Ascii.eqb c d then 1 else 0) + count c s')%nat
  end.

(** Two decidable side conditions used to locate the occurrences of a
    marker [m] in a concatenation.  [noBorder m x]: no non-empty suffix of
    [x] is a proper prefix of [m], so no occurrence of [m] starts inside
    [x] and runs past its end.  [noEntry m y]: no non-empty proper suffix
    of [m] agrees with [y] on their common length, so no occurrence of [m]
    that starts before [y] runs into it. *)
Fixpoint noBorder (m x : string) : bool :=
  match x with
  | EmptyString => true
  | String _ x' => negb (startsWith x m && negb (startsWith m x)) && noBorder m x'
  end.

Fixpoint agree (a b : string) : bool :=
  match a, b with
  | String c a', String d b' => Ascii.eqb c d && agree a' b'
  | _, _ => true
  end.

Fixpoint noEntry (m y : string) : bool :=
  match m with
  | EmptyString => true
  | String _ m' =>
      match m' with
      | EmptyString => true
      | String _ _ => negb (agree m' y)
      end && noEntry m' y
  end.

End JsString.

(** ** JavaScript values as the sources read them *)

(** A value of a request body is a string or something else; for the
    latter the sources only use its truthiness and its rendering inside a
    template literal.  [JsOpaque] is a value without a rendering: an
    object whose own [toString] is not a function (the JSON object
    [{toString: null}]), or an array that holds one.  Such a value is
    truthy, and a template literal that meets it throws a [TypeError]. *)
Inductive JsValue : Type :=
| JsStr (s : string)
| JsOther (isTruthy : bool) (shown : string)
| JsOpaque.

Definition typeofString (v : JsValue) : bool :=
  match v with JsStr _ => true | _ => false end.

Definition truthy (v : JsValue) : bool :=
  match v with
  | JsStr s => negb (String.eqb s EmptyString)
  | JsOther b _ => b
  | JsOpaque => true
  end.

(** The text a template literal inserts for the value; [None] when the
    template literal throws. *)
Definition show (v : JsValue) : option string :=
  match v with
  | JsStr s => Some s
  | JsOther _ t => Some t
  | JsOpaque => None
  end.

(** The entries of the customizations, an object of type
    [Record<string, any>], in the order of [Object.entries]. *)
Definition Customizations : Type := list (string * JsValue).

Fixpoint getProperty (key : string) (obj : Customizations) : option JsValue :=
  match obj with
  | [] => None
  | (k, v) :: rest => if String.eqb k key then Some v else getProperty key rest
  end.

(** [customizations?.key || fallback], as inserted by a template literal:
    [None] when the template literal throws. *)
Definition propertyOr (customizations : option Customizations) (key fallback : string)
    : option string :=
  match customizations with
  | None => Some fallback
  | Some obj =>
      match getProperty key obj with
      | Some v => if truthy v then show v else Some fallback
      | None => Some fallback
      end
  end.

(** What a call comes to: the value it returns, or the message of the
    error it throws. *)
Inductive Result (A : Type) : Type :=
| Returned (a : A)
| Thrown (message : string).
Arguments Returned {A} a.
Arguments Thrown {A} message.

(** ** Chat-completion calls through axios *)

Module Http.

(** The three chat-completion endpoints. *)
Inductive Provider : Type := Together | OpenRouter | AIML.

Record Message : Type := { role : string; content : string }.

(** The request body.  The sampling parameters are left out. *)
Record Payload : Type := {
  model : string;
  messages : list Message;
  max_tokens : option Z
}.

(** What one HTTP exchange yields.  [HttpOk c]: a 2xx response, [c] being
    the string at [data.choices[0].message.content] if there is one; in
    the chat-completion format the content is a string or is missing.
    [HttpFail (Some s)]: a response with the non-2xx status [s].
    [HttpFail None]: no response (time-out, transport error). *)
Inductive HttpOutcome : Type :=
| HttpOk (text : option string)
| HttpFail (status : option Z).

(** The outside world: the answer to the exchange number [retryCount] of
    a request. *)
Definition Oracle : Type := Provider -> Payload -> nat -> HttpOutcome.

Inductive Event : Type :=
| ECall (p : Provider) (body : Payload) (retryCount : nat)
| EDelay (ms : Z).

Definition Trace : Type := list Event.

(** *** The response interceptor of the main server *)

(** "Don't retry on these status codes" *)
Definition noRetry (status : option Z) : bool :=
  match status with
  | Some s => (s =? 400) || (s =? 401) || (s =? 403)
  | None => false
  end.

(** [config.maxRetries || 3]; no caller sets [maxRetries]. *)
Definition maxRetries : nat := 3.

(** [Math.pow(2, config.retryCount) * 1000], read after the increment. *)
Definition backoffDelay (retryCount : nat) : Z := 2 ^ Z.of_nat retryCount * 1000.

(** One request under the interceptor.  [budget] is
    [config.maxRetries - config.retryCount], so the test
    [config.retryCount < config.maxRetries] is [budget] being a
    successor. *)
Fixpoint request (o : Oracle) (p : Provider) (body : Payload)
    (budget retryCount : nat) : HttpOutcome * Trace :=
  match o p body retryCount with
  | HttpOk text => (HttpOk text, [ECall p body retryCount])
  | HttpFail status =>
      if noRetry status then (HttpFail status, [ECall p body retryCount])
      else
        match budget with
        | O => (HttpFail status, [ECall p body retryCount])
        | S budget' =>
            let retryCount' := S retryCount in
            let '(out, tr) := request o p body budget' retryCount' in
            (out, ECall p body retryCount :: EDelay (backoffDelay retryCount') :: tr)
        end
  end.

(** Whether the process has the interceptor installed on the shared axios
    instance: the main server installs it, [backend/src/server.ts] does
    not. *)
Inductive Layer : Type := Plain | Intercepted.

Definition post (layer : Layer) (o : Oracle) (p : Provider) (body : Payload)
    : HttpOutcome * Trace :=
  match layer with
  | Plain => (o p body 0%nat, [ECall p body 0%nat])
  | Intercepted => request o p body maxRetries 0%nat
  end.

(** Readings of a trace. *)
Definition isCallTo (p : Provider) (e : Event) : bool :=
  match e, p with
  | ECall Together _ _, Together => true
  | ECall OpenRouter _ _, OpenRouter => true
  | ECall AIML _ _, AIML => true
  | _, _ => false
  end.

Definition isCall (e : Event) : bool :=
  match e with ECall _ _ _ => true | EDelay _ => false end.

Definition callsTo (p : Provider) (tr : Trace) : nat := length (List.filter (isCallTo p) tr).

Definition calls (tr : Trace) : nat := length (List.filter isCall tr).

Fixpoint delays (tr : Trace) : list Z :=
  match tr with
  | [] => []
  | EDelay ms :: tr' => ms :: delays tr'
  | ECall _ _ _ :: tr' => delays tr'
  end.

End Http.

(** ** The AI service ([backend/src/utils/aiService.ts]) *)

Module AiService.
Import JsString Http.

Record AIResponse : Type := {
  analysis : string;
  code : string;
  vulnerabilities : list string;
  recommendations : list string
}.

(** *** [extractContractCode] *)

Definition drop (n : nat) (s : string) : string :=
  String.substring n (String.length s) s.

Definition fence : string := "```".

(** The first group of [/```(?:solidity)?\s*([\s\S]*?)```/] at its
    leftmost match: after the first fence an optional [solidity] and any
    white space are skipped, and the group runs up to the next fence. *)
Definition matchCodeBlock (content : string) : option string :=
  match splitAt fence content with
  | None => None
  | Some (_, rest) =>
      let rest := if startsWith "solidity" rest then drop 8 rest else rest in
      match splitAt fence (trimStart rest) with
      | Some (body, _) => Some body
      | None => None
      end
  end.

(** The second pattern has two groups: a licence comment ([//], white
    space, [SPDX-License-Identifier:]) or a pragma ([pragma], some white
    space, [solidity]), followed lazily by the rest of its line; then
    everything that follows.  Together the groups are the content from
    the leftmost place where a licence comment or a pragma starts. *)
Definition licenceAt (s : string) : bool :=
  startsWith "//" s && startsWith "SPDX-License-Identifier:" (trimStart (drop 2 s)).

Definition pragmaAt (s : string) : bool :=
  startsWith "pragma" s &&
  match drop 6 s with
  | EmptyString => false
  | String c rest => isSpace c && startsWith "solidity" (trimStart rest)
  end.

Fixpoint matchHeader (s : string) : option string :=
  if licenceAt s || pragmaAt s then Some s
  else match s with
       | EmptyString => None
       | String _ s' => matchHeader s'
       end.

Definition extractContractCode (content : string) : string :=
  match matchCodeBlock content with
  | Some (String c body) => trim (String c body)
  | _ =>
      match matchHeader content with
      | Some found => trim found
      | None => trim content
      end
  end.

(** *** [validateContractCode] *)

Definition hasPlaceholderComment (code : string) : bool :=
  includes code "// TODO" ||
  includes code "// Implementation" ||
  includes code "rest of the code" ||
  includes code "// Add implementation".

Definition validateContractCode (code : string) : bool :=
  let hasPragma := includes code "pragma solidity" in
  let hasContract := includes code "contract " in
  let hasConstructor := includes code "constructor" in
  let hasFunction := includes code "function " in
  let hasSPDXLicense := includes code "SPDX-License-Identifier" in
  let hasEllipsis := includes code "..." in
  let isReasonableLength := (500 <? Z.of_nat (String.length code)) in
  hasPragma && hasContract && (hasConstructor || hasFunction) &&
  negb hasEllipsis && negb (hasPlaceholderComment code) && isReasonableLength.

(** *** The fallback templates of [getFallbackContract]

    Each template literal is cut at its interpolations. *)

Definition equity_head : string :=
"// SPDX-License-Identifier: MIT
pragma solidity ^0.8.17;

import " +:+ dq +:+ "@openzeppelin/contracts/token/ERC20/ERC20.sol" +:+ dq +:+ ";
import " +:+ dq +:+ "@openzeppelin/contracts/access/Ownable.sol" +:+ dq +:+ ";
import " +:+ dq +:+ "@openzeppelin/contracts/security/Pausable.sol" +:+ dq +:+ ";

/**
 * @title Equity Token for ".

Definition equity_mid : string :=
"
 * @dev ERC20 token representing equity shares with vesting capabilities
 */
contract ".

Definition equity_tail : string :=
" is ERC20, Ownable, Pausable {
    // Token configuration
    uint256 private _totalShares;
    mapping(address => uint256) private _lockedTokens;
    mapping(address => uint256) private _vestingEnd;

    // Events
    event SharesLocked(address indexed holder, uint256 amount, uint256 vestingEnd);
    event SharesUnlocked(address indexed holder, uint256 amount);

    /**
     * @dev Constructor initializes the equity token
     * @param name Token name
     * @param symbol Token symbol
     * @param initialSupply Initial token supply
     */
    constructor(
        string memory name,
        string memory symbol,
        uint256 initialSupply
    ) ERC20(name, symbol) {
        _mint(msg.sender, initialSupply);
        _totalShares = initialSupply;
    }

    /**
     * @dev Lock shares for vesting
     * @param holder Address of the shareholder
     * @param amount Amount of shares to lock
     * @param vestingDuration Duration of the vesting period in seconds
     */
    function lockShares(address holder, uint256 amount, uint256 vestingDuration) 
        external 
        onlyOwner 
    {
        require(balanceOf(holder) >= amount, " +:+ dq +:+ "Insufficient balance" +:+ dq +:+ ");
        _lockedTokens[holder] = amount;
        _vestingEnd[holder] = block.timestamp + vestingDuration;
        emit SharesLocked(holder, amount, _vestingEnd[holder]);
    }

    /**
     * @dev Unlock shares after vesting period
     * @param holder Address of the shareholder
     */
    function unlockShares(address holder) 
        external 
    {
        require(block.timestamp >= _vestingEnd[holder], " +:+ dq +:+ "Vesting period not ended" +:+ dq +:+ ");
        uint256 amount = _lockedTokens[holder];
        _lockedTokens[holder] = 0;
        _vestingEnd[holder] = 0;
        emit SharesUnlocked(holder, amount);
    }

    /**
     * @dev Override transfer function to respect locked shares
     * @param to Recipient address
     * @param amount Amount to transfer
     */
    function transfer(address to, uint256 amount) 
        public 
        virtual 
        override 
        returns (bool) 
    {
        require(amount <= balanceOf(msg.sender) - _lockedTokens[msg.sender], " +:+ dq +:+ "Shares locked" +:+ dq +:+ ");
        return super.transfer(to, amount);
    }

    /**
     * @dev Override transferFrom function to respect locked shares
     * @param from Sender address
     * @param to Recipient address
     * @param amount Amount to transfer
     */
    function transferFrom(address from, address to, uint256 amount)
        public
        virtual
        override
        returns (bool)
    {
        require(amount <= balanceOf(from) - _lockedTokens[from], " +:+ dq +:+ "Shares locked" +:+ dq +:+ ");
        return super.transferFrom(from, to, amount);
    }

    /**
     * @dev Pause all token transfers
     */
    function pause() external onlyOwner {
        _pause();
    }

    /**
     * @dev Unpause all token transfers
     */
    function unpause() external onlyOwner {
        _unpause();
    }
}".

Definition supply_head : string :=
"// SPDX-License-Identifier: MIT
pragma solidity ^0.8.17;

import " +:+ dq +:+ "@openzeppelin/contracts/access/AccessControl.sol" +:+ dq +:+ ";
import " +:+ dq +:+ "@openzeppelin/contracts/security/Pausable.sol" +:+ dq +:+ ";

/**
 * @title Supply Chain Management Contract for ".

Definition supply_tail : string :=
"
 * @dev Manages product tracking throughout a supply chain
 */
contract SupplyChainManagement is AccessControl, Pausable {
    bytes32 public constant MANUFACTURER_ROLE = keccak256(" +:+ dq +:+ "MANUFACTURER_ROLE" +:+ dq +:+ ");
    bytes32 public constant DISTRIBUTOR_ROLE = keccak256(" +:+ dq +:+ "DISTRIBUTOR_ROLE" +:+ dq +:+ ");
    bytes32 public constant RETAILER_ROLE = keccak256(" +:+ dq +:+ "RETAILER_ROLE" +:+ dq +:+ ");

    enum ProductStatus { Created, Shipped, Delivered, Recalled }
    
    struct Product {
        string productId;
        address manufacturer;
        address currentOwner;
        uint256 timestamp;
        ProductStatus status;
        string metadata;
    }

    mapping(string => Product) public products;
    mapping(string => mapping(uint256 => address)) public productHistory;
    mapping(string => uint256) public productHistoryCount;

    event ProductCreated(string productId, address manufacturer, string metadata);
    event ProductShipped(string productId, address from, address to);
    event ProductDelivered(string productId, address by);
    event ProductRecalled(string productId, address by);
    event ProductOwnershipTransferred(string productId, address from, address to);

    constructor() {
        _setupRole(DEFAULT_ADMIN_ROLE, msg.sender);
    }

    function createProduct(
        string memory productId,
        string memory metadata
    ) 
        external 
        onlyRole(MANUFACTURER_ROLE) 
    {
        require(products[productId].manufacturer == address(0), " +:+ dq +:+ "Product already exists" +:+ dq +:+ ");
        
        products[productId] = Product({
            productId: productId,
            manufacturer: msg.sender,
            currentOwner: msg.sender,
            timestamp: block.timestamp,
            status: ProductStatus.Created,
            metadata: metadata
        });

        productHistory[productId][0] = msg.sender;
        productHistoryCount[productId] = 1;

        emit ProductCreated(productId, msg.sender, metadata);
    }

    function shipProduct(
        string memory productId,
        address to
    ) 
        external 
    {
        require(products[productId].currentOwner == msg.sender, " +:+ dq +:+ "Not the current owner" +:+ dq +:+ ");
        require(
            hasRole(DISTRIBUTOR_ROLE, to) || hasRole(RETAILER_ROLE, to),
            " +:+ dq +:+ "Invalid recipient" +:+ dq +:+ "
        );

        products[productId].status = ProductStatus.Shipped;
        products[productId].currentOwner = to;
        products[productId].timestamp = block.timestamp;

        uint256 count = productHistoryCount[productId];
        productHistory[productId][count] = to;
        productHistoryCount[productId] = count + 1;

        emit ProductShipped(productId, msg.sender, to);
        emit ProductOwnershipTransferred(productId, msg.sender, to);
    }

    function deliverProduct(string memory productId) 
        external 
    {
        require(products[productId].currentOwner == msg.sender, " +:+ dq +:+ "Not the current owner" +:+ dq +:+ ");
        require(products[productId].status == ProductStatus.Shipped, " +:+ dq +:+ "Product not shipped" +:+ dq +:+ ");

        products[productId].status = ProductStatus.Delivered;
        products[productId].timestamp = block.timestamp;

        emit ProductDelivered(productId, msg.sender);
    }

    function recallProduct(string memory productId) 
        external 
        onlyRole(MANUFACTURER_ROLE) 
    {
        require(products[productId].manufacturer == msg.sender, " +:+ dq +:+ "Not the manufacturer" +:+ dq +:+ ");
        
        products[productId].status = ProductStatus.Recalled;
        products[productId].timestamp = block.timestamp;

        emit ProductRecalled(productId, msg.sender);
    }

    function getProduct(string memory productId) 
        external 
        view 
        returns (Product memory) 
    {
        return products[productId];
    }

    function getProductHistory(string memory productId) 
        external 
        view 
        returns (address[] memory) 
    {
        uint256 count = productHistoryCount[productId];
        address[] memory history = new address[](count);
        
        for(uint256 i = 0; i < count; i++) {
            history[i] = productHistory[productId][i];
        }
        
        return history;
    }

    function pause() external onlyRole(DEFAULT_ADMIN_ROLE) {
        _pause();
    }

    function unpause() external onlyRole(DEFAULT_ADMIN_ROLE) {
        _unpause();
    }
}".

Definition profit_head : string :=
"// SPDX-License-Identifier: MIT
pragma solidity ^0.8.17;

import " +:+ dq +:+ "@openzeppelin/contracts/access/Ownable.sol" +:+ dq +:+ ";
import " +:+ dq +:+ "@openzeppelin/contracts/security/ReentrancyGuard.sol" +:+ dq +:+ ";

/**
 * @title Profit Sharing Contract for ".

Definition profit_tail : string :=
"
 * @dev Manages profit distribution among partners
 */
contract ProfitSharing is Ownable, ReentrancyGuard {
    struct Partner {
        uint256 shares;
        uint256 totalReceived;
        bool exists;
    }

    mapping(address => Partner) public partners;
    address[] public partnerList;
    uint256 public totalShares;
    uint256 public totalDistributed;

    event PartnerAdded(address indexed partner, uint256 shares);
    event PartnerRemoved(address indexed partner);
    event ProfitDistributed(uint256 amount);
    event SharesUpdated(address indexed partner, uint256 newShares);

    constructor(address[] memory _partners, uint256[] memory _shares) {
        require(_partners.length == _shares.length, " +:+ dq +:+ "Arrays length mismatch" +:+ dq +:+ ");
        uint256 _totalShares = 0;
        
        for(uint i = 0; i < _partners.length; i++) {
            require(_partners[i] != address(0), " +:+ dq +:+ "Invalid partner address" +:+ dq +:+ ");
            require(!partners[_partners[i]].exists, " +:+ dq +:+ "Duplicate partner" +:+ dq +:+ ");
            
            partners[_partners[i]] = Partner({
                shares: _shares[i],
                totalReceived: 0,
                exists: true
            });
            partnerList.push(_partners[i]);
            _totalShares += _shares[i];
        }
        
        require(_totalShares == 100, " +:+ dq +:+ "Total shares must be 100" +:+ dq +:+ ");
        totalShares = _totalShares;
    }

    function addPartner(address _partner, uint256 _shares) 
        external 
        onlyOwner 
    {
        require(_partner != address(0), " +:+ dq +:+ "Invalid partner address" +:+ dq +:+ ");
        require(!partners[_partner].exists, " +:+ dq +:+ "Partner already exists" +:+ dq +:+ ");
        require(totalShares + _shares <= 100, " +:+ dq +:+ "Total shares cannot exceed 100" +:+ dq +:+ ");

        partners[_partner] = Partner({
            shares: _shares,
            totalReceived: 0,
            exists: true
        });
        partnerList.push(_partner);
        totalShares += _shares;

        emit PartnerAdded(_partner, _shares);
    }

    function removePartner(address _partner) 
        external 
        onlyOwner 
    {
        require(partners[_partner].exists, " +:+ dq +:+ "Partner does not exist" +:+ dq +:+ ");
        totalShares -= partners[_partner].shares;
        delete partners[_partner];

        for(uint i = 0; i < partnerList.length; i++) {
            if(partnerList[i] == _partner) {
                partnerList[i] = partnerList[partnerList.length - 1];
                partnerList.pop();
                break;
            }
        }

        emit PartnerRemoved(_partner);
    }

    function updateShares(address _partner, uint256 _newShares) 
        external 
        onlyOwner 
    {
        require(partners[_partner].exists, " +:+ dq +:+ "Partner does not exist" +:+ dq +:+ ");
        totalShares = totalShares - partners[_partner].shares + _newShares;
        require(totalShares <= 100, " +:+ dq +:+ "Total shares cannot exceed 100" +:+ dq +:+ ");
        
        partners[_partner].shares = _newShares;
        emit SharesUpdated(_partner, _newShares);
    }

    function distributeProfits() 
        external 
        payable 
        nonReentrant 
    {
        require(msg.value > 0, " +:+ dq +:+ "No profits to distribute" +:+ dq +:+ ");
        uint256 amount = msg.value;
        
        for(uint i = 0; i < partnerList.length; i++) {
            address partner = partnerList[i];
            uint256 share = (amount * partners[partner].shares) / 100;
            partners[partner].totalReceived += share;
            payable(partner).transfer(share);
        }
        
        totalDistributed += amount;
        emit ProfitDistributed(amount);
    }

    function getPartnerInfo(address _partner) 
        external 
        view 
        returns (uint256 shares, uint256 totalReceived, bool exists) 
    {
        Partner memory partner = partners[_partner];
        return (partner.shares, partner.totalReceived, partner.exists);
    }

    function getPartnerList() 
        external 
        view 
        returns (address[] memory) 
    {
        return partnerList;
    }
}".

Definition revenue_head : string :=
"// SPDX-License-Identifier: MIT
pragma solidity ^0.8.17;

import " +:+ dq +:+ "@openzeppelin/contracts/access/Ownable.sol" +:+ dq +:+ ";
import " +:+ dq +:+ "@openzeppelin/contracts/security/ReentrancyGuard.sol" +:+ dq +:+ ";

/**
 * @title Revenue Sharing Contract for ".

Definition revenue_tail : string :=
"
 * @dev Manages revenue distribution among stakeholders
 */
contract RevenueSharing is Ownable, ReentrancyGuard {
    struct Stakeholder {
        uint256 shares;
        uint256 totalEarnings;
        bool exists;
    }

    mapping(address => Stakeholder) public stakeholders;
    address[] public stakeholderList;
    
    uint256 public totalShares;
    uint256 public totalRevenue;
    uint256 public totalDistributed;
    
    uint256 public constant PRECISION = 10000; // For handling percentages with 2 decimal places

    event StakeholderAdded(address indexed stakeholder, uint256 shares);
    event StakeholderRemoved(address indexed stakeholder);
    event RevenueReceived(uint256 amount);
    event RevenueDistributed(uint256 amount);
    event SharesUpdated(address indexed stakeholder, uint256 newShares);

    constructor(address[] memory _stakeholders, uint256[] memory _shares) {
        require(_stakeholders.length == _shares.length, " +:+ dq +:+ "Arrays length mismatch" +:+ dq +:+ ");
        uint256 _totalShares = 0;
        
        for(uint i = 0; i < _stakeholders.length; i++) {
            require(_stakeholders[i] != address(0), " +:+ dq +:+ "Invalid stakeholder address" +:+ dq +:+ ");
            require(!stakeholders[_stakeholders[i]].exists, " +:+ dq +:+ "Duplicate stakeholder" +:+ dq +:+ ");
            
            stakeholders[_stakeholders[i]] = Stakeholder({
                shares: _shares[i],
                totalEarnings: 0,
                exists: true
            });
            stakeholderList.push(_stakeholders[i]);
            _totalShares += _shares[i];
        }
        
        require(_totalShares == PRECISION, " +:+ dq +:+ "Total shares must be 100%" +:+ dq +:+ ");
        totalShares = _totalShares;
    }

    receive() external payable {
        totalRevenue += msg.value;
        emit RevenueReceived(msg.value);
    }

    function addStakeholder(address _stakeholder, uint256 _shares) 
        external 
        onlyOwner 
    {
        require(_stakeholder != address(0), " +:+ dq +:+ "Invalid stakeholder address" +:+ dq +:+ ");
        require(!stakeholders[_stakeholder].exists, " +:+ dq +:+ "Stakeholder already exists" +:+ dq +:+ ");
        require(totalShares + _shares <= PRECISION, " +:+ dq +:+ "Total shares cannot exceed 100%" +:+ dq +:+ ");

        stakeholders[_stakeholder] = Stakeholder({
            shares: _shares,
            totalEarnings: 0,
            exists: true
        });
        stakeholderList.push(_stakeholder);
        totalShares += _shares;

        emit StakeholderAdded(_stakeholder, _shares);
    }

    function removeStakeholder(address _stakeholder) 
        external 
        onlyOwner 
    {
        require(stakeholders[_stakeholder].exists, " +:+ dq +:+ "Stakeholder does not exist" +:+ dq +:+ ");
        totalShares -= stakeholders[_stakeholder].shares;
        delete stakeholders[_stakeholder];

        for(uint i = 0; i < stakeholderList.length; i++) {
            if(stakeholderList[i] == _stakeholder) {
                stakeholderList[i] = stakeholderList[stakeholderList.length - 1];
                stakeholderList.pop();
                break;
            }
        }

        emit StakeholderRemoved(_stakeholder);
    }

    function updateShares(address _stakeholder, uint256 _newShares) 
        external 
        onlyOwner 
    {
        require(stakeholders[_stakeholder].exists, " +:+ dq +:+ "Stakeholder does not exist" +:+ dq +:+ ");
        uint256 newTotal = totalShares - stakeholders[_stakeholder].shares + _newShares;
        require(newTotal <= PRECISION, " +:+ dq +:+ "Total shares cannot exceed 100%" +:+ dq +:+ ");
        
        stakeholders[_stakeholder].shares = _newShares;
        totalShares = newTotal;
        
        emit SharesUpdated(_stakeholder, _newShares);
    }

    function distributeRevenue() 
        external 
        nonReentrant 
    {
        uint256 amount = address(this).balance;
        require(amount > 0, " +:+ dq +:+ "No revenue to distribute" +:+ dq +:+ ");
        
        for(uint i = 0; i < stakeholderList.length; i++) {
            address stakeholder = stakeholderList[i];
            uint256 share = amount * stakeholders[stakeholder].shares / PRECISION;
            stakeholders[stakeholder].totalEarnings += share;
            payable(stakeholder).transfer(share);
        }
        
        totalDistributed += amount;
        emit RevenueDistributed(amount);
    }

    function getStakeholderInfo(address _stakeholder) 
        external 
        view 
        returns (uint256 shares, uint256 totalEarnings, bool exists) 
    {
        Stakeholder memory stakeholder = stakeholders[_stakeholder];
        return (stakeholder.shares, stakeholder.totalEarnings, stakeholder.exists);
    }

    function getStakeholderList() 
        external 
        view 
        returns (address[] memory) 
    {
        return stakeholderList;
    }

    function getContractBalance() 
        external 
        view 
        returns (uint256) 
    {
        return address(this).balance;
    }
}".

Definition generic_head : string :=
"// SPDX-License-Identifier: MIT
pragma solidity ^0.8.17;

import " +:+ dq +:+ "@openzeppelin/contracts/access/Ownable.sol" +:+ dq +:+ ";
/**
 * @title ".

Definition generic_dev : string :=
"
 * @dev Standard contract for ".

Definition generic_decl : string :=
" transactions
 */
contract ".

Definition generic_body : string :=
" is Ownable {
    // State variables
    string public name;
    uint256 public creationTimestamp;
    address public creator;
    
    // Custom parameters
    ".

Definition generic_events : string :=
"
    
    // Events
    event ContractInitialized(address indexed creator, uint256 timestamp);
    event ActionPerformed(address indexed performer, string actionType, uint256 timestamp);
    
    /**
     * @dev Constructor to initialize the contract
     */
    constructor() {
        name = " +:+ dq.

Definition generic_tail : string :=
dq +:+ ";
        creationTimestamp = block.timestamp;
        creator = msg.sender;
        emit ContractInitialized(creator, creationTimestamp);
    }
    
    /**
     * @dev Example function for performing an action
     * @param actionType Type of action being performed
     */
    function performAction(string memory actionType) external {
        emit ActionPerformed(msg.sender, actionType, block.timestamp);
    }
    
    /**
     * @dev Function to retrieve contract information
     * @return Contract name, creator address, and creation timestamp
     */
    function getContractInfo() external view returns (string memory, address, uint256) {
        return (name, creator, creationTimestamp);
    }
}".

(** *** [getFallbackContract] *)

(** One line of the "Custom parameters" block of the generic template;
    none when the value has no rendering. *)
Definition customParameter (entry : string * JsValue) : option string :=
  let '(key, value) := entry in
  match show value with
  | Some shown =>
      Some ((if typeofString value then "string" else "uint256") +:+ " public " +:+ key +:+
            " = " +:+ (if typeofString value then dq +:+ shown +:+ dq else shown) +:+ ";")
  | None => None
  end.

Definition parameterSeparator : string := "
    ".

Definition customParameters (customizations : option Customizations) : option string :=
  match customizations with
  | Some obj =>
      match mapM customParameter obj with
      | Some lines => Some (join parameterSeparator lines)
      | None => None
      end
  | None => Some "// No custom parameters specified"
  end.

(** The contract, or [None] when a template literal throws on a
    customization value without a rendering: the token name in the
    equity template, any value in the generic one. *)
Definition getFallbackContract (entityType transactionType contractType : string)
    (customizations : option Customizations) : option string :=
  let tokenName := propertyOr customizations "tokenName" "EquityToken" in
  if includes contractType "Equity" then
    match tokenName with
    | Some tokenName =>
        Some (equity_head +:+ entityType +:+ equity_mid +:+ tokenName +:+ equity_tail)
    | None => None
    end
  else if includes contractType "Supply Chain" then
    Some (supply_head +:+ entityType +:+ supply_tail)
  else if includes contractType "Profit Sharing" then
    Some (profit_head +:+ entityType +:+ profit_tail)
  else if includes contractType "Revenue" then
    Some (revenue_head +:+ entityType +:+ revenue_tail)
  else
    match customParameters customizations with
    | Some parameters =>
        Some (generic_head +:+ removeSpaces contractType +:+ " for " +:+ entityType +:+
              generic_dev +:+ transactionType +:+
              generic_decl +:+ removeSpaces contractType +:+
              generic_body +:+ parameters +:+
              generic_events +:+ contractType +:+ generic_tail)
    | None => None
    end.

(** *** [generateCustomContract] *)

Section Generate.
(** [JSON.stringify] on the customizations object, and the message of
    the [TypeError] of the engine. *)
Variable stringify : Customizations -> string.
Variable typeError : string.

Definition basePrompt (entityType transactionType contractType : string)
    (customizations : option Customizations) : string :=
  "
            Generate a complete, production-ready Solidity smart contract with the following specifications:
            
            Entity Type: " +:+
  entityType +:+
  "
            Transaction Type: " +:+
  transactionType +:+
  "
            Contract Type: " +:+
  contractType +:+
  "
            Customizations: " +:+
  stringify (default [] customizations) +:+
  "
            
            IMPORTANT REQUIREMENTS:
            1. The contract must be fully implemented with NO placeholder comments like " +:+ dq +:+ "..." +:+ dq +:+ " or " +:+ dq +:+ "// implementation" +:+ dq +:+ ".
            2. Include SPDX license and pragma statement at the top.
            3. Include all necessary OpenZeppelin imports.
            4. Implement all functions completely, including proper error handling.
            5. Use the latest solidity best practices (version 0.8.x).
            6. Add detailed NatSpec comments.
            7. Implement proper access control and security features.
            8. Include events for all important state changes.

            The contract should be properly structured and immediately deployable without any modifications.
        ".

Definition user (text : string) : Message := {| role := "user"; content := text |}.
Definition system (text : string) : Message := {| role := "system"; content := text |}.

Definition togetherRequest (prompt : string) : Payload :=
  {| model := "deepseek-ai/DeepSeek-R1-Distill-Llama-70B-free";
     messages := [user prompt];
     max_tokens := Some 8000 |}.

Definition openRouterRequest (prompt : string) : Payload :=
  {| model := "google/gemini-exp-1206:free";
     messages := [user prompt];
     max_tokens := Some 4000 |}.

Definition aimlRequest (prompt : string) : Payload :=
  {| model := "mistralai/codestral-2501";
     messages :=
       [system "You are an expert Solidity developer specializing in smart contract generation.";
        user prompt];
     max_tokens := None |}.

(** The contract code a provider's answer yields, when the answer has a
    non-empty content and the extracted code passes the validation.
    (A content that is not a string makes [extractContractCode] throw
    inside the [try] block of the provider, which ends like a failed
    request.) *)
Definition accepted (out : HttpOutcome) : option string :=
  match out with
  | HttpOk (Some (String c text)) =>
      let contractCode := extractContractCode (String c text) in
      if validateContractCode contractCode then Some contractCode else None
  | _ => None
  end.

Definition providerAnalysis (entityType transactionType : string) : string :=
  "Contract analysis completed by Nanjunda for " +:+ entityType +:+ " with " +:+
  transactionType +:+ " transactions.".

Definition fallbackAnalysis (entityType transactionType contractType : string) : string :=
  "Nanjunda has analyzed your requirements for a " +:+ contractType +:+ " contract for " +:+
  entityType +:+ " with " +:+ transactionType +:+
  " transactions. Due to generation issues with our AI providers, we are providing a template contract that meets your requirements.".

(** The outer [catch] wraps what is thrown inside the function; with
    string categories only [getFallbackContract] throws. *)
Definition generateCustomContract (layer : Layer) (o : Oracle)
    (entityType transactionType contractType : string)
    (customizations : option Customizations) : Result AIResponse * Trace :=
  let prompt := basePrompt entityType transactionType contractType customizations in
  let '(out1, tr1) := post layer o Together (togetherRequest prompt) in
  match accepted out1 with
  | Some contractCode =>
      (Returned
         {| analysis := providerAnalysis entityType transactionType;
            code := contractCode;
            vulnerabilities := [];
            recommendations :=
              ["Consider adding more specific access controls";
               "Implement explicit error messages with custom errors";
               "Add reentrancy guards where appropriate"] |}, tr1)
  | None =>
  let '(out2, tr2) := post layer o OpenRouter (openRouterRequest prompt) in
  match accepted out2 with
  | Some contractCode =>
      (Returned
         {| analysis := providerAnalysis entityType transactionType;
            code := contractCode;
            vulnerabilities := [];
            recommendations :=
              ["Review access control implementation";
               "Consider implementing additional security checks";
               "Ensure proper event emission for all state changes"] |}, tr1 ++ tr2)
  | None =>
  let '(out3, tr3) := post layer o AIML (aimlRequest prompt) in
  match accepted out3 with
  | Some contractCode =>
      (Returned
         {| analysis := providerAnalysis entityType transactionType;
            code := contractCode;
            vulnerabilities := [];
            recommendations :=
              ["Implement more granular access controls";
               "Consider using SafeMath for all arithmetic operations";
               "Add more detailed input validation"] |}, tr1 ++ tr2 ++ tr3)
  | None =>
      match getFallbackContract entityType transactionType contractType customizations with
      | Some contract =>
          (Returned
             {| analysis := fallbackAnalysis entityType transactionType contractType;
                code := contract;
                vulnerabilities :=
                  ["Template provided due to generation issues with AI providers."];
                recommendations :=
                  ["Review the template contract thoroughly before deployment";
                   "Consider a security audit by a professional before using in production";
                   "Implement additional security checks specific to your use case"] |},
           tr1 ++ tr2 ++ tr3)
      | None =>
          (Thrown ("Failed to generate contract using AI: " +:+ typeError),
           tr1 ++ tr2 ++ tr3)
      end
  end end end.

End Generate.

End AiService.

(** ** The contract controller: [generateCustomizedContract] *)

Module Controller.
Import Http AiService.

(** [{ success: true, result }], or a status with
    [{ success: false, error }]. *)
Inductive Reply : Type :=
| Success (result : AIResponse)
| Failure (status : Z) (error : string).

Definition success (r : Reply) : bool :=
  match r with Success _ => true | Failure _ _ => false end.

Definition isEmpty (s : string) : bool := String.eqb s EmptyString.

(** The handler on a body whose category fields are strings, as its
    type [Request<{}, {}, ContractRequest>] has them. *)
Definition generateCustomizedContract (stringify : Customizations -> string)
    (typeError : string) (layer : Layer) (o : Oracle)
    (entityType transactionType contractType : string)
    (customizations : option Customizations) : Reply * Trace :=
  if isEmpty entityType || isEmpty transactionType || isEmpty contractType then
    (Failure 400 "Missing required parameters", [])
  else
    let '(result, tr) :=
      generateCustomContract stringify typeError layer o entityType transactionType
        contractType customizations in
    match result with
    | Returned result => (Success result, tr)
    | Thrown _ => (Failure 500 "Failed to generate contract", tr)
    end.

End Controller.

(** ** The main server *)

Module Server.
Import JsString Http.

(** *** Request categories *)

Definition EntityType : list string :=
  ["PRIVATE LIMITED COMPANY"; "PUBLIC LIMITED COMPANY"; "PARTNERSHIP"; "LLP"].

Definition TransactionType : list string := ["B2B"; "B2C"; "P2P"].

Definition ContractType : list string :=
  ["Equity Tokenization"; "Revenue Sharing"; "Supply Chain"; "White Label";
   "Vesting Agreements"; "Governance Token"; "Staking Contract"; "Liquidity Pool"].

(** [Object.values(E).includes(x)] for a string [x]; a value that is
    not a string is not found. *)
Definition isOneOf (values : list string) (x : string) : bool :=
  existsb (String.eqb x) values.

(** The interface [ContractRequest]: the category fields are strings. *)
Record ContractRequest : Type := {
  entityType : string;
  transactionType : string;
  contractType : string;
  customizations : option Customizations
}.

Definition validRequest (req : ContractRequest) : bool :=
  isOneOf EntityType (entityType req) &&
  isOneOf TransactionType (transactionType req) &&
  isOneOf ContractType (contractType req).

(** The body of a request as it arrives.  The handler reads it with
    [req.body as ContractRequest], which checks nothing: any JSON value
    may stand in a category field ([undefined] when the field is
    missing). *)
Record RequestBody : Type := {
  bodyEntityType : JsValue;
  bodyTransactionType : JsValue;
  bodyContractType : JsValue;
  bodyCustomizations : option Customizations
}.

(** A request of the interface, as a body. *)
Definition bodyOf (req : ContractRequest) : RequestBody :=
  {| bodyEntityType := JsStr (entityType req);
     bodyTransactionType := JsStr (transactionType req);
     bodyContractType := JsStr (contractType req);
     bodyCustomizations := customizations req |}.
Coercion bodyOf : ContractRequest >-> RequestBody.

(** "Validate request parameters": the three tests
    [Object.values(E).includes(field)] compare the raw values, so that a
    body passes them only with strings of the tables in its category
    fields; it is then a [ContractRequest]. *)
Definition validated (body : RequestBody) : option ContractRequest :=
  match bodyEntityType body, bodyTransactionType body, bodyContractType body with
  | JsStr entityType, JsStr transactionType, JsStr contractType =>
      if negb (isOneOf EntityType entityType) ||
         negb (isOneOf TransactionType transactionType) ||
         negb (isOneOf ContractType contractType)
      then None
      else Some {| entityType := entityType; transactionType := transactionType;
                   contractType := contractType;
                   customizations := bodyCustomizations body |}
  | _, _, _ => None
  end.

(** *** The process environment *)

(** The API keys are kept as "set to a non-empty value". *)
Record Env : Type := {
  TOGETHER_API_KEY : bool;
  OPENROUTER_API_KEY : bool;
  AIML_API_KEY : bool;
  SOLIDITY_VERSION : option string
}.

(** [process.env.SOLIDITY_VERSION || '0.8.20'] *)
Definition solidityVersion (env : Env) : string :=
  match SOLIDITY_VERSION env with
  | Some (String c v) => String c v
  | _ => "0.8.20"
  end.

(** *** Personas *)

Inductive Persona : Type := nanjunda | achyutha | sandeep.

Definition personaName (p : Persona) : string :=
  match p with
  | nanjunda => "nanjunda"
  | achyutha => "achyutha"
  | sandeep => "sandeep"
  end.

Record PersonaConfig : Type := {
  role : string;
  expertise : string;
  focus : list string;
  maxTokens : Z
}.

Definition PERSONA_CONFIGS (p : Persona) : PersonaConfig :=
  match p with
  | nanjunda =>
      {| role := "smart contract architect";
         expertise := "architecture and tokenomics";
         focus := ["Token economics"; "Access control"; "Integration"; "Compliance"];
         maxTokens := 4000 |}
  | achyutha =>
      {| role := "smart contract developer";
         expertise := "development and optimization";
         focus := ["Gas optimization"; "Security"; "Events"; "Access controls"];
         maxTokens := 8000 |}
  | sandeep =>
      {| role := "smart contract security expert";
         expertise := "security and compliance";
         focus := ["Attack vectors"; "Vulnerabilities"; "Economic risks"; "Compliance"];
         maxTokens := 4000 |}
  end.

(** *** The contract cache *)

Definition CACHE_DURATION : Z := 7 * 24 * 60 * 60 * 1000.

Record GasAnalysis : Type := {
  functionName : string;
  estimatedGas : Z;
  gasRecommendations : list string
}.

Inductive Status : Type := valid | outdated | invalid.

(** The nested objects [security], [fragments], [metadata] and
    [validation] are flattened. *)
Record CacheEntry : Type := {
  code : string;
  timestamp : Z;
  analysis : string;
  vulnerabilities : list string;
  recommendations : list string;
  gasAnalysis : list GasAnalysis;
  fragmentsBase : string;
  fragmentsFeatures : list string;
  fragmentsCustomizations : Customizations;
  compiler : string;
  framework : string;
  dependencies : list (string * string);
  lastChecked : Z;
  status : Status;
  issues : list string
}.

(** [generateCacheKey], on the renderings of its arguments. *)
Definition generateCacheKey (env : Env)
    (entityType transactionType contractType : string) : string :=
  entityType +:+ "_" +:+ transactionType +:+ "_" +:+ contractType +:+ "_" +:+
  solidityVersion env.

(** The key of a body: the template literal of [generateCacheKey] renders
    the three fields, whatever they are, and throws when one of them has
    no rendering. *)
Definition bodyKey (env : Env) (body : RequestBody) : option string :=
  match show (bodyEntityType body), show (bodyTransactionType body),
        show (bodyContractType body) with
  | Some entityType, Some transactionType, Some contractType =>
      Some (generateCacheKey env entityType transactionType contractType)
  | _, _, _ => None
  end.

(** [checkDependencyVersions]; [latest pkg] is the version the package
    registry reports, [None] when the lookup fails (the failure is logged
    and the package skipped).  The comparison is the one of JavaScript
    strings. *)
Definition checkDependencyVersions (latest : string -> option string)
    (deps : list (string * string)) : list string :=
  flat_map
    (fun '(pkg, version) =>
       match latest pkg with
       | Some latestVersion =>
           if String.ltb (removeFirst "^" version) latestVersion
           then [pkg +:+ ": " +:+ version +:+ " -> " +:+ latestVersion]
           else []
       | None => []
       end)
    deps.

Definition markOutdated (entry : CacheEntry) (found : option (list string)) : CacheEntry :=
  {| code := code entry; timestamp := timestamp entry; analysis := analysis entry;
     vulnerabilities := vulnerabilities entry; recommendations := recommendations entry;
     gasAnalysis := gasAnalysis entry; fragmentsBase := fragmentsBase entry;
     fragmentsFeatures := fragmentsFeatures entry;
     fragmentsCustomizations := fragmentsCustomizations entry;
     compiler := compiler entry; framework := framework entry;
     dependencies := dependencies entry; lastChecked := lastChecked entry;
     status := outdated;
     issues := match found with Some deps => deps | None => issues entry end |}.

(** [getFromCache]: the entry it returns, and the cache afterwards (the
    function writes the status of the stored entry). *)
Definition getFromCache (latest : string -> option string) (now : Z)
    (cacheKey : string) (contractCache : gmap string CacheEntry)
    : option CacheEntry * gmap string CacheEntry :=
  match contractCache !! cacheKey with
  | None => (None, contractCache)
  | Some entry =>
      if CACHE_DURATION <? now - lastChecked entry then
        (None, <[cacheKey := markOutdated entry None]> contractCache)
      else
        let outdatedDeps := checkDependencyVersions latest (dependencies entry) in
        if (0 <? length outdatedDeps)%nat then
          (None, <[cacheKey := markOutdated entry (Some outdatedDeps)]> contractCache)
        else (Some entry, contractCache)
  end.

(** *** [processWithPersona] *)

Definition systemMessage (persona : Persona) : string :=
  let config := PERSONA_CONFIGS persona in
  "You are " +:+ personaName persona +:+ ", specializing in smart contract " +:+
  expertise config +:+ ". Focus on: " +:+ join ", " (focus config) +:+
  match persona with
  | achyutha =>
    ". IMPORTANT: Generate COMPLETE smart contract code with NO truncation. Include ALL necessary:
  1. SPDX license identifier and pragma statement
  2. Required imports from OpenZeppelin or other libraries
  3. Full contract implementation with ALL functions, modifiers, and events
  4. Detailed NatSpec comments for all functions
  5. Full implementation of all features requested
  6. Security best practices and gas optimizations
  Never end the code with ellipses or placeholders - provide the complete implementation."
  | _ => EmptyString
  end.

Definition chatRequest (modelId : string) (persona : Persona) (prompt : string) : Payload :=
  {| model := modelId;
     messages := [ {| Http.role := "system"; content := systemMessage persona |};
                   {| Http.role := "user"; content := prompt |} ];
     max_tokens := Some (maxTokens (PERSONA_CONFIGS persona)) |}.

(** "Basic response validation": the text of an answer that is neither
    missing nor shorter than 50 characters.  (The providers answer in
    the chat-completion format, where the content of a message is a
    string or is missing.) *)
Definition substantial (out : HttpOutcome) : option string :=
  match out with
  | HttpOk (Some responseText) =>
      if (String.length responseText <? 50)%nat then None else Some responseText
  | _ => None
  end.

(** One [try] block: when the key is set the provider is asked, and a
    substantial answer is returned; otherwise, or when the block ends in
    its [catch], the code after the block runs. *)
Definition tryProvider (o : Oracle) (keySet : bool) (p : Provider) (body : Payload)
    (afterwards : Result string * Trace) : Result string * Trace :=
  if keySet then
    let '(out, tr) := post Intercepted o p body in
    match substantial out with
    | Some responseText => (Returned responseText, tr)
    | None => let '(r, tr') := afterwards in (r, tr ++ tr')
    end
  else afterwards.

Definition togetherModel : string := "deepseek-ai/DeepSeek-R1-Distill-Llama-70B-free".
Definition openRouterModel : string := "google/gemini-exp-1206:free".
Definition aimlModel : string := "mistralai/codestral-2501".

(** The category arguments are passed by the callers and not read. *)
Definition processWithPersona (env : Env) (o : Oracle) (prompt : string) (persona : Persona)
    (contractType entityType transactionType : string) : Result string * Trace :=
  tryProvider o (TOGETHER_API_KEY env) Together (chatRequest togetherModel persona prompt)
    (tryProvider o (OPENROUTER_API_KEY env) OpenRouter (chatRequest openRouterModel persona prompt)
       (tryProvider o (AIML_API_KEY env) AIML (chatRequest aimlModel persona prompt)
          (Thrown "Failed to generate content with any available API", []))).

(** *** [POST /api/generate] *)

Record GenerationData : Type := {
  dataAnalysis : string;
  dataCode : string;
  dataVulnerabilities : list string;
  dataRecommendations : list string;
  dataGasAnalysis : list GasAnalysis
}.

(** [Generated]: status 200 with [success: true]; the [fromCache] field
    is only present on a cache hit.  [Rejected]: the given status with
    [success: false].  The [processingTime] field is left out. *)
Inductive Response : Type :=
| Generated (data : GenerationData) (fromCache : option bool)
| Rejected (statusCode : Z) (error : string).

Definition success (r : Response) : bool :=
  match r with Generated _ _ => true | Rejected _ _ => false end.

Definition fromCache (r : Response) : option bool :=
  match r with Generated _ fc => fc | Rejected _ _ => None end.

Definition artifact (r : Response) : option string :=
  match r with Generated d _ => Some (dataCode d) | Rejected _ _ => None end.

Section Endpoint.
(** The message of the [TypeError] the engine throws when a template
    literal meets a value without a rendering. *)
Variable typeError : string.

(** Collaborators of the endpoint that the statements below do not look
    into: the prompt template of [getContractTemplate] and the text
    scanners.  [getContractTemplate] renders two of the customizations
    ([extraParams] and [constructorLogic]) and gives no template when
    it throws on one of them. *)
Variable getContractTemplate :
  string -> string -> string -> option Customizations -> option string.
Variable analyzeGasUsage : string -> list GasAnalysis.
Variable extractVulnerabilities : string -> list string.
Variable extractRecommendations : string -> list string.

Definition analysisPrompt (req : ContractRequest) : string :=
  "Analyze the requirements for a " +:+ contractType req +:+ " smart contract for a " +:+
  entityType req +:+ " doing " +:+ transactionType req +:+
  " transactions. Focus on key requirements and constraints only.".

Definition codePrompt (req : ContractRequest) (template : string) : string :=
  let contractType := contractType req in
  let entityType := entityType req in
  let transactionType := transactionType req in
  "Generate a complete, production-ready Solidity smart contract for " +:+
  contractType +:+
  " (" +:+
  entityType +:+
  ", " +:+
  transactionType +:+
  "). 
IMPORTANT: You must provide the COMPLETE code implementation. DO NOT use ellipsis (...) or comments like " +:+ dq +:+ "rest remains the same" +:+ dq +:+ ". Every function, event, and feature must be fully implemented.

Requirements:
1. SPDX License and pragma statement
2. All necessary imports from OpenZeppelin and Chainlink
3. Complete contract implementation including:
   - All state variables and their visibility
   - All events with proper indexing
   - All modifiers with full implementation
   - Constructor with all necessary initialization
   - All public and external functions fully implemented
   - All internal and private helper functions
4. Proper error handling with custom errors
5. Full NatSpec documentation for all functions
6. Gas optimizations:
   - Use unchecked blocks for counters
   - Use custom errors instead of require statements
   - Use immutable for constants
   - Optimize storage layout
7. Security features:
   - Access control for all sensitive functions
   - Reentrancy protection
   - Integer overflow protection
   - Proper event emission
8. Features specific to:
   - Entity Type: " +:+
  entityType +:+
  "
   - Transaction Type: " +:+
  transactionType +:+
  "
   - Contract Type: " +:+
  contractType +:+
  "

Base the implementation on this template but provide COMPLETE implementation:
" +:+
  template +:+
  "

Remember: DO NOT use any placeholders or ellipsis (...). Every part of the code must be completely implemented.".

Definition securityPrompt (req : ContractRequest) : string :=
  "Analyze critical security aspects for " +:+ contractType req +:+ " (" +:+
  entityType req +:+ ", " +:+ transactionType req +:+
  "). List all potential vulnerabilities and provide detailed recommendations.".

(** "Validate generated code" *)
Definition completeCode (generatedCode : string) : bool :=
  negb (negb (includes generatedCode "SPDX-License-Identifier") ||
        negb (includes generatedCode "pragma solidity") ||
        negb (includes generatedCode "contract") ||
        includes generatedCode "..." ||
        includes generatedCode "rest of" ||
        includes generatedCode "remains the same").

Definition codePhase (env : Env) (o : Oracle) (req : ContractRequest)
    : Result string * Trace :=
  match getContractTemplate (contractType req) (entityType req) (transactionType req)
          (customizations req) with
  | None => (Thrown typeError, [])
  | Some template =>
      let '(generated, tr) :=
        processWithPersona env o (codePrompt req template) achyutha
          (contractType req) (entityType req) (transactionType req) in
      match generated with
      | Returned generatedCode =>
          if completeCode generatedCode then (Returned generatedCode, tr)
          else (Thrown "Generated code is incomplete or invalid", tr)
      | Thrown message => (Thrown message, tr)
      end
  end.

(** The status of the outer [catch]. *)
Definition errorStatus (message : string) : Z :=
  if includes message "OPENROUTER_API_KEY" then 401
  else if includes message "rate limit" then 429
  else 500.

Definition failed (message : string) : Response := Rejected (errorStatus message) message.

Definition defaultDependencies : list (string * string) :=
  [("@openzeppelin/contracts-upgradeable", "^5.0.0"); ("@openzeppelin/contracts", "^5.0.0")].

(** [Promise.all] rejects with the reason of the task that is rejected
    first.  [settles persona] is the time at which the task of the
    persona settles; of two tasks that settle together the one that
    stands first in the array counts. *)
Fixpoint earliest (settles : Persona -> nat) (first : Persona * string)
    (others : list (Persona * string)) : Persona * string :=
  match others with
  | [] => first
  | next :: others' =>
      let later := earliest settles next others' in
      if (settles (fst later) <? settles (fst first))%nat then later else first
  end.

Definition rejected (settles : Persona -> nat) (first : Persona * string)
    (others : list (Persona * string)) : Response :=
  failed (snd (earliest settles first others)).

(** The three tasks of [Promise.all], run here one after the other;
    each task makes its calls whatever becomes of the others.
    [checked] is the clock read by [new Date()] once the tasks are
    done, [stored] the one read by [Date.now()] when the entry is
    built. *)
Definition generateFresh (env : Env) (o : Oracle) (checked stored : Z)
    (settles : Persona -> nat) (req : ContractRequest)
    (cacheKey : string) (contractCache : gmap string CacheEntry)
    : Response * gmap string CacheEntry * Trace :=
  let '(analysis, tr1) :=
    processWithPersona env o (analysisPrompt req) nanjunda
      (contractType req) (entityType req) (transactionType req) in
  let '(code, tr2) := codePhase env o req in
  let '(securityAnalysis, tr3) :=
    processWithPersona env o (securityPrompt req) sandeep
      (contractType req) (entityType req) (transactionType req) in
  let tr := tr1 ++ tr2 ++ tr3 in
  match analysis, code, securityAnalysis with
  | Returned analysis, Returned code, Returned securityAnalysis =>
      match getContractTemplate (contractType req) (entityType req) (transactionType req)
              (customizations req) with
      | None => (failed typeError, contractCache, tr)
      | Some template =>
          let cacheEntry :=
            {| code := code;
               timestamp := stored;
               analysis := analysis;
               vulnerabilities := extractVulnerabilities securityAnalysis;
               recommendations := extractRecommendations securityAnalysis;
               gasAnalysis := analyzeGasUsage code;
               fragmentsBase := template;
               fragmentsFeatures := [];
               fragmentsCustomizations := default [] (customizations req);
               compiler := solidityVersion env;
               framework := "OpenZeppelin 5.0.0";
               dependencies := defaultDependencies;
               lastChecked := checked;
               status := valid;
               issues := [] |} in
          (Generated
             {| dataAnalysis := analysis;
                dataCode := code;
                dataVulnerabilities := extractVulnerabilities securityAnalysis;
                dataRecommendations := extractRecommendations securityAnalysis;
                dataGasAnalysis := analyzeGasUsage code |} None,
           <[cacheKey := cacheEntry]> contractCache, tr)
      end
  | Thrown m1, Thrown m2, Thrown m3 =>
      (rejected settles (nanjunda, m1) [(achyutha, m2); (sandeep, m3)], contractCache, tr)
  | Thrown m1, Thrown m2, Returned _ =>
      (rejected settles (nanjunda, m1) [(achyutha, m2)], contractCache, tr)
  | Thrown m1, Returned _, Thrown m3 =>
      (rejected settles (nanjunda, m1) [(sandeep, m3)], contractCache, tr)
  | Returned _, Thrown m2, Thrown m3 =>
      (rejected settles (achyutha, m2) [(sandeep, m3)], contractCache, tr)
  | Thrown m1, Returned _, Returned _ => (failed m1, contractCache, tr)
  | Returned _, Thrown m2, Returned _ => (failed m2, contractCache, tr)
  | Returned _, Returned _, Thrown m3 => (failed m3, contractCache, tr)
  end.

(** The handler.  [now] is the clock at the cache check, which comes
    before the validation. *)
Definition generate (env : Env) (o : Oracle) (now checked stored : Z)
    (settles : Persona -> nat) (body : RequestBody)
    (contractCache : gmap string CacheEntry)
    : Response * gmap string CacheEntry * Trace :=
  match bodyKey env body with
  | None => (failed typeError, contractCache, [])
  | Some cacheKey =>
      let miss :=
        match validated body with
        | None =>
            (Rejected 400 "Invalid entity type, transaction type, or contract type",
             contractCache, [])
        | Some req => generateFresh env o checked stored settles req cacheKey contractCache
        end in
      match contractCache !! cacheKey with
      | Some cachedContract =>
          if now - timestamp cachedContract <? CACHE_DURATION then
            (Generated
               {| dataAnalysis := analysis cachedContract;
                  dataCode := code cachedContract;
                  dataVulnerabilities := vulnerabilities cachedContract;
                  dataRecommendations := recommendations cachedContract;
                  dataGasAnalysis := gasAnalysis cachedContract |} (Some true),
             contractCache, [])
          else miss
      | None => miss
      end
  end.

End Endpoint.

End Server.

(** ** The earlier server ([backend/src/server.ts]) *)

Module LegacyServer.
Import JsString Http Server.

Definition personaPrompts (p : Persona) : string :=
  match p with
  | nanjunda => "As Nanjunda, analyze the contract requirements and provide detailed insights: "
  | achyutha => "As Achyutha, optimize and generate the smart contract code with best practices: "
  | sandeep => "As Sandeep, perform security analysis and ensure compliance: "
  end.

Definition personaRequest (prompt : string) (persona : Persona) : Payload :=
  {| model := "anthropic/claude-2";
     messages :=
       [ {| Http.role := "system";
            content := "You are " +:+ personaName persona +:+ ", an expert in smart contract " +:+
                       match persona with
                       | nanjunda => "analysis"
                       | achyutha => "development"
                       | sandeep => "security"
                       end +:+ "." |};
         {| Http.role := "user"; content := personaPrompts persona +:+ prompt |} ];
     max_tokens := None |}.

(** Why a call did not return: the request failed, or the response had no
    [choices[0].message] to read (a 2xx response without content is read
    here as one without message). *)
Inductive Failure : Type :=
| RequestFailed (status : option Z)
| MalformedResponse.

Definition processWithPersona (o : Oracle) (prompt : string) (persona : Persona)
    : (string + Failure) * Trace :=
  let '(out, tr) := post Plain o OpenRouter (personaRequest prompt persona) in
  match out with
  | HttpOk (Some text) => (inl text, tr)
  | HttpOk None => (inr MalformedResponse, tr)
  | HttpFail status => (inr (RequestFailed status), tr)
  end.

(** [{ success: true, contract, result }], or status 500 with
    [{ success: false, error }], the error kept as its cause. *)
Inductive Reply : Type :=
| Success (contract : string) (result : AiService.AIResponse)
| ServerError (cause : Failure).

Section Endpoint.
Variable stringify : option Customizations -> string.
Variable extractVulnerabilities : string -> list string.
Variable extractRecommendations : string -> list string.

Definition basePrompt (req : ContractRequest) : string :=
  "
      Entity Type: " +:+ entityType req +:+ "
      Transaction Type: " +:+ transactionType req +:+ "
      Contract Type: " +:+ contractType req +:+ "
      Additional Customizations: " +:+ stringify (customizations req) +:+ "
    ".

(** "Sequential processing through personas" *)
Definition generate (o : Oracle) (req : ContractRequest) : Reply * Trace :=
  let '(analysis, tr1) := processWithPersona o (basePrompt req) nanjunda in
  match analysis with
  | inr cause => (ServerError cause, tr1)
  | inl analysis =>
      let '(code, tr2) := processWithPersona o analysis achyutha in
      match code with
      | inr cause => (ServerError cause, tr1 ++ tr2)
      | inl code =>
          let '(security, tr3) := processWithPersona o code sandeep in
          match security with
          | inr cause => (ServerError cause, tr1 ++ tr2 ++ tr3)
          | inl security =>
              (Success code
                 {| AiService.analysis := analysis;
                    AiService.code := code;
                    AiService.vulnerabilities := extractVulnerabilities security;
                    AiService.recommendations := extractRecommendations security |},
               tr1 ++ tr2 ++ tr3)
          end
      end
  end.

End Endpoint.

End LegacyServer.

(** ** The cache write helper of the main server *)

Module CacheWrite.
Import Server.

(** [Partial<CacheEntry>]: every field may be missing; a nested object
    that is given is given whole. *)
Record PartialEntry : Type := {
  partialCode : option string;
  partialTimestamp : option Z;
  partialAnalysis : option string;
  partialSecurity : option (list string * list string);
  partialGasAnalysis : option (list GasAnalysis);
  partialFragments : option (string * list string * Customizations);
  partialMetadata : option (string * string * list (string * string));
  partialValidation : option (Z * Status * list string)
}.

(** [saveToCache]; [now] is the clock of the call.  A string field
    defaults to the empty string ([entry.code || '']), a missing object
    to the literal of the source; the time stamp and the validation of
    the argument are not read. *)
Definition saveToCache (env : Env) (now : Z) (cacheKey : string) (entry : PartialEntry)
    (contractCache : gmap string CacheEntry) : gmap string CacheEntry :=
  let security := default ([], []) (partialSecurity entry) in
  let fragments := default (EmptyString, [], []) (partialFragments entry) in
  let metadata :=
    default (solidityVersion env, "OpenZeppelin 5.0.0",
             [("@openzeppelin/contracts-upgradeable", "^5.0.0");
              ("@openzeppelin/contracts", "^5.0.0")])
      (partialMetadata entry) in
  let newEntry :=
    {| code := default EmptyString (partialCode entry);
       timestamp := now;
       analysis := default EmptyString (partialAnalysis entry);
       vulnerabilities := fst security;
       recommendations := snd security;
       gasAnalysis := default [] (partialGasAnalysis entry);
       fragmentsBase := fst (fst fragments);
       fragmentsFeatures := snd (fst fragments);
       fragmentsCustomizations := snd fragments;
       compiler := fst (fst metadata);
       framework := snd (fst metadata);
       dependencies := snd metadata;
       lastChecked := now;
       status := valid;
       issues := [] |} in
  <[cacheKey := newEntry]> contractCache.

(** The entry with another time stamp. *)
Definition restamped (timestamp' : Z) (entry : CacheEntry) : CacheEntry :=
  {| code := code entry; timestamp := timestamp'; analysis := analysis entry;
     vulnerabilities := vulnerabilities entry; recommendations := recommendations entry;
     gasAnalysis := gasAnalysis entry; fragmentsBase := fragmentsBase entry;
     fragmentsFeatures := fragmentsFeatures entry;
     fragmentsCustomizations := fragmentsCustomizations entry;
     compiler := compiler entry; framework := framework entry;
     dependencies := dependencies entry; lastChecked := lastChecked entry;
     status := status entry; issues := issues entry |}.

End CacheWrite.
(** ** Reading the findings out of a security analysis *)

Module JsText.
Import JsString.

(** The line feed, as a character and as a separator. *)
Definition lf : ascii := "010"%char.
Definition newline : string := String lf EmptyString.

(** [s.split('\n')]: the pieces between the line feeds; the empty string
    gives one empty piece. *)
Fixpoint split (s : string) : list string :=
  match s with
  | EmptyString => [EmptyString]
  | String c s' =>
      if Ascii.eqb c lf then EmptyString :: split s'
      else match split s' with
           | line :: rest => String c line :: rest
           | [] => [String c EmptyString]
           end
  end.

(** [s.toLowerCase()], within ASCII: the letters [A] to [Z] are moved to
    [a] to [z]. *)
Definition lowerChar (c : ascii) : ascii :=
  let n := nat_of_ascii c in
  if (65 <=? n)%nat && (n <=? 90)%nat then ascii_of_nat (n + 32) else c.

Fixpoint toLowerCase (s : string) : string :=
  match s with
  | EmptyString => EmptyString
  | String c s' => String (lowerChar c) (toLowerCase s')
  end.

(** [line.toLowerCase().includes(word)] *)
Definition mentions (line word : string) : bool := includes (toLowerCase line) word.

(** The truthiness of a string. *)
Definition nonEmpty (s : string) : bool := negb (String.eqb s EmptyString).

End JsText.

(** The extractors of the main server: a scan of the lines for the
    section headers. *)
Module SectionScan.
Import JsString JsText.

(** The loop of [extractVulnerabilities], from a line on, with the flag
    [inVulnerabilitiesSection] as it stands there. *)
Fixpoint vulnerabilitiesFrom (inVulnerabilitiesSection : bool) (lines : list string)
    : list string :=
  match lines with
  | [] => []
  | line :: rest =>
      if mentions line "vulnerabilities:" then vulnerabilitiesFrom true rest
      else
        let pushed :=
          if inVulnerabilitiesSection && nonEmpty (trim line) &&
             negb (mentions line "recommendations:")
          then [trim line] else [] in
        if inVulnerabilitiesSection && mentions line "recommendations:" then pushed
        else pushed ++ vulnerabilitiesFrom inVulnerabilitiesSection rest
  end.

Definition extractVulnerabilities (securityAnalysis : string) : list string :=
  vulnerabilitiesFrom false (split securityAnalysis).

(** The loop of [extractRecommendations]. *)
Fixpoint recommendationsFrom (inRecommendationsSection : bool) (lines : list string)
    : list string :=
  match lines with
  | [] => []
  | line :: rest =>
      if mentions line "recommendations:" then recommendationsFrom true rest
      else
        (if inRecommendationsSection && nonEmpty (trim line) then [trim line] else []) ++
        recommendationsFrom inRecommendationsSection rest
  end.

Definition extractRecommendations (securityAnalysis : string) : list string :=
  recommendationsFrom false (split securityAnalysis).

End SectionScan.

(** The extractors of [aiService.ts] (second revision): the lines that
    mention a keyword. *)
Module KeywordScan.
Import JsString JsText.

Definition vulnerabilityLine (line : string) : bool :=
  mentions line "vulnerability" || mentions line "risk" ||
  mentions line "issue" || mentions line "weakness".

Definition recommendationLine (line : string) : bool :=
  mentions line "recommend" || mentions line "suggest" ||
  mentions line "should" || mentions line "best practice".

Definition extractVulnerabilities (securityAnalysis : string) : list string :=
  List.filter (fun line => (0 <? String.length line)%nat)
    (map trim (List.filter vulnerabilityLine (split securityAnalysis))).

Definition extractRecommendations (securityAnalysis : string) : list string :=
  List.filter (fun line => (0 <? String.length line)%nat)
    (map trim (List.filter recommendationLine (split securityAnalysis))).

End KeywordScan.
(** ** Reading names out of a contract: [extractContractName] and [analyzeGasUsage] *)

Module CodeScan.
Import JsString Server.

(** [\w]: a digit, a letter or the underscore. *)
Definition isWord (c : ascii) : bool :=
  let n := nat_of_ascii c in
  ((48 <=? n)%nat && (n <=? 57)%nat) || ((65 <=? n)%nat && (n <=? 90)%nat) ||
  (n =? 95)%nat || ((97 <=? n)%nat && (n <=? 122)%nat).

(** The longest prefix of [s] whose characters satisfy [f], and what
    follows it: a greedy quantifier over a character class.  In the two
    patterns below every quantified class is followed by something that
    no character of the class can start, so that giving back a character
    never helps a match and the greedy choice is the only one. *)
Fixpoint span (f : ascii -> bool) (s : string) : string * string :=
  match s with
  | EmptyString => (EmptyString, EmptyString)
  | String c s' =>
      if f c then let '(taken, rest) := span f s' in (String c taken, rest)
      else (EmptyString, s)
  end.

(** The first group of [/contract\s+(\w+)/] for a match that starts at
    the head of [s]. *)
Definition declarationAt (s : string) : option string :=
  if startsWith "contract" s then
    match span isSpace (AiService.drop 8 s) with
    | (String _ _, rest) =>
        match fst (span isWord rest) with
        | String c name => Some (String c name)
        | EmptyString => None
        end
    | (EmptyString, _) => None
    end
  else None.

(** The leftmost match. *)
Fixpoint firstDeclaration (s : string) : option string :=
  match declarationAt s with
  | Some name => Some name
  | None =>
      match s with
      | EmptyString => None
      | String _ s' => firstDeclaration s'
      end
  end.

Definition extractContractName (contractCode : string) : string :=
  match firstDeclaration contractCode with
  | Some name => name
  | None => "Contract"
  end.

(** The first group and the length of a match of
    [/function\s+(\w+)\s*\([^)]*\)/] that starts at the head of [s].
    The span of the parameters stops at a closing parenthesis or at the
    end of the text, so that what follows it, if anything, starts with
    the closing parenthesis. *)
Definition definitionAt (s : string) : option (string * nat) :=
  if startsWith "function" s then
    match span isSpace (AiService.drop 8 s) with
    | (String g gap, afterGap) =>
        match span isWord afterGap with
        | (String c name, afterName) =>
            let '(gap', afterGap') := span isSpace afterName in
            match afterGap' with
            | String paren afterParen =>
                if Ascii.eqb paren "(" then
                  let '(parameters, afterParameters) :=
                    span (fun c => negb (Ascii.eqb c ")")) afterParen in
                  match afterParameters with
                  | String _ _ =>
                      Some (String c name,
                            (8 + String.length (String g gap) +
                             String.length (String c name) + String.length gap' + 1 +
                             String.length parameters + 1)%nat)
                  | EmptyString => None
                  end
                else None
            | EmptyString => None
            end
        | (EmptyString, _) => None
        end
    | (EmptyString, _) => None
    end
  else None.

(** [matchAll]: the matches from left to right, each search starting
    where the match before it ended; [skip] counts the characters of the
    last match that are still ahead. *)
Fixpoint definitionsFrom (skip : nat) (s : string) {struct s} : list string :=
  match skip with
  | S skip' =>
      match s with
      | EmptyString => []
      | String _ s' => definitionsFrom skip' s'
      end
  | O =>
      match definitionAt s with
      | Some (name, matched) =>
          name :: match s with
                  | EmptyString => []
                  | String _ s' => definitionsFrom (matched - 1) s'
                  end
      | None =>
          match s with
          | EmptyString => []
          | String _ s' => definitionsFrom O s'
          end
      end
  end.

(** The recommendations of an entry: they are computed from the whole
    contract, for every function alike. *)
Definition recommendationsFor (contractCode : string) : list string :=
  (if includes contractCode "for (uint "
   then ["Consider using unchecked blocks for loop counters to save gas"] else []) ++
  (if includes contractCode "require("
   then ["Use custom errors instead of require statements to save gas"] else []) ++
  (if includes contractCode "string memory"
   then ["Consider using bytes instead of string to save gas"] else []).

Definition analyzeGasUsage (contractCode : string) : list GasAnalysis :=
  map (fun func =>
         {| functionName := func;
            estimatedGas := 50000;
            gasRecommendations := recommendationsFor contractCode |})
    (definitionsFrom O contractCode).

End CodeScan.
(** ** Notions used by the statements *)

Module Notions.
Import JsString Http Server.

(** A failure the interceptor answers with a retry: any failure other
    than the statuses 400, 401 and 403 (a 429, a time-out, a transport
    error, ...). *)
Definition retryable (out : HttpOutcome) : bool :=
  match out with
  | HttpFail status => negb (noRetry status)
  | HttpOk _ => false
  end.



(** The placeholder markers [validateContractCode] looks for. *)
Definition placeholderMarkers : list string :=
  ["..."; "// TODO"; "// Implementation"; "rest of the code"; "// Add implementation"].

Definition markerFree (s : string) : bool :=
  forallb (fun m => negb (includes s m)) placeholderMarkers.

(** The rendering of the value, if it has one, holds no marker. *)
Definition markerFreeValue (value : JsValue) : bool :=
  match show value with
  | Some shown => markerFree shown
  | None => true
  end.

(** No key and no rendered value of the customizations holds a marker. *)
Definition markerFreeCustomizations (customizations : option Customizations) : bool :=
  match customizations with
  | None => true
  | Some obj => forallb (fun '(key, value) => markerFree key && markerFreeValue value) obj
  end.

(** No rendered value of the customizations holds a marker. *)
Definition markerFreeValues (customizations : option Customizations) : bool :=
  match customizations with
  | None => true
  | Some obj => forallb (fun '(_, value) => markerFreeValue value) obj
  end.

(** Every value of the customizations has a rendering. *)
Definition renderable (customizations : option Customizations) : bool :=
  match customizations with
  | None => true
  | Some obj =>
      forallb (fun '(_, value) => match show value with Some _ => true | None => false end)
        obj
  end.

(** [closes x]: no marker occurs in [x] or starts in [x] and runs past
    its end.  [opens y]: no marker that starts before [y] runs into it. *)
Definition closes (x : string) : bool :=
  forallb (fun m => noBorder m x && negb (includes x m)) placeholderMarkers.

Definition opens (y : string) : bool :=
  forallb (fun m => noEntry m y) placeholderMarkers.

(** No category field holds a marker, nor does the contract type once
    its white space is removed (the generic template uses both). *)
Definition markerFreeCategories (entityType transactionType contractType : string) : bool :=
  markerFree entityType && markerFree transactionType && markerFree contractType &&
  markerFree (removeSpaces contractType).

(** What the validation asks of a contract, written out. *)
Definition wellFormed (code : string) : Prop :=
  AiService.validateContractCode code = true /\
  includes code "pragma solidity" = true /\
  includes code "SPDX-License-Identifier" = true /\
  includes code "contract " = true /\
  includes code "constructor" || includes code "function " = true /\
  (500 < String.length code)%nat /\
  markerFree code = true.

(** The fallback contract of a request, if [getFallbackContract]
    returns one. *)
Definition fallbackOf (req : ContractRequest) : option string :=
  AiService.getFallbackContract (entityType req) (transactionType req) (contractType req)
    (customizations req).

Definition underscoreFree (s : string) : bool := negb (includes s "_").

Definition underscoreFreeCategories (req : ContractRequest) : bool :=
  underscoreFree (entityType req) && underscoreFree (transactionType req) &&
  underscoreFree (contractType req).

(** The cache key the endpoint computes for a request of the
    interface. *)
Definition requestKey (env : Env) (req : ContractRequest) : string :=
  generateCacheKey env (entityType req) (transactionType req) (contractType req).

(** Every attempt at every provider fails. *)
Definition allFail (o : Oracle) : Prop :=
  forall p body n, exists status, o p body n = HttpFail status.

(** Every exchange of the persona task with the prompt [prompt] fails,
    whichever provider is asked. *)
Definition taskFails (o : Oracle) (persona : Persona) (prompt : string) : Prop :=
  forall p modelId n, exists status,
    o p (chatRequest modelId persona prompt) n = HttpFail status.

(** The cache holds no entry under the key that the endpoint would
    serve at the time [now]. *)
Definition noLiveEntry (now : Z) (key : string) (contractCache : gmap string CacheEntry)
    : Prop :=
  forall entry, contractCache !! key = Some entry -> CACHE_DURATION <= now - timestamp entry.

(** Every key of the cache is the key of a request that passes the
    validation of the endpoint.  The endpoint is the only writer of the
    cache and keeps this. *)
Definition cacheOfValidRequests (env : Env) (contractCache : gmap string CacheEntry) : Prop :=
  forall k entry, contractCache !! k = Some entry ->
    exists req, validRequest req = true /\ k = requestKey env req.

(** The prompt of a persona task of the endpoint; the code task has none
    when the template of the request cannot be rendered. *)
Definition taskPrompt
    (getContractTemplate : string -> string -> string -> option Customizations -> option string)
    (req : ContractRequest) (persona : Persona) : option string :=
  match persona with
  | nanjunda => Some (analysisPrompt req)
  | achyutha =>
      match getContractTemplate (contractType req) (entityType req) (transactionType req)
              (customizations req) with
      | Some template => Some (codePrompt req template)
      | None => None
      end
  | sandeep => Some (securityPrompt req)
  end.

(** The request body of a call is the one of a persona task of [req]:
    the system message of the persona and the prompt above. *)
Definition builtFromRequest
    (getContractTemplate : string -> string -> string -> option Customizations -> option string)
    (req : ContractRequest) (ev : Event) : Prop :=
  match ev with
  | ECall _ body _ =>
      exists persona modelId prompt,
        taskPrompt getContractTemplate req persona = Some prompt /\
        body = chatRequest modelId persona prompt
  | EDelay _ => True
  end.

Definition sameCategories (req req' : ContractRequest) : Prop :=
  entityType req = entityType req' /\
  transactionType req = transactionType req' /\
  contractType req = contractType req'.

End Notions.

(** ** Readings of traces and of the environment *)

Module Measures.
Import JsString Http Server.

(** The time a trace spends waiting, in milliseconds. *)
Definition totalDelay (tr : Trace) : Z := fold_right Z.add 0 (delays tr).

(** The trace of a request of which [k] exchanges were answered by a
    retry: exchange [0], then for every [i] from [1] to [k] the wait
    before the retry and exchange [i]. *)
Definition retries (p : Provider) (body : Payload) (first k : nat) : Trace :=
  flat_map (fun i => [EDelay (backoffDelay i); ECall p body i]) (seq first k).

Definition retrySchedule (p : Provider) (body : Payload) (k : nat) : Trace :=
  ECall p body 0%nat :: retries p body 1 k.

(** Whether the key [processWithPersona] tests before it asks [p] is
    set. *)
Definition keySet (env : Env) (p : Provider) : bool :=
  match p with
  | Together => TOGETHER_API_KEY env
  | OpenRouter => OPENROUTER_API_KEY env
  | AIML => AIML_API_KEY env
  end.

(** The model [processWithPersona] names to [p]. *)
Definition personaModel (p : Provider) : string :=
  match p with
  | Together => togetherModel
  | OpenRouter => openRouterModel
  | AIML => aimlModel
  end.

(** The providers that stand before [p] in the priority order of the
    chains (Together, OpenRouter, AIML), and those that stand after
    it. *)
Definition before (p : Provider) : list Provider :=
  match p with
  | Together => []
  | OpenRouter => [Together]
  | AIML => [Together; OpenRouter]
  end.

Definition after (p : Provider) : list Provider :=
  match p with
  | Together => [OpenRouter; AIML]
  | OpenRouter => [AIML]
  | AIML => []
  end.







(** Every call of the trace goes to [p]. *)
Definition onlyCallsTo (p : Provider) (tr : Trace) : Prop :=
  Forall (fun ev => match ev with ECall q _ _ => q = p | EDelay _ => True end) tr.

(** The last event of a trace. *)
Definition lastEvent (tr : Trace) : option Event := List.last (map Some tr) None.

End Measures.
(** ** Notions about texts, lines and reports *)

Module TextNotions.
Import JsString JsText.

(** [m] is a contiguous part of [s]. *)
Definition partOf (m s : string) : Prop := exists a b, s = a +:+ m +:+ b.

(** The backquote, three of which make a fence. *)
Definition backtick : string := "`".

(** Every character of [s] satisfies [f]. *)
Fixpoint every (f : ascii -> bool) (s : string) : bool :=
  match s with
  | EmptyString => true
  | String c s' => f c && every f s'
  end.

(** A name as [\w+] matches it: not empty, made of digits, letters and
    underscores. *)
Definition identifier (s : string) : bool := nonEmpty s && every CodeScan.isWord s.

(** [s] does not go on with a character that satisfies [f]. *)
Definition stopsAt (f : ascii -> bool) (s : string) : bool :=
  match s with
  | EmptyString => true
  | String c _ => negb (f c)
  end.

(** Only white space. *)
Fixpoint blank (s : string) : bool :=
  match s with
  | EmptyString => true
  | String c s' => isSpace c && blank s'
  end.

(** Without a line feed. *)
Fixpoint oneLine (s : string) : bool :=
  match s with
  | EmptyString => true
  | String c s' => negb (Ascii.eqb c lf) && oneLine s'
  end.

(** A line that stands for itself in a report: trimmed and not empty. *)
Definition trimmed (line : string) : bool := String.eqb (trim line) line && nonEmpty line.

(** A line that mentions neither section header. *)
Definition noHeader (line : string) : bool :=
  negb (mentions line "vulnerabilities:") && negb (mentions line "recommendations:").

(** A report in two sections: some lines, the header of the
    vulnerabilities, the vulnerabilities, the header of the
    recommendations, the recommendations. *)
Definition sectioned (preamble : list string) (header1 : string)
    (vulnerabilities : list string) (header2 : string) (recommendations : list string)
    : string :=
  join newline (preamble ++ header1 :: vulnerabilities ++ header2 :: recommendations).

End TextNotions.
(** ** Concrete requests, environments and providers

    The inputs at which the statements below are evaluated. *)

Module Examples.
Import JsString Http Server.

Definition allKeys : Env :=
  {| TOGETHER_API_KEY := true; OPENROUTER_API_KEY := true; AIML_API_KEY := true;
     SOLIDITY_VERSION := None |}.

(** A provider world that answers every exchange alike. *)
Definition always (out : HttpOutcome) : Oracle := fun _ _ _ => out.

Definition unauthorized : Oracle := always (HttpFail (Some 401)).

(** Together rejects the key; the other providers answer with [text]. *)
Definition togetherUnauthorized (text : string) : Oracle :=
  fun p _ _ =>
    match p with
    | Together => HttpFail (Some 401)
    | _ => HttpOk (Some text)
    end.

Definition llpSupplyChain : ContractRequest :=
  {| entityType := "LLP"; transactionType := "B2B"; contractType := "Supply Chain";
     customizations := None |}.

Definition llpSupplyChainNamed : ContractRequest :=
  {| entityType := "LLP"; transactionType := "B2B"; contractType := "Supply Chain";
     customizations := Some [("tokenName", JsStr "Harbour")] |}.

Definition llpWhiteLabel (customizations : option Customizations) : ContractRequest :=
  {| entityType := "LLP"; transactionType := "B2B"; contractType := "White Label";
     customizations := customizations |}.

Definition unknownEntity : ContractRequest :=
  {| entityType := "SOLE TRADER"; transactionType := "B2B"; contractType := "Supply Chain";
     customizations := None |}.

(** A body whose entity type is not a string but the array that holds
    the string [LLP], which a template literal renders as [LLP]. *)
Definition listedEntity : RequestBody :=
  {| bodyEntityType := JsOther true "LLP"; bodyTransactionType := JsStr "B2B";
     bodyContractType := JsStr "Supply Chain"; bodyCustomizations := None |}.

(** A complete contract, as a provider may return it: the supply chain
    template of [getFallbackContract] for an LLP. *)
Definition supplyChainContract : string :=
  AiService.supply_head +:+ "LLP" +:+ AiService.supply_tail.

(** A contract with an unfinished part, as a provider may return it. *)
Definition unfinishedContract : string :=
  "// SPDX-License-Identifier: MIT
pragma solidity ^0.8.20;

/**
 * @title Escrow between two partners
 * @dev TODO: release the deposit once both partners have confirmed
 */
contract Escrow {
    address public payer;
    address public payee;
    uint256 public deposited;
    bool public payerConfirmed;
    bool public payeeConfirmed;

    constructor(address _payee) {
        payer = msg.sender;
        payee = _payee;
    }

    function deposit() external payable {
        deposited += msg.value;
    }

    function confirm() external {
        if (msg.sender == payer) payerConfirmed = true;
        if (msg.sender == payee) payeeConfirmed = true;
    }

    function release() external {
        /* TODO */
    }
}".

(** Customizations whose values hold no marker and one of whose keys is
    an ellipsis. *)
Definition ellipsisKey : Customizations := [("...", JsOther true "1")].

(** Customizations without a marker. *)
Definition plainCustomizations : Customizations :=
  [("cap", JsOther true "1000"); ("issuer", JsStr "Harbour LLP")].

(** Every provider answers with the unfinished contract. *)
Definition unfinished : Oracle := always (HttpOk (Some unfinishedContract)).

(** Stand-ins for the collaborators of the endpoints. *)
Definition plainTemplate
    : string -> string -> string -> option Customizations -> option string :=
  fun contractType _ _ _ => Some ("contract " +:+ contractType).
Definition typeError : string := "Cannot convert object to primitive value".
(** The tasks of a handling settle together. *)
Definition atOnce : Persona -> nat := fun _ => 0%nat.
Definition noGasAnalysis : string -> list GasAnalysis := fun _ => [].
Definition noFindings : string -> list string := fun _ => [].
Definition emptyObject : Customizations -> string := fun _ => "{}".
Definition emptyObjectOrNot : option Customizations -> string := fun _ => "{}".

(** Every provider answers with a complete contract. *)
Definition helpful : Oracle := always (HttpOk (Some supplyChainContract)).

(** Every provider answers with a refusal in prose. *)
Definition chatty : Oracle :=
  always (HttpOk (Some "I am sorry, but I cannot produce a smart contract for this request.")).

(** Two worlds that differ in the analysis they give. *)
Definition cautious : Oracle := always (HttpOk (Some "Use role-based access control.")).
Definition minimal : Oracle := always (HttpOk (Some "Keep the contract minimal.")).

(** The package registry reports a newer release of every package. *)
Definition newerRelease : string -> option string := fun _ => Some "5.1.0".

(** The package registry reports a release with a two-digit major
    version. *)
Definition majorRelease : string -> option string := fun _ => Some "10.0.0".

(** The endpoint with these stand-ins; the two clock reads of a write
    give the same time [stored]. *)
Definition generate (env : Env) (o : Oracle) (now stored : Z) (body : RequestBody)
    (contractCache : gmap string CacheEntry) : Response * gmap string CacheEntry * Trace :=
  Server.generate typeError plainTemplate noGasAnalysis noFindings noFindings
    env o now stored stored atOnce body contractCache.

(** A first, successful handling of [llpSupplyChain], stored at time
    1000: the cache it leaves and the data it answers with. *)
Definition firstRun : Response * gmap string CacheEntry * Trace :=
  generate allKeys helpful 0 1000 llpSupplyChain ∅.

Definition cacheAfterFirst : gmap string CacheEntry := snd (fst firstRun).

Definition firstData : GenerationData :=
  {| dataAnalysis := supplyChainContract;
     dataCode := supplyChainContract;
     dataVulnerabilities := [];
     dataRecommendations := [];
     dataGasAnalysis := [] |}.

End Examples.

(** ** Further inputs *)

Module Scenarios.
Import JsString Http Server CacheWrite.


(** A short answer in prose, long enough to count as substantial. *)
Definition shortAnswer : string :=
  "A vault with a time lock and a two-step handover of the owner role.".

(** Together rejects the key; the other providers give the short
    answer. *)
Definition secondProviderAnswers : Oracle := Examples.togetherUnauthorized shortAnswer.

(** The package registry reports the recorded release of every package;
    the package registry cannot be reached. *)
Definition currentRelease : string -> option string := fun _ => Some "5.0.0".
Definition registryDown : string -> option string := fun _ => None.

(** What a caller of [saveToCache] may pass: a code and an analysis, and
    a stale validation that is not read. *)
Definition vaultEntry : PartialEntry :=
  {| partialCode := Some "contract Vault {}";
     partialTimestamp := Some 5;
     partialAnalysis := Some shortAnswer;
     partialSecurity := None;
     partialGasAnalysis := None;
     partialFragments := None;
     partialMetadata := None;
     partialValidation := Some (5, outdated, ["stale"]) |}.

(** A cache with one entry, validated at time 1000. *)
Definition vault : CacheEntry :=
  {| code := "contract Vault {}";
     timestamp := 1000;
     analysis := shortAnswer;
     vulnerabilities := [];
     recommendations := [];
     gasAnalysis := [];
     fragmentsBase := EmptyString;
     fragmentsFeatures := [];
     fragmentsCustomizations := [];
     compiler := "0.8.20";
     framework := "OpenZeppelin 5.0.0";
     dependencies := [("@openzeppelin/contracts", "^5.0.0")];
     lastChecked := 1000;
     status := valid;
     issues := [] |}.

Definition vaultCache : gmap string CacheEntry := {[ "vault" := vault ]}.

(** The same entry under the key of [Examples.llpSupplyChain]. *)
Definition supplyCache : gmap string CacheEntry := {[ "LLP_B2B_Supply Chain_0.8.20" := vault ]}.

Definition eightDays : Z := 8 * 24 * 60 * 60 * 1000.

(** A security analysis in two sections. *)
Definition reviewPreamble : list string := ["Security review of the vault"; EmptyString].
Definition reviewVulnerabilities : list string :=
  ["- Reentrancy in withdraw"; "- Unchecked return value of the token transfer"].
Definition reviewRecommendations : list string :=
  ["- Add the nonReentrant modifier"; "- Use SafeERC20"].

(** An answer in prose around a fenced contract. *)
Definition fencedProse : string := "Here is the contract you asked for:" +:+ JsText.newline.
Definition fencedCode : string :=
  "pragma solidity ^0.8.20;" +:+ JsText.newline +:+ "contract Vault {}" +:+ JsText.newline.

(** OpenRouter answers every exchange with the short answer. *)
Definition openRouterAnswers : Oracle := Examples.always (HttpOk (Some shortAnswer)).

(** The data of a first answer to [Examples.llpSupplyChain] when every
    provider returns [Examples.supplyChainContract] and the extractors
    and the gas analysis of the main server are in place. *)
Definition scannedData : GenerationData :=
  {| dataAnalysis := Examples.supplyChainContract;
     dataCode := Examples.supplyChainContract;
     dataVulnerabilities := SectionScan.extractVulnerabilities Examples.supplyChainContract;
     dataRecommendations := SectionScan.extractRecommendations Examples.supplyChainContract;
     dataGasAnalysis := CodeScan.analyzeGasUsage Examples.supplyChainContract |}.

End Scenarios.
(** * Properties *)

(** ** Facts about the string operations *)

Section StringFacts.
Import JsString.
Local Arguments String.append : simpl nomatch.

Lemma append_nil_r (s : string) : s +:+ EmptyString = s.
Proof. induction s as [|c s IH]; simpl; [reflexivity | now rewrite IH]. Qed.

Lemma append_assoc (a b c : string) : (a +:+ b) +:+ c = a +:+ b +:+ c.
Proof. induction a as [|x a IH]; simpl; [reflexivity | now rewrite IH]. Qed.

Lemma length_append (a b : string) :
  String.length (a +:+ b) = (String.length a + String.length b)%nat.
Proof. induction a as [|x a IH]; simpl; [reflexivity | now rewrite IH]. Qed.

Lemma startsWith_refl (s : string) : startsWith s s = true.
Proof. induction s as [|c s IH]; simpl; [reflexivity|]. now rewrite Ascii.eqb_refl. Qed.

Lemma startsWith_append (m s t : string) :
  startsWith m s = true -> startsWith m (s +:+ t) = true.
Proof.
  revert s; induction m as [|a m IH]; intros [|b s]; simpl; try easy.
  intros [-> H]%andb_true_iff. now rewrite IH.
Qed.

Lemma includes_nil_r (s : string) : includes s EmptyString = true.
Proof. destruct s; reflexivity. Qed.

Lemma includes_append_l (s t m : string) :
  includes s m = true -> includes (s +:+ t) m = true.
Proof.
  induction s as [|c s IH]; simpl.
  - rewrite orb_false_r. destruct m; [intros _; apply includes_nil_r | discriminate].
  - intros [H|H]%orb_true_iff.
    + change (String c (s +:+ t)) with (String c s +:+ t).
      now rewrite (startsWith_append _ _ _ H).
    + rewrite (IH H). apply orb_true_r.
Qed.

Lemma includes_append_r (s t m : string) :
  includes t m = true -> includes (s +:+ t) m = true.
Proof.
  intros H. induction s as [|c s IH]; simpl; [exact H|].
  rewrite IH. apply orb_true_r.
Qed.

(** An occurrence that starts inside [x] stays inside [x] when [x] has no
    border with [m]. *)
Lemma startsWith_append_inside (m x y : string) :
  (startsWith x m && negb (startsWith m x)) = false ->
  startsWith m (x +:+ y) = startsWith m x.
Proof.
  revert x; induction m as [|a m IH]; intros [|b x]; simpl; try easy.
  destruct (Ascii.eqb_spec a b) as [->|Hne].
  - rewrite Ascii.eqb_refl. simpl. apply IH.
  - reflexivity.
Qed.

Lemma includes_append_noBorder (m x y : string) :
  noBorder m x = true ->
  includes (x +:+ y) m = includes x m || includes y m.
Proof.
  induction x as [|c x IH]; simpl.
  - intros _. destruct m; simpl; [now rewrite includes_nil_r | reflexivity].
  - intros [Hb Hx]%andb_true_iff. apply negb_true_iff in Hb.
    rewrite (IH Hx).
    change (String c (x +:+ y)) with (String c x +:+ y).
    rewrite (startsWith_append_inside m (String c x) y Hb).
    now rewrite !orb_assoc.
Qed.

Lemma startsWith_agree (m y z : string) :
  startsWith m (y +:+ z) = true -> agree m y = true.
Proof.
  revert y; induction m as [|a m IH]; intros [|b y]; simpl; try easy.
  intros [-> H]%andb_true_iff. now apply IH.
Qed.

Lemma startsWith_append_noEntry (m x y z : string) :
  noEntry m y = true -> x <> EmptyString ->
  startsWith m (x +:+ y +:+ z) = startsWith m x.
Proof.
  revert x; induction m as [|a m IH]; intros [|b x] Hm Hx; simpl; try easy.
  simpl in Hm. apply andb_true_iff in Hm as [Hhd Htl].
  destruct (Ascii.eqb a b); [simpl|reflexivity].
  destruct x as [|b' x].
  - simpl. destruct m as [|a' m]; [reflexivity|].
    apply negb_true_iff in Hhd.
    destruct (startsWith (String a' m) (y +:+ z)) eqn:E; [|reflexivity].
    apply startsWith_agree in E. congruence.
  - now apply IH.
Qed.

Lemma includes_append_noEntry (m x y z : string) :
  noEntry m y = true ->
  includes (x +:+ y +:+ z) m = includes x m || includes (y +:+ z) m.
Proof.
  intros Hm. induction x as [|c x IH]; simpl.
  - destruct m; simpl; [now rewrite includes_nil_r | reflexivity].
  - rewrite IH.
    change (String c (x +:+ y +:+ z)) with (String c x +:+ y +:+ z).
    rewrite (startsWith_append_noEntry m (String c x) y z Hm) by discriminate.
    now rewrite !orb_assoc.
Qed.

End StringFacts.

(** ** The interceptor and the provider chain *)

Section HttpFacts.
Import JsString Http Server Notions.

Lemma request_ok o p body budget k text :
  o p body k = HttpOk text ->
  request o p body budget k = (HttpOk text, [ECall p body k]).
Proof. intros H. destruct budget; simpl; now rewrite H. Qed.




Lemma retryable_inv out :
  retryable out = true -> exists status, out = HttpFail status /\ noRetry status = false.
Proof.
  destruct out as [t|status]; simpl; [discriminate|].
  intros H%negb_true_iff. eauto.
Qed.

Lemma callsTo_app p tr tr' : callsTo p (tr ++ tr') = (callsTo p tr + callsTo p tr')%nat.
Proof. unfold callsTo. now rewrite List.filter_app, List.length_app. Qed.

Lemma callsTo_cons p e tr :
  callsTo p (e :: tr) = ((if isCallTo p e then 1 else 0) + callsTo p tr)%nat.
Proof. unfold callsTo. simpl. now destruct (isCallTo p e). Qed.



Lemma calls_app tr tr' : calls (tr ++ tr') = (calls tr + calls tr')%nat.
Proof. unfold calls. now rewrite List.filter_app, List.length_app. Qed.

(** Under a run of retryable failures the whole budget is spent. *)
Lemma request_retryable o p body :
  (forall n, retryable (o p body n) = true) ->
  forall budget k,
    fst (request o p body budget k) = o p body (k + budget)%nat /\
    delays (snd (request o p body budget k)) =
      map (fun i => backoffDelay (k + i)%nat) (seq 1 budget) /\
    callsTo p (snd (request o p body budget k)) = S budget.
Proof.
  intros Hall. induction budget as [|b IH]; intros k.
  - destruct (retryable_inv _ (Hall k)) as (st & E & Hn). simpl. rewrite E, Hn. simpl.
    rewrite Nat.add_0_r, E. repeat split. unfold callsTo. simpl. now destruct p.
  - destruct (retryable_inv _ (Hall k)) as (st & E & Hn). simpl. rewrite E, Hn.
    destruct (IH (S k)) as (Ho & Hd & Hc).
    destruct (request o p body b (S k)) as [out tr]. simpl in *.
    replace (k + S b)%nat with (S (k + b)) by lia. split; [exact Ho|]. split.
    + rewrite Hd. f_equal; [f_equal; lia|].
      rewrite <- (seq_shift b 1), map_map. apply map_ext. intros i. f_equal. lia.
    + change (ECall p body k :: EDelay (backoffDelay (S k)) :: tr)
        with ([ECall p body k; EDelay (backoffDelay (S k))] ++ tr).
      rewrite callsTo_app, Hc. unfold callsTo. simpl. now destruct p.
Qed.

(** The answer of a request is the answer of one of its exchanges. *)
Lemma request_outcome o p body budget k :
  exists n, fst (request o p body budget k) = o p body n.
Proof.
  revert k. induction budget as [|b IH]; intros k; simpl.
  - exists k. destruct (o p body k) as [t|st]; [reflexivity|]. now destruct (noRetry st).
  - destruct (o p body k) as [t|st] eqn:E; [now exists k|].
    destruct (noRetry st); [now exists k|].
    destruct (IH (S k)) as [n Hn]. exists n.
    now destruct (request o p body b (S k)).
Qed.

Lemma post_outcome layer o p body :
  exists n, fst (post layer o p body) = o p body n.
Proof. destruct layer; [now exists 0%nat | apply request_outcome]. Qed.

(** A request only calls its own provider. *)
Lemma request_calls_other o p q body budget k :
  p <> q -> callsTo q (snd (request o p body budget k)) = 0%nat.
Proof.
  intros Hpq. revert k. induction budget as [|b IH]; intros k; simpl.
  - assert (callsTo q [ECall p body k] = 0%nat) as H0
      by (unfold callsTo; simpl; destruct p, q; simpl; congruence).
    destruct (o p body k) as [t|st]; [exact H0|]. now destruct (noRetry st).
  - assert (callsTo q [ECall p body k] = 0%nat) as H0
      by (unfold callsTo; simpl; destruct p, q; simpl; congruence).
    destruct (o p body k) as [t|st]; [exact H0|].
    destruct (noRetry st); [exact H0|].
    specialize (IH (S k)). destruct (request o p body b (S k)) as [out tr]. simpl in *.
    unfold callsTo in *. simpl. destruct p, q; simpl; congruence.
Qed.


Lemma tryProvider_calls_other o keySet p q body afterwards :
  p <> q -> callsTo q (snd afterwards) = 0%nat ->
  callsTo q (snd (tryProvider o keySet p body afterwards)) = 0%nat.
Proof.
  intros Hpq Haft. unfold tryProvider. destruct keySet; [|exact Haft].
  pose proof (request_calls_other o p q body maxRetries 0 Hpq) as H0.
  unfold post. destruct (request o p body maxRetries 0) as [out tr]. simpl in H0.
  destruct (substantial out); [exact H0|].
  destruct afterwards as [r tr']. simpl in *. rewrite callsTo_app. lia.
Qed.


(** *** What [generateCustomContract] returns *)

Lemma accepted_inv out contractCode :
  AiService.accepted out = Some contractCode ->
  AiService.validateContractCode contractCode = true /\
  exists content, out = HttpOk (Some content) /\ contractCode = AiService.extractContractCode content.
Proof.
  destruct out as [[[|c text]|]|st]; simpl; try discriminate.
  destruct (AiService.validateContractCode (AiService.extractContractCode (String c text))) eqn:Hv;
    [|discriminate].
  intros [= <-]. eauto.
Qed.

(** The four ways [generateCustomContract] ends: with the accepted code
    of the first provider that gives one, each provider being asked only
    after those before it, or with the fallback contract. *)
Lemma generateCustomContract_cases stringify typeError layer o e t c cust :
  let prompt := AiService.basePrompt stringify e t c cust in
  let first := post layer o Together (AiService.togetherRequest prompt) in
  let second := post layer o OpenRouter (AiService.openRouterRequest prompt) in
  let third := post layer o AIML (AiService.aimlRequest prompt) in
  let run := AiService.generateCustomContract stringify typeError layer o e t c cust in
  (exists result,
      fst run = Returned result /\ snd run = snd first /\
      AiService.accepted (fst first) = Some (AiService.code result) /\
      AiService.vulnerabilities result = []) \/
  (exists result,
      fst run = Returned result /\ snd run = snd first ++ snd second /\
      AiService.accepted (fst first) = None /\
      AiService.accepted (fst second) = Some (AiService.code result) /\
      AiService.vulnerabilities result = []) \/
  (exists result,
      fst run = Returned result /\ snd run = snd first ++ snd second ++ snd third /\
      AiService.accepted (fst first) = None /\
      AiService.accepted (fst second) = None /\
      AiService.accepted (fst third) = Some (AiService.code result) /\
      AiService.vulnerabilities result = []) \/
  (snd run = snd first ++ snd second ++ snd third /\
   AiService.accepted (fst first) = None /\
   AiService.accepted (fst second) = None /\
   AiService.accepted (fst third) = None /\
   match AiService.getFallbackContract e t c cust with
   | Some contract =>
       fst run =
         Returned
           {| AiService.analysis := AiService.fallbackAnalysis e t c;
              AiService.code := contract;
              AiService.vulnerabilities :=
                ["Template provided due to generation issues with AI providers."];
              AiService.recommendations :=
                ["Review the template contract thoroughly before deployment";
                 "Consider a security audit by a professional before using in production";
                 "Implement additional security checks specific to your use case"] |}
   | None => fst run = Thrown ("Failed to generate contract using AI: " +:+ typeError)
   end).
Proof.
  intros prompt first second third run.
  subst run. unfold AiService.generateCustomContract. fold prompt. fold first second third.
  destruct first as [out1 tr1], second as [out2 tr2], third as [out3 tr3].
  cbn [fst snd].
  destruct (AiService.accepted out1) as [c1|] eqn:E1.
  { left. eexists. cbn. eauto. }
  destruct (AiService.accepted out2) as [c2|] eqn:E2.
  { right; left. eexists. cbn. eauto. }
  destruct (AiService.accepted out3) as [c3|] eqn:E3.
  { right; right; left. eexists. cbn. eauto 6. }
  right; right; right.
  destruct (AiService.getFallbackContract e t c cust) as [contract|]; cbn; auto.
Qed.

(** The code [generateCustomContract] returns is the fallback contract or
    the validated extract of an answer. *)
Lemma generateCustomContract_code stringify typeError layer o e t c cust result :
  fst (AiService.generateCustomContract stringify typeError layer o e t c cust) =
    Returned result ->
  AiService.getFallbackContract e t c cust = Some (AiService.code result) \/
  (AiService.validateContractCode (AiService.code result) = true /\
   exists p body n content,
     o p body n = HttpOk (Some content) /\
     AiService.code result = AiService.extractContractCode content).
Proof.
  intros Hrun.
  set (prompt := AiService.basePrompt stringify e t c cust).
  destruct (post_outcome layer o Together (AiService.togetherRequest prompt)) as [n1 H1].
  destruct (post_outcome layer o OpenRouter (AiService.openRouterRequest prompt)) as [n2 H2].
  destruct (post_outcome layer o AIML (AiService.aimlRequest prompt)) as [n3 H3].
  destruct (generateCustomContract_cases stringify typeError layer o e t c cust)
    as [(r & Hr & _ & Ha & _)|[(r & Hr & _ & _ & Ha & _)|[(r & Hr & _ & _ & _ & Ha & _)|
        (_ & _ & _ & _ & Hf)]]]; fold prompt in Ha || fold prompt in Hf.
  - rewrite Hrun in Hr. injection Hr as <-. rewrite H1 in Ha.
    apply accepted_inv in Ha as (Hv & content & Ho & Hc). right. eauto 8.
  - rewrite Hrun in Hr. injection Hr as <-. rewrite H2 in Ha.
    apply accepted_inv in Ha as (Hv & content & Ho & Hc). right. eauto 8.
  - rewrite Hrun in Hr. injection Hr as <-. rewrite H3 in Ha.
    apply accepted_inv in Ha as (Hv & content & Ho & Hc). right. eauto 8.
  - destruct (AiService.getFallbackContract e t c cust) as [contract|];
      rewrite Hrun in Hf; [|discriminate].
    injection Hf as ->. now left.
Qed.

End HttpFacts.

(** ** Retry and fallback of the provider chain *)

Section ChainTheorems.
Import JsString Http Server Notions Measures.








(** *** The hand-over to the next provider *)










End ChainTheorems.
(** ** The cache key *)

Section CacheKeyFacts.
Import JsString Http Server Notions.
Local Arguments String.append : simpl nomatch.
Local Arguments Ascii.eqb : simpl never.

Lemma count_append c a b : count c (a +:+ b) = (count c a + count c b)%nat.
Proof. induction a as [|x a IH]; simpl; [reflexivity | rewrite IH; lia]. Qed.

Lemma underscoreFree_count s : underscoreFree s = true <-> count "_" s = 0%nat.
Proof.
  unfold underscoreFree. rewrite negb_true_iff.
  induction s as [|c s IH]; simpl; [split; reflexivity|].
  destruct (Ascii.eqb "_" c); simpl; [split; discriminate|]. exact IH.
Qed.

Lemma underscoreFree_cons c s :
  underscoreFree (String c s) = true -> c <> "_"%char /\ underscoreFree s = true.
Proof.
  unfold underscoreFree. simpl. destruct (Ascii.eqb_spec "_" c) as [<-|Hne]; simpl; [easy|].
  intros H. split; [congruence | exact H].
Qed.

(** The text before the first underscore is determined: two
    underscore-free prefixes followed by an underscore agree. *)
Lemma split_at_underscore a a' x x' :
  underscoreFree a = true -> underscoreFree a' = true ->
  a +:+ "_" +:+ x = a' +:+ "_" +:+ x' -> a = a' /\ x = x'.
Proof.
  revert a'. induction a as [|c a IH]; intros [|c' a'] Ha Ha'; simpl.
  - intros [= ->]. easy.
  - intros [= <- _]. apply underscoreFree_cons in Ha' as [Hc _]. congruence.
  - intros [= -> _]. apply underscoreFree_cons in Ha as [Hc _]. congruence.
  - intros [= -> H]. apply underscoreFree_cons in Ha as [_ Ha].
    apply underscoreFree_cons in Ha' as [_ Ha'].
    destruct (IH a' Ha Ha' H) as [-> ->]. easy.
Qed.

Lemma generateCacheKey_injective env env' e t c e' t' c' :
  underscoreFree e = true -> underscoreFree t = true -> underscoreFree c = true ->
  underscoreFree e' = true -> underscoreFree t' = true -> underscoreFree c' = true ->
  generateCacheKey env e t c = generateCacheKey env' e' t' c' ->
  e = e' /\ t = t' /\ c = c' /\ solidityVersion env = solidityVersion env'.
Proof.
  intros He Ht Hc He' Ht' Hc'. unfold generateCacheKey. intros H.
  apply split_at_underscore in H as [-> H]; [|assumption..].
  apply split_at_underscore in H as [-> H]; [|assumption..].
  apply split_at_underscore in H as [-> H]; [|assumption..].
  easy.
Qed.

Lemma isOneOf_In values x : isOneOf values x = true -> In x values.
Proof.
  unfold isOneOf. intros (y & Hy & E)%existsb_exists.
  apply String.eqb_eq in E. now subst.
Qed.

Lemma validRequest_inv req :
  validRequest req = true ->
  In (entityType req) EntityType /\ In (transactionType req) TransactionType /\
  In (contractType req) ContractType.
Proof.
  unfold validRequest. intros [[He Ht]%andb_true_iff Hc]%andb_true_iff.
  auto using isOneOf_In.
Qed.

(** The allowed categories hold no underscore. *)
Lemma validRequest_underscoreFree req :
  validRequest req = true -> underscoreFreeCategories req = true.
Proof.
  intros (He & Ht & Hc)%validRequest_inv. unfold underscoreFreeCategories.
  assert (forall values x, In x values -> forallb underscoreFree values = true ->
                           underscoreFree x = true) as Hin.
  { intros values x Hx Hall. rewrite forallb_forall in Hall. now apply Hall. }
  rewrite (Hin _ _ He), (Hin _ _ Ht), (Hin _ _ Hc); reflexivity.
Qed.

Lemma underscoreFreeCategories_inv req :
  underscoreFreeCategories req = true ->
  underscoreFree (entityType req) = true /\ underscoreFree (transactionType req) = true /\
  underscoreFree (contractType req) = true.
Proof.
  unfold underscoreFreeCategories. now intros [[? ?]%andb_true_iff ?]%andb_true_iff.
Qed.

(** A request that shares its key with a valid request has the
    categories of that request. *)
Lemma requestKey_of_valid env req req' :
  validRequest req' = true -> requestKey env req = requestKey env req' ->
  sameCategories req req'.
Proof.
  intros Hv H.
  destruct (underscoreFreeCategories_inv _ (validRequest_underscoreFree _ Hv))
    as (He' & Ht' & Hc').
  assert (count "_" (requestKey env req) = count "_" (requestKey env req')) as Hn
    by now rewrite H.
  unfold requestKey, generateCacheKey in Hn. rewrite !count_append in Hn.
  apply underscoreFree_count in He', Ht', Hc'. rewrite He', Ht', Hc' in Hn.
  assert (underscoreFree (entityType req) = true /\
          underscoreFree (transactionType req) = true /\
          underscoreFree (contractType req) = true) as (He & Ht & Hc)
    by (rewrite !underscoreFree_count; lia).
  apply underscoreFree_count in He', Ht', Hc'.
  unfold requestKey in H.
  destruct (generateCacheKey_injective _ _ _ _ _ _ _ _ He Ht Hc He' Ht' Hc' H)
    as (? & ? & ? & _).
  now repeat split.
Qed.

Lemma sameCategories_valid req req' :
  sameCategories req req' -> validRequest req = validRequest req'.
Proof. intros (He & Ht & Hc). unfold validRequest. now rewrite He, Ht, Hc. Qed.

Lemma sameCategories_key env req req' :
  sameCategories req req' -> requestKey env req = requestKey env req'.
Proof. intros (He & Ht & Hc). unfold requestKey. now rewrite He, Ht, Hc. Qed.

(** C3, as the code has it.  The cache key is built from the three
    category fields and the Solidity version of the environment, and
    from nothing else: the customizations take no part in it.  For
    requests whose category fields hold no underscore (every request
    that passes the validation is one) two keys are equal exactly when
    the three categories and the versions are. *)
Theorem cache_key_determined_by_categories :
  forall (env env' : Env) (req req' : ContractRequest),
    underscoreFreeCategories req = true ->
    underscoreFreeCategories req' = true ->
    (requestKey env req = requestKey env' req' <->
     sameCategories req req' /\ solidityVersion env = solidityVersion env').
Proof.
  intros env env' req req' (He & Ht & Hc)%underscoreFreeCategories_inv
    (He' & Ht' & Hc')%underscoreFreeCategories_inv.
  split.
  - intros H. unfold requestKey in H.
    destruct (generateCacheKey_injective _ _ _ _ _ _ _ _ He Ht Hc He' Ht' Hc' H)
      as (? & ? & ? & ?).
    now repeat split.
  - intros [(E1 & E2 & E3) Ev]. unfold requestKey, generateCacheKey.
    now rewrite E1, E2, E3, Ev.
Qed.

Lemma cache_key_determined_by_categories_witness :
  underscoreFreeCategories Examples.llpSupplyChain = true /\
  underscoreFreeCategories Examples.llpSupplyChainNamed = true /\
  requestKey Examples.allKeys Examples.llpSupplyChain =
    requestKey Examples.allKeys Examples.llpSupplyChainNamed.
Proof.
  split; [reflexivity|]. split; [reflexivity|].
  apply (cache_key_determined_by_categories Examples.allKeys Examples.allKeys
           Examples.llpSupplyChain Examples.llpSupplyChainNamed eq_refl eq_refl).
  repeat split.
Defined.

(** C3, as the specification words it, fails: two requests that differ
    in their customizations have the same key. *)
Lemma customizations_do_not_change_the_key :
  customizations Examples.llpSupplyChain <> customizations Examples.llpSupplyChainNamed /\
  requestKey Examples.allKeys Examples.llpSupplyChain =
    requestKey Examples.allKeys Examples.llpSupplyChainNamed.
Proof. split; [discriminate | reflexivity]. Qed.

End CacheKeyFacts.

(** ** The generation endpoint of the main server *)

Section EndpointFacts.
Import JsString Http Server Notions.

Variable typeError : string.
Variable getContractTemplate :
  string -> string -> string -> option Customizations -> option string.
Variable analyzeGasUsage : string -> list GasAnalysis.
Variable extractVulnerabilities : string -> list string.
Variable extractRecommendations : string -> list string.

Let generate :=
  Server.generate typeError getContractTemplate analyzeGasUsage extractVulnerabilities
    extractRecommendations.
Let generateFresh :=
  Server.generateFresh typeError getContractTemplate analyzeGasUsage extractVulnerabilities
    extractRecommendations.
Let codePhase := Server.codePhase typeError getContractTemplate.

Let noProvider : string := "Failed to generate content with any available API".
Let incomplete : string := "Generated code is incomplete or invalid".
Let invalidRequest : string := "Invalid entity type, transaction type, or contract type".

Lemma allFail_not_substantial o p body n : allFail o -> substantial (o p body n) = None.
Proof. intros H. destruct (H p body n) as [st ->]. reflexivity. Qed.

Lemma tryProvider_allFail o keySet p body afterwards :
  allFail o -> fst (tryProvider o keySet p body afterwards) = fst afterwards.
Proof.
  intros H. unfold tryProvider. destruct keySet; [|reflexivity].
  destruct (post_outcome Intercepted o p body) as [n Hn].
  destruct (post Intercepted o p body) as [out tr]. simpl in Hn. subst out.
  rewrite (allFail_not_substantial _ _ _ _ H). now destruct afterwards.
Qed.

Lemma processWithPersona_allFail env o prompt persona c e t :
  allFail o ->
  fst (processWithPersona env o prompt persona c e t) = Thrown noProvider.
Proof.
  intros H. unfold processWithPersona. now rewrite !tryProvider_allFail.
Qed.

Lemma tryProvider_taskFails o keySet p modelId persona prompt afterwards :
  taskFails o persona prompt ->
  fst (tryProvider o keySet p (chatRequest modelId persona prompt) afterwards) =
    fst afterwards.
Proof.
  intros H. unfold tryProvider. destruct keySet; [|reflexivity].
  destruct (post_outcome Intercepted o p (chatRequest modelId persona prompt)) as [n Hn].
  destruct (post Intercepted o p _) as [out tr]. simpl in Hn. subst out.
  destruct (H p modelId n) as [st ->]. now destruct afterwards.
Qed.

Lemma processWithPersona_taskFails env o prompt persona c e t :
  taskFails o persona prompt ->
  fst (processWithPersona env o prompt persona c e t) = Thrown noProvider.
Proof.
  intros H. unfold processWithPersona. now rewrite !tryProvider_taskFails.
Qed.

Lemma tryProvider_thrown o keyIsSet p body afterwards message :
  fst (tryProvider o keyIsSet p body afterwards) = Thrown message ->
  fst afterwards = Thrown message.
Proof.
  unfold tryProvider. destruct keyIsSet; [|auto].
  destruct (post Intercepted o p body) as [out tr].
  destruct (substantial out); [discriminate|]. now destruct afterwards.
Qed.

(** The one error of [processWithPersona]. *)
Lemma processWithPersona_thrown env o prompt persona c e t message :
  fst (processWithPersona env o prompt persona c e t) = Thrown message ->
  message = noProvider.
Proof.
  unfold processWithPersona. intros H.
  do 3 apply tryProvider_thrown in H. now injection H as <-.
Qed.

(** *** Bodies and requests of the interface *)

Lemma bodyKey_typed env (req : ContractRequest) :
  bodyKey env req = Some (requestKey env req).
Proof. reflexivity. Qed.

Lemma validated_typed (req : ContractRequest) :
  validated req = if validRequest req then Some req else None.
Proof.
  destruct req as [e t c cust]. unfold validated, validRequest, bodyOf.
  cbn [bodyEntityType bodyTransactionType bodyContractType bodyCustomizations
       entityType transactionType contractType customizations].
  now destruct (isOneOf EntityType e), (isOneOf TransactionType t), (isOneOf ContractType c).
Qed.

Lemma validated_inv body req :
  validated body = Some req -> body = bodyOf req /\ validRequest req = true.
Proof.
  destruct body as [[e| |] [t| |] [c| |] cust]; unfold validated, validRequest, bodyOf;
    cbn [bodyEntityType bodyTransactionType bodyContractType bodyCustomizations];
    try discriminate.
  destruct (isOneOf EntityType e) eqn:He, (isOneOf TransactionType t) eqn:Ht,
    (isOneOf ContractType c) eqn:Hc; cbn [negb orb]; try discriminate.
  intros [= <-].
  cbn [entityType transactionType contractType customizations].
  now rewrite He, Ht, Hc.
Qed.

(** The handler on a request of the interface. *)
Lemma generate_typed env o now checked stored settles (req : ContractRequest) contractCache :
  generate env o now checked stored settles req contractCache =
    let miss :=
      if validRequest req
      then generateFresh env o checked stored settles req (requestKey env req) contractCache
      else (Rejected 400 invalidRequest, contractCache, []) in
    match contractCache !! requestKey env req with
    | Some cachedContract =>
        if now - timestamp cachedContract <? CACHE_DURATION then
          (Generated
             {| dataAnalysis := analysis cachedContract;
                dataCode := code cachedContract;
                dataVulnerabilities := vulnerabilities cachedContract;
                dataRecommendations := recommendations cachedContract;
                dataGasAnalysis := gasAnalysis cachedContract |} (Some true),
           contractCache, [])
        else miss
    | None => miss
    end.
Proof.
  unfold generate, Server.generate. rewrite bodyKey_typed, validated_typed.
  now destruct (validRequest req).
Qed.

(** *** The outcome of a fresh generation *)

Lemma earliest_In settles first others :
  In (earliest settles first others) (first :: others).
Proof.
  revert first. induction others as [|next others IH]; intros first; [now left|].
  cbn [earliest]. destruct (_ <? _)%nat; [right; apply IH | now left].
Qed.

(** The two outcomes of a fresh generation: a response built from the
    entry written under the key, or an error that leaves the cache as it
    was. *)
Lemma generateFresh_cases env o checked stored settles req cacheKey contractCache :
  let '(r, cache', tr) :=
    generateFresh env o checked stored settles req cacheKey contractCache in
  (exists entry,
      r = Generated
            {| dataAnalysis := analysis entry; dataCode := code entry;
               dataVulnerabilities := vulnerabilities entry;
               dataRecommendations := recommendations entry;
               dataGasAnalysis := gasAnalysis entry |} None /\
      timestamp entry = stored /\
      completeCode (code entry) = true /\
      cache' = <[cacheKey := entry]> contractCache) \/
  (exists message, r = failed message /\ cache' = contractCache).
Proof.
  unfold generateFresh, Server.generateFresh, Server.codePhase, rejected.
  destruct (processWithPersona env o (analysisPrompt req) nanjunda _ _ _) as [a tr1].
  destruct (getContractTemplate _ _ _ _) as [template|].
  - destruct (processWithPersona env o (codePrompt req template) achyutha _ _ _) as [g tr2].
    destruct (processWithPersona env o (securityPrompt req) sandeep _ _ _) as [s tr3].
    destruct a as [a|ma], g as [g|mg]; try destruct (completeCode g) eqn:Hc;
      destruct s as [s|ms]; cbn; try (right; eexists; split; reflexivity).
    left. match goal with |- context [<[_ := ?e]> _] => exists e end. cbn. auto.
  - destruct (processWithPersona env o (securityPrompt req) sandeep _ _ _) as [s tr3].
    destruct a as [a|ma], s as [s|ms]; cbn; right; eexists; split; reflexivity.
Qed.

(** When every exchange of one of the tasks fails, or when the code
    task returns a text that fails the completeness check, a fresh
    generation of a request whose template renders ends in an error
    with the status 500. *)
Lemma generateFresh_rejects env o checked stored settles req cacheKey contractCache template :
  getContractTemplate (contractType req) (entityType req) (transactionType req)
    (customizations req) = Some template ->
  (exists persona prompt,
      taskPrompt getContractTemplate req persona = Some prompt /\
      taskFails o persona prompt) \/
  (exists generatedCode,
      fst (processWithPersona env o (codePrompt req template) achyutha
             (contractType req) (entityType req) (transactionType req)) =
        Returned generatedCode /\
      completeCode generatedCode = false) ->
  exists message,
    fst (generateFresh env o checked stored settles req cacheKey contractCache) =
      (Rejected 500 message, contractCache).
Proof.
  intros Htpl Hfail.
  pose proof (fun prompt persona c e t =>
                processWithPersona_thrown env o prompt persona c e t) as Hthrown.
  pose proof (Hthrown (analysisPrompt req) nanjunda (contractType req) (entityType req)
                (transactionType req)) as Ta.
  pose proof (Hthrown (codePrompt req template) achyutha (contractType req) (entityType req)
                (transactionType req)) as Tg.
  pose proof (Hthrown (securityPrompt req) sandeep (contractType req) (entityType req)
                (transactionType req)) as Ts.
  assert (fst (processWithPersona env o (analysisPrompt req) nanjunda (contractType req)
                 (entityType req) (transactionType req)) = Thrown noProvider \/
          fst (codePhase env o req) = Thrown noProvider \/
          fst (codePhase env o req) = Thrown incomplete \/
          fst (processWithPersona env o (securityPrompt req) sandeep (contractType req)
                 (entityType req) (transactionType req)) = Thrown noProvider) as Hone.
  { unfold codePhase, Server.codePhase. rewrite Htpl.
    destruct Hfail as [(persona & prompt & Hp & Hf)|(generatedCode & Hg & Hc)].
    - destruct persona; cbn in Hp; rewrite ?Htpl in Hp; injection Hp as <-.
      + left. now apply processWithPersona_taskFails.
      + right; left.
        pose proof (processWithPersona_taskFails env o (codePrompt req template) achyutha
                      (contractType req) (entityType req) (transactionType req) Hf) as H.
        destruct (processWithPersona env o (codePrompt req template) achyutha _ _ _)
          as [g tr2]. cbn in H. now subst g.
      + right; right; right. now apply processWithPersona_taskFails.
    - right; right; left.
      destruct (processWithPersona env o (codePrompt req template) achyutha _ _ _)
        as [g tr2]. cbn in Hg. subst g. now rewrite Hc. }
  clear Hfail. unfold generateFresh, Server.generateFresh, rejected.
  fold codePhase. unfold codePhase, Server.codePhase in *. rewrite Htpl in *.
  destruct (processWithPersona env o (analysisPrompt req) nanjunda _ _ _) as [a tr1].
  destruct (processWithPersona env o (codePrompt req template) achyutha _ _ _) as [g tr2].
  destruct (processWithPersona env o (securityPrompt req) sandeep _ _ _) as [s tr3].
  cbn [fst] in *.
  destruct a as [a|ma]; [|rewrite (Ta _ eq_refl) in *];
    (destruct g as [g|mg]; [destruct (completeCode g)|rewrite (Tg _ eq_refl) in *]);
    (destruct s as [s|ms]; [|rewrite (Ts _ eq_refl) in *]); cbn [fst snd] in *;
    try (destruct Hone as [Hone|[Hone|[Hone|Hone]]]; discriminate Hone);
    match goal with
    | |- context [earliest settles ?f ?l] =>
        pose proof (earliest_In settles f l) as Hin; cbn [In] in Hin;
        destruct (earliest settles f l) as [who message]; cbn [snd];
        exists message;
        repeat (destruct Hin as [Hin|Hin]; [injection Hin as <- <-; reflexivity|]);
        destruct Hin
    | |- _ => eexists; reflexivity
    end.
Qed.

Lemma generate_stale env o now checked stored settles (req : ContractRequest) contractCache :
  noLiveEntry now (requestKey env req) contractCache ->
  generate env o now checked stored settles req contractCache =
    if validRequest req
    then generateFresh env o checked stored settles req (requestKey env req) contractCache
    else (Rejected 400 invalidRequest, contractCache, []).
Proof.
  intros H. rewrite generate_typed. cbv zeta.
  destruct (contractCache !! requestKey env req) as [cached|] eqn:E; [|reflexivity].
  specialize (H _ E).
  destruct (Z.ltb_spec (now - timestamp cached) CACHE_DURATION); [lia | reflexivity].
Qed.

(** A request of the interface that does not pass the validation finds
    nothing in a cache of valid requests. *)
Lemma invalid_request_misses env (req : ContractRequest) contractCache :
  cacheOfValidRequests env contractCache -> validRequest req = false ->
  contractCache !! requestKey env req = None.
Proof.
  intros Hwf Hinv. destruct (contractCache !! requestKey env req) as [entry|] eqn:E;
    [|reflexivity].
  destruct (Hwf _ _ E) as (req' & Hv & Hk).
  apply requestKey_of_valid in Hk; [|exact Hv].
  rewrite (sameCategories_valid _ _ Hk) in Hinv. congruence.
Qed.

(** The handler on a body that does not pass the validation: it is
    answered from the cache, or refused, or the rendering of its key
    throws. *)
Lemma generate_invalid env o now checked stored settles body contractCache :
  validated body = None ->
  generate env o now checked stored settles body contractCache =
    match bodyKey env body with
    | None => (failed typeError, contractCache, [])
    | Some cacheKey =>
        match contractCache !! cacheKey with
        | Some cachedContract =>
            if now - timestamp cachedContract <? CACHE_DURATION then
              (Generated
                 {| dataAnalysis := analysis cachedContract;
                    dataCode := code cachedContract;
                    dataVulnerabilities := vulnerabilities cachedContract;
                    dataRecommendations := recommendations cachedContract;
                    dataGasAnalysis := gasAnalysis cachedContract |} (Some true),
               contractCache, [])
            else (Rejected 400 invalidRequest, contractCache, [])
        | None => (Rejected 400 invalidRequest, contractCache, [])
        end
    end.
Proof. intros H. unfold generate, Server.generate. now rewrite H. Qed.

(** The endpoint keeps the cache a cache of valid requests. *)
Lemma generate_keeps_cacheOfValidRequests env o now checked stored settles body contractCache :
  cacheOfValidRequests env contractCache ->
  cacheOfValidRequests env
    (snd (fst (generate env o now checked stored settles body contractCache))).
Proof.
  intros Hwf. destruct (validated body) as [req|] eqn:Hv.
  - apply validated_inv in Hv as [-> Hv]. rewrite generate_typed. cbv zeta. rewrite Hv.
    assert (cacheOfValidRequests env
              (snd (fst (generateFresh env o checked stored settles req (requestKey env req)
                           contractCache)))) as Hmiss.
    { pose proof (generateFresh_cases env o checked stored settles req (requestKey env req)
                    contractCache) as H.
      destruct (generateFresh env o checked stored settles req (requestKey env req)
                  contractCache) as [[r cache'] tr].
      destruct H as [(entry & _ & _ & _ & ->)|(message & _ & ->)]; [|exact Hwf].
      intros k entry'. simpl. rewrite lookup_insert. case_decide as Hk.
      - intros _. exists req. now split.
      - apply Hwf. }
    destruct (contractCache !! requestKey env req) as [cached|]; [|exact Hmiss].
    destruct (now - timestamp cached <? CACHE_DURATION); [exact Hwf | exact Hmiss].
  - rewrite (generate_invalid _ _ _ _ _ _ _ _ Hv).
    destruct (bodyKey env body) as [cacheKey|]; [|exact Hwf].
    destruct (contractCache !! cacheKey) as [cached|]; [|exact Hwf].
    now destruct (now - timestamp cached <? CACHE_DURATION).
Qed.

Lemma empty_cacheOfValidRequests env : cacheOfValidRequests env ∅.
Proof. intros k entry. rewrite lookup_empty. discriminate. Qed.

(** C9, as the code has it.  A body one of whose category fields is
    missing, empty or not among the allowed values never reaches a
    provider and never changes the cache.  When its category fields
    render to a cache key under which the cache holds no live entry, it
    is answered at once with status 400 and [success: false]; on a
    cache that holds only what the endpoint stored this is so for every
    such body whose category fields are strings.  It is not the only request answered
    with an error: a valid request that is not served from the cache and
    whose template renders is answered with status 500 when every
    exchange of one of its persona tasks fails, or when the code task
    returns a text that fails the completeness check. *)
Theorem invalid_request_is_rejected :
  forall (env : Env) (o : Oracle) (now checked stored : Z) (settles : Persona -> nat)
         (body : RequestBody) (contractCache : gmap string CacheEntry),
    validated body = None ->
    let run := generate env o now checked stored settles body contractCache in
    (snd run = [] /\ snd (fst run) = contractCache) /\
    (forall cacheKey,
        bodyKey env body = Some cacheKey -> noLiveEntry now cacheKey contractCache ->
        run =
          (Rejected 400 "Invalid entity type, transaction type, or contract type",
           contractCache, [])) /\
    (forall req : ContractRequest,
        body = bodyOf req -> cacheOfValidRequests env contractCache ->
        run =
          (Rejected 400 "Invalid entity type, transaction type, or contract type",
           contractCache, [])) /\
    (forall (req' : ContractRequest) (template : string),
        validRequest req' = true ->
        noLiveEntry now (requestKey env req') contractCache ->
        getContractTemplate (contractType req') (entityType req') (transactionType req')
          (customizations req') = Some template ->
        (exists persona prompt,
            taskPrompt getContractTemplate req' persona = Some prompt /\
            taskFails o persona prompt) \/
        (exists generatedCode,
            fst (processWithPersona env o (codePrompt req' template) achyutha
                   (contractType req') (entityType req') (transactionType req')) =
              Returned generatedCode /\
            completeCode generatedCode = false) ->
        exists message,
          fst (generate env o now checked stored settles req' contractCache) =
            (Rejected 500 message, contractCache)).
Proof.
  intros env o now checked stored settles body contractCache Hinv run.
  subst run. rewrite (generate_invalid _ _ _ _ _ _ _ _ Hinv). repeat split.
  - destruct (bodyKey env body) as [cacheKey|]; [|reflexivity].
    destruct (contractCache !! cacheKey) as [cached|]; [|reflexivity].
    now destruct (now - timestamp cached <? CACHE_DURATION).
  - destruct (bodyKey env body) as [cacheKey|]; [|reflexivity].
    destruct (contractCache !! cacheKey) as [cached|]; [|reflexivity].
    now destruct (now - timestamp cached <? CACHE_DURATION).
  - intros cacheKey -> Hold.
    destruct (contractCache !! cacheKey) as [cached|] eqn:E; [|reflexivity].
    specialize (Hold _ E).
    destruct (Z.ltb_spec (now - timestamp cached) CACHE_DURATION); [lia | reflexivity].
  - intros req -> Hwf. rewrite bodyKey_typed.
    rewrite invalid_request_misses; [reflexivity | exact Hwf |].
    rewrite validated_typed in Hinv. now destruct (validRequest req).
  - intros req' template Hv Hold Htpl Hfail.
    rewrite (generate_stale _ _ _ _ _ _ _ _ Hold), Hv.
    now apply generateFresh_rejects with template.
Qed.

(** A fresh answer comes with the entry that was stored for it. *)
Lemma generate_fresh_inv env o now checked stored settles (req : ContractRequest)
    contractCache data cache1 tr :
  generate env o now checked stored settles req contractCache =
    (Generated data None, cache1, tr) ->
  exists entry,
    data = {| dataAnalysis := analysis entry; dataCode := code entry;
              dataVulnerabilities := vulnerabilities entry;
              dataRecommendations := recommendations entry;
              dataGasAnalysis := gasAnalysis entry |} /\
    timestamp entry = stored /\
    completeCode (code entry) = true /\
    cache1 = <[requestKey env req := entry]> contractCache.
Proof.
  rewrite generate_typed. cbv zeta.
  assert ((if validRequest req
           then generateFresh env o checked stored settles req (requestKey env req)
                  contractCache
           else (Rejected 400 invalidRequest, contractCache, []))
          = (Generated data None, cache1, tr) ->
          exists entry,
            data = {| dataAnalysis := analysis entry; dataCode := code entry;
                      dataVulnerabilities := vulnerabilities entry;
                      dataRecommendations := recommendations entry;
                      dataGasAnalysis := gasAnalysis entry |} /\
            timestamp entry = stored /\
            completeCode (code entry) = true /\
            cache1 = <[requestKey env req := entry]> contractCache) as Hmiss.
  { destruct (validRequest req); [|discriminate].
    pose proof (generateFresh_cases env o checked stored settles req (requestKey env req)
                  contractCache) as Hc.
    destruct (generateFresh env o checked stored settles req (requestKey env req)
                contractCache) as [[r cache'] tr'].
    intros [= -> -> ->].
    destruct Hc as [(entry & [= ->] & Ht & Hcode & ->)|(message & Hr & _)];
      [eauto 6 | discriminate]. }
  destruct (contractCache !! requestKey env req) as [cached|]; [|auto].
  destruct (now - timestamp cached <? CACHE_DURATION); [discriminate | auto].
Qed.

(** C5, as the code has it.  When a handling generates a result (it is
    then stored under the key of the request with the time stamp
    [stored]), a later handling of a request with the same categories,
    under the same environment and less than [CACHE_DURATION] after
    [stored], answers with the stored result and [fromCache: true],
    calls no provider and leaves the cache as it was. *)
Theorem cache_hit_makes_no_provider_call :
  forall (env : Env) (o o' : Oracle) (now checked stored now' checked' stored' : Z)
         (settles settles' : Persona -> nat)
         (req req' : ContractRequest) (contractCache cache1 : gmap string CacheEntry)
         (data : GenerationData) (tr : Trace),
    generate env o now checked stored settles req contractCache =
      (Generated data None, cache1, tr) ->
    sameCategories req req' ->
    now' - stored < CACHE_DURATION ->
    generate env o' now' checked' stored' settles' req' cache1 =
      (Generated data (Some true), cache1, []).
Proof.
  intros env o o' now checked stored now' checked' stored' settles settles' req req'
    contractCache cache1 data tr H Hsame Hlt.
  apply generate_fresh_inv in H as (entry & -> & Ht & _ & ->).
  rewrite generate_typed. cbv zeta.
  rewrite <- (sameCategories_key env _ _ Hsame), lookup_insert_eq, Ht.
  apply Z.ltb_lt in Hlt. now rewrite Hlt.
Qed.

(** What [getFromCache] returns. *)
Lemma getFromCache_returns latest now cacheKey contractCache entry :
  fst (getFromCache latest now cacheKey contractCache) = Some entry <->
  contractCache !! cacheKey = Some entry /\
  now - lastChecked entry <= CACHE_DURATION /\
  checkDependencyVersions latest (dependencies entry) = [].
Proof.
  unfold getFromCache. destruct (contractCache !! cacheKey) as [e|]; [|simpl; easy].
  destruct (Z.ltb_spec CACHE_DURATION (now - lastChecked e)) as [Hlt|Hle].
  - simpl. split; [discriminate|]. intros ([= ->] & H & _). lia.
  - destruct (checkDependencyVersions latest (dependencies e)) as [|d ds] eqn:Hd; simpl.
    + split; [intros [= ->]; auto | now intros (H & _)].
    + split; [discriminate|]. intros ([= ->] & _ & H). congruence.
Qed.

(** *** The requests sent to the providers *)

Lemma request_trace o p body budget k :
  Forall (fun ev => match ev with ECall _ body' _ => body' = body | EDelay _ => True end)
    (snd (request o p body budget k)).
Proof.
  revert k. induction budget as [|b IH]; intros k; simpl.
  - destruct (o p body k) as [t|st]; [|destruct (noRetry st)]; simpl; auto.
  - destruct (o p body k) as [t|st]; [simpl; auto|].
    destruct (noRetry st); [simpl; auto|].
    specialize (IH (S k)). destruct (request o p body b (S k)) as [out tr]. simpl in *.
    auto.
Qed.

Lemma tryProvider_trace (P : Event -> Prop) o keySet p body afterwards :
  (forall q k, P (ECall q body k)) -> (forall ms, P (EDelay ms)) ->
  Forall P (snd afterwards) ->
  Forall P (snd (tryProvider o keySet p body afterwards)).
Proof.
  intros Hcall Hdelay Haft. unfold tryProvider. destruct keySet; [|exact Haft].
  pose proof (request_trace o p body maxRetries 0) as Htr. unfold post.
  destruct (request o p body maxRetries 0) as [out tr]. simpl in Htr.
  assert (Forall P tr) as HP.
  { eapply Forall_impl; [exact Htr|]. intros [q b k|ms]; [intros ->; apply Hcall | auto]. }
  destruct (substantial out); [exact HP|].
  destruct afterwards as [r tr']. simpl in *. apply Forall_app. now split.
Qed.

Lemma processWithPersona_trace env o req persona prompt c e t :
  taskPrompt getContractTemplate req persona = Some prompt ->
  Forall (builtFromRequest getContractTemplate req)
    (snd (processWithPersona env o prompt persona c e t)).
Proof.
  intros Hp. unfold processWithPersona.
  repeat (apply tryProvider_trace; [intros q k; simpl; eauto | intros ms; exact I |]).
  constructor.
Qed.

Lemma generateFresh_trace env o checked stored settles req cacheKey contractCache :
  Forall (builtFromRequest getContractTemplate req)
    (snd (generateFresh env o checked stored settles req cacheKey contractCache)).
Proof.
  pose proof (fun prompt => processWithPersona_trace env o req nanjunda prompt
                (contractType req) (entityType req) (transactionType req)) as H1.
  pose proof (fun prompt => processWithPersona_trace env o req achyutha prompt
                (contractType req) (entityType req) (transactionType req)) as H2.
  pose proof (fun prompt => processWithPersona_trace env o req sandeep prompt
                (contractType req) (entityType req) (transactionType req)) as H3.
  specialize (H1 _ eq_refl). specialize (H3 _ eq_refl).
  unfold generateFresh, Server.generateFresh, Server.codePhase. cbn [taskPrompt] in H2.
  destruct (processWithPersona env o (analysisPrompt req) nanjunda _ _ _) as [a tr1].
  destruct (processWithPersona env o (securityPrompt req) sandeep _ _ _) as [s tr3].
  cbn [snd] in H1, H3.
  destruct (getContractTemplate _ _ _ _) as [template|].
  - specialize (H2 _ eq_refl).
    destruct (processWithPersona env o (codePrompt req template) achyutha _ _ _) as [g tr2].
    cbn [snd] in H2.
    assert (Forall (builtFromRequest getContractTemplate req) (tr1 ++ tr2 ++ tr3)) as H
      by (rewrite !Forall_app; auto).
    destruct a, g as [g|]; try destruct (completeCode g); destruct s; exact H.
  - assert (Forall (builtFromRequest getContractTemplate req) (tr1 ++ [] ++ tr3)) as H
      by (rewrite !Forall_app; auto).
    destruct a, s; exact H.
Qed.

Lemma generate_trace env o now checked stored settles (req : ContractRequest) contractCache :
  Forall (builtFromRequest getContractTemplate req)
    (snd (generate env o now checked stored settles req contractCache)).
Proof.
  rewrite generate_typed. cbv zeta.
  pose proof (generateFresh_trace env o checked stored settles req (requestKey env req)
                contractCache) as H.
  destruct (contractCache !! _) as [cached|];
    [destruct (now - timestamp cached <? CACHE_DURATION); [constructor|]|];
    (destruct (validRequest req); [exact H | constructor]).
Qed.

End EndpointFacts.
(** ** Total failure, cache hits and the prompts of the persona tasks *)

Section EndpointClaims.
Import JsString Http Server Notions.

Lemma invalid_request_is_rejected_witness :
  validated Examples.unknownEntity = None /\
  cacheOfValidRequests Examples.allKeys Examples.cacheAfterFirst /\
  Examples.generate Examples.allKeys Examples.helpful 5000 5000 Examples.unknownEntity
    Examples.cacheAfterFirst =
    (Rejected 400 "Invalid entity type, transaction type, or contract type",
     Examples.cacheAfterFirst, []).
Proof.
  assert (cacheOfValidRequests Examples.allKeys Examples.cacheAfterFirst) as Hwf
    by apply generate_keeps_cacheOfValidRequests, empty_cacheOfValidRequests.
  split; [reflexivity|]. split; [exact Hwf|].
  exact (proj1 (proj2 (proj2
           (invalid_request_is_rejected Examples.typeError Examples.plainTemplate
              Examples.noGasAnalysis Examples.noFindings Examples.noFindings
              Examples.allKeys Examples.helpful 5000 5000 5000 Examples.atOnce
              Examples.unknownEntity Examples.cacheAfterFirst eq_refl)))
           Examples.unknownEntity eq_refl Hwf).
Defined.

(** C9, as the specification words it, fails twice.  A valid request
    whose generated code does not pass the completeness check is
    answered with status 500 and [success: false].  And a body whose
    entity type is not a string, so that it does not pass the
    validation, but renders the key of a stored entry, is answered from
    the cache with [success: true]. *)
Lemma valid_request_can_be_answered_with_an_error :
  let run := Examples.generate Examples.allKeys Examples.chatty 0 0 Examples.llpSupplyChain ∅ in
  let served :=
    Examples.generate Examples.allKeys Examples.unauthorized 5000 5000 Examples.listedEntity
      Examples.cacheAfterFirst in
  validRequest Examples.llpSupplyChain = true /\
  fst (fst run) = Rejected 500 "Generated code is incomplete or invalid" /\
  success (fst (fst run)) = false /\
  validated Examples.listedEntity = None /\
  cacheOfValidRequests Examples.allKeys Examples.cacheAfterFirst /\
  served = (Generated Examples.firstData (Some true), Examples.cacheAfterFirst, []).
Proof.
  cbv zeta. repeat split; try (vm_compute; reflexivity).
  apply generate_keeps_cacheOfValidRequests, empty_cacheOfValidRequests.
Qed.

Lemma cache_hit_makes_no_provider_call_witness :
  Examples.generate Examples.allKeys Examples.helpful 0 1000 Examples.llpSupplyChain ∅ =
    (Generated Examples.firstData None, Examples.cacheAfterFirst, snd Examples.firstRun) /\
  sameCategories Examples.llpSupplyChain Examples.llpSupplyChainNamed /\
  5000 - 1000 < CACHE_DURATION /\
  Examples.generate Examples.allKeys Examples.unauthorized 5000 5000
    Examples.llpSupplyChainNamed Examples.cacheAfterFirst =
    (Generated Examples.firstData (Some true), Examples.cacheAfterFirst, []).
Proof.
  assert (Examples.generate Examples.allKeys Examples.helpful 0 1000 Examples.llpSupplyChain ∅ =
    (Generated Examples.firstData None, Examples.cacheAfterFirst, snd Examples.firstRun)) as H1
    by (vm_compute; reflexivity).
  assert (sameCategories Examples.llpSupplyChain Examples.llpSupplyChainNamed) as H2
    by (repeat split).
  assert (5000 - 1000 < CACHE_DURATION) as H3 by reflexivity.
  split; [exact H1|]. split; [exact H2|]. split; [exact H3|].
  exact (cache_hit_makes_no_provider_call Examples.typeError Examples.plainTemplate
           Examples.noGasAnalysis
           Examples.noFindings Examples.noFindings Examples.allKeys Examples.helpful
           Examples.unauthorized 0 1000 1000 5000 5000 5000 Examples.atOnce Examples.atOnce
           Examples.llpSupplyChain
           Examples.llpSupplyChainNamed ∅ Examples.cacheAfterFirst Examples.firstData
           (snd Examples.firstRun) H1 H2 H3).
Defined.

(** C5, as the specification words it, fails: when the first handling
    of a valid request ends in an error nothing is stored, and the
    second handling, a millisecond later, calls the providers again and
    does not answer from the cache. *)
Lemma failed_request_is_generated_again :
  let first := Examples.generate Examples.allKeys Examples.unauthorized 0 0
                 Examples.llpSupplyChain ∅ in
  let second := Examples.generate Examples.allKeys Examples.unauthorized 1 1
                  Examples.llpSupplyChain (snd (fst first)) in
  validRequest Examples.llpSupplyChain = true /\
  calls (snd first) = 9%nat /\
  calls (snd second) = 9%nat /\
  fromCache (fst (fst second)) = None.
Proof. vm_compute. repeat split. Qed.

(** C2 is broken by the endpoint.  An entry stored a minute ago, one of
    whose dependencies has a newer release: [getFromCache] refuses it and
    marks it outdated, while the cache check of the endpoint, which only
    compares the time stamp, serves it, before and after the mark.
    [getFromCache] itself compares the versions as strings, so that it
    returns the entry when the registry reports the release 10.0.0 for a
    dependency recorded at 5.0.0. *)
Theorem endpoint_serves_what_getFromCache_refuses :
  let key := requestKey Examples.allKeys Examples.llpSupplyChain in
  let read := getFromCache Examples.newerRelease 61000 key Examples.cacheAfterFirst in
  (exists entry,
      Examples.cacheAfterFirst !! key = Some entry /\ status entry = valid /\
      timestamp entry = 1000 /\ dependencies entry = defaultDependencies) /\
  fst read = None /\
  (exists entry, snd read !! key = Some entry /\ status entry = outdated) /\
  Examples.generate Examples.allKeys Examples.unauthorized 61000 61000
    Examples.llpSupplyChain Examples.cacheAfterFirst =
    (Generated Examples.firstData (Some true), Examples.cacheAfterFirst, []) /\
  Examples.generate Examples.allKeys Examples.unauthorized 61000 61000
    Examples.llpSupplyChain (snd read) =
    (Generated Examples.firstData (Some true), snd read, []) /\
  fst (getFromCache Examples.majorRelease 61000 key Examples.cacheAfterFirst) =
    Examples.cacheAfterFirst !! key.
Proof.
  cbv zeta.
  split; [eexists; split; [vm_compute; reflexivity | repeat split]|].
  split; [vm_compute; reflexivity|].
  split; [eexists; split; [vm_compute; reflexivity | reflexivity]|].
  repeat split; vm_compute; reflexivity.
Qed.

End EndpointClaims.

(** ** Total provider failure *)

Section TotalFailure.
Import JsString Http Server Notions.

Lemma allFail_not_accepted layer o p body :
  allFail o -> AiService.accepted (fst (post layer o p body)) = None.
Proof.
  intros H. destruct (post_outcome layer o p body) as [n ->].
  destruct (H p body n) as [st ->]. reflexivity.
Qed.

(** With no acceptable answer [generateCustomContract] ends in its
    template branch. *)
Lemma generateCustomContract_fallback stringify typeError layer o e t c cust :
  allFail o ->
  fst (AiService.generateCustomContract stringify typeError layer o e t c cust) =
    match AiService.getFallbackContract e t c cust with
    | Some contract =>
        Returned
          {| AiService.analysis := AiService.fallbackAnalysis e t c;
             AiService.code := contract;
             AiService.vulnerabilities :=
               ["Template provided due to generation issues with AI providers."];
             AiService.recommendations :=
               ["Review the template contract thoroughly before deployment";
                "Consider a security audit by a professional before using in production";
                "Implement additional security checks specific to your use case"] |}
    | None => Thrown ("Failed to generate contract using AI: " +:+ typeError)
    end.
Proof.
  intros H.
  set (pr := AiService.basePrompt stringify e t c cust).
  pose proof (allFail_not_accepted layer o Together (AiService.togetherRequest pr) H) as H1.
  pose proof (allFail_not_accepted layer o OpenRouter (AiService.openRouterRequest pr) H) as H2.
  pose proof (allFail_not_accepted layer o AIML (AiService.aimlRequest pr) H) as H3.
  destruct (generateCustomContract_cases stringify typeError layer o e t c cust)
    as [(r & _ & _ & A & _)|[(r & _ & _ & _ & A & _)|[(r & _ & _ & _ & _ & A & _)|
        (_ & _ & _ & _ & Hf)]]]; fold pr in A || idtac; try congruence.
  now destruct (AiService.getFallbackContract e t c cust).
Qed.

Lemma validRequest_not_empty req :
  validRequest req = true ->
  Controller.isEmpty (entityType req) = false /\
  Controller.isEmpty (transactionType req) = false /\
  Controller.isEmpty (contractType req) = false.
Proof.
  intros (He & Ht & Hc)%validRequest_inv.
  assert (forall values x, In x values ->
            forallb (fun v => negb (Controller.isEmpty v)) values = true ->
            Controller.isEmpty x = false) as Hin.
  { intros values x Hx Hall. rewrite forallb_forall in Hall.
    now apply negb_true_iff, Hall. }
  rewrite (Hin _ _ He), (Hin _ _ Ht), (Hin _ _ Hc); auto.
Qed.

(** *** When the fallback contract can be rendered *)

Lemma renderable_property customizations key fallback :
  renderable customizations = true ->
  exists shown, propertyOr customizations key fallback = Some shown.
Proof.
  destruct customizations as [obj|]; [|now eexists]. cbn.
  induction obj as [|[k v] obj IH]; [now eexists|].
  cbn. intros [Hv Hobj]%andb_true_iff.
  destruct (String.eqb k key); [|now apply IH].
  destruct (truthy v); [|now eexists].
  destruct (show v) as [shown|]; [now eexists | discriminate].
Qed.

Lemma renderable_parameters customizations :
  renderable customizations = true ->
  exists parameters, AiService.customParameters customizations = Some parameters.
Proof.
  destruct customizations as [obj|]; [|now eexists]. cbn.
  induction obj as [|[k v] obj IH]; [now eexists|].
  cbn. intros [Hv Hobj]%andb_true_iff.
  destruct (IH Hobj) as [parameters Hp].
  destruct (show v) as [shown|]; [|discriminate]. cbn.
  destruct (mapM AiService.customParameter obj) as [lines|]; [|discriminate].
  now eexists.
Qed.

Lemma renderable_fallback e t c customizations :
  renderable customizations = true ->
  exists contract, AiService.getFallbackContract e t c customizations = Some contract.
Proof.
  intros H. unfold AiService.getFallbackContract.
  destruct (renderable_property customizations "tokenName" "EquityToken" H) as [name ->].
  destruct (renderable_parameters customizations H) as [parameters ->].
  destruct (includes c "Equity"); [now eexists|].
  destruct (includes c "Supply Chain"); [now eexists|].
  destruct (includes c "Profit Sharing"); [now eexists|].
  destruct (includes c "Revenue"); now eexists.
Qed.

(** *** The endpoint when every attempt fails *)

Lemma generateFresh_allFail typeError getContractTemplate analyzeGasUsage
    extractVulnerabilities extractRecommendations env o checked stored settles req cacheKey
    contractCache :
  allFail o ->
  exists message,
    fst (Server.generateFresh typeError getContractTemplate analyzeGasUsage
           extractVulnerabilities extractRecommendations env o checked stored settles req
           cacheKey contractCache) = (failed message, contractCache) /\
    (message = "Failed to generate content with any available API" \/
     getContractTemplate (contractType req) (entityType req) (transactionType req)
       (customizations req) = None /\ message = typeError).
Proof.
  intros Hfail. unfold Server.generateFresh, Server.codePhase, rejected.
  pose proof (fun prompt persona =>
                processWithPersona_allFail env o prompt persona (contractType req)
                  (entityType req) (transactionType req) Hfail) as Hthrown.
  pose proof (Hthrown (analysisPrompt req) nanjunda) as Ta.
  pose proof (Hthrown (securityPrompt req) sandeep) as Ts.
  destruct (processWithPersona env o (analysisPrompt req) nanjunda _ _ _) as [a tr1].
  destruct (processWithPersona env o (securityPrompt req) sandeep _ _ _) as [s tr3].
  cbn [fst] in Ta, Ts. subst a s.
  destruct (getContractTemplate _ _ _ _) as [template|].
  - pose proof (Hthrown (codePrompt req template) achyutha) as Tg.
    destruct (processWithPersona env o (codePrompt req template) achyutha _ _ _) as [g tr2].
    cbn [fst] in Tg. subst g. cbn [fst].
    match goal with |- context [earliest settles ?f ?l] =>
      pose proof (earliest_In settles f l) as Hin; cbn [In] in Hin;
      destruct (earliest settles f l) as [who message] end.
    exists message. split; [reflexivity|]. left.
    destruct Hin as [Hin|[Hin|[Hin|[]]]]; now injection Hin as <- <-.
  - cbn [fst].
    match goal with |- context [earliest settles ?f ?l] =>
      pose proof (earliest_In settles f l) as Hin; cbn [In] in Hin;
      destruct (earliest settles f l) as [who message] end.
    exists message. split; [reflexivity|].
    destruct Hin as [Hin|[Hin|[Hin|[]]]]; injection Hin as <- <-; auto.
Qed.

(** C1, as the code has it.  When every attempt at every provider fails,
    a valid request sent through the contract controller is answered
    with [success: true] and the contract of [getFallbackContract] for
    that request, which exists when every customization value has a
    rendering; the same request sent to the generation endpoint of the
    main server (and not served from its cache) is answered with
    [success: false], by the error of [processWithPersona] and the
    status 500 when the template of the request renders, and nothing is
    stored. *)
Theorem total_failure_yields_the_fallback_contract :
  forall (stringify : Customizations -> string) (typeError : string) (layer : Layer)
         (getContractTemplate :
            string -> string -> string -> option Customizations -> option string)
         (analyzeGasUsage : string -> list GasAnalysis)
         (extractVulnerabilities extractRecommendations : string -> list string)
         (env : Env) (o : Oracle) (now checked stored : Z) (settles : Persona -> nat)
         (req : ContractRequest) (contractCache : gmap string CacheEntry),
    allFail o ->
    validRequest req = true ->
    noLiveEntry now (requestKey env req) contractCache ->
    let reply :=
      fst (Controller.generateCustomizedContract stringify typeError layer o
             (entityType req) (transactionType req) (contractType req) (customizations req)) in
    let response :=
      fst (Server.generate typeError getContractTemplate analyzeGasUsage
             extractVulnerabilities extractRecommendations env o now checked stored settles
             req contractCache) in
    (renderable (customizations req) = true ->
     exists contract, fallbackOf req = Some contract) /\
    (forall contract, fallbackOf req = Some contract ->
       Controller.success reply = true /\
       exists result,
         reply = Controller.Success result /\ AiService.code result = contract) /\
    success (fst response) = false /\
    snd response = contractCache /\
    (forall template,
        getContractTemplate (contractType req) (entityType req) (transactionType req)
          (customizations req) = Some template ->
        response =
          (Rejected 500 "Failed to generate content with any available API", contractCache)).
Proof.
  intros stringify typeError layer tpl gas vul rec env o now checked stored settles req
    contractCache Hfail Hv Hmiss reply response.
  split; [apply renderable_fallback|]. split.
  - intros contract Hc. subst reply. unfold Controller.generateCustomizedContract.
    destruct (validRequest_not_empty _ Hv) as (-> & -> & ->). cbn [orb].
    pose proof (generateCustomContract_fallback stringify typeError layer o (entityType req)
                  (transactionType req) (contractType req) (customizations req) Hfail) as H.
    unfold fallbackOf in Hc. rewrite Hc in H.
    destruct (AiService.generateCustomContract _ _ _ _ _ _ _ _) as [result tr].
    cbn [fst] in H. subst result. cbn. split; [reflexivity|]. eexists. split; reflexivity.
  - subst response. rewrite (generate_stale _ _ _ _ _ _ _ _ _ _ _ _ _ Hmiss), Hv.
    destruct (generateFresh_allFail typeError tpl gas vul rec env o checked stored settles req
                (requestKey env req) contractCache Hfail) as (message & -> & Hm).
    split; [reflexivity|]. split; [reflexivity|].
    intros template Htpl. destruct Hm as [->|[Hn _]]; [reflexivity | congruence].
Qed.

Lemma unauthorized_allFail : allFail Examples.unauthorized.
Proof. intros p body n. now eexists. Qed.

Lemma total_failure_yields_the_fallback_contract_witness :
  allFail Examples.unauthorized /\
  validRequest Examples.llpSupplyChainNamed = true /\
  noLiveEntry 0 (requestKey Examples.allKeys Examples.llpSupplyChainNamed) ∅ /\
  fallbackOf Examples.llpSupplyChainNamed = Some Examples.supplyChainContract /\
  exists result,
    fst (Controller.generateCustomizedContract Examples.emptyObject Examples.typeError
           Intercepted Examples.unauthorized "LLP" "B2B" "Supply Chain"
           (Some [("tokenName", JsStr "Harbour")])) = Controller.Success result /\
    AiService.code result = Examples.supplyChainContract.
Proof.
  assert (noLiveEntry 0 (requestKey Examples.allKeys Examples.llpSupplyChainNamed) ∅) as Hmiss
    by (intros entry; rewrite lookup_empty; discriminate).
  split; [exact unauthorized_allFail|]. split; [reflexivity|]. split; [exact Hmiss|].
  split; [reflexivity|].
  exact (proj2 (proj1 (proj2 (total_failure_yields_the_fallback_contract Examples.emptyObject
           Examples.typeError Intercepted Examples.plainTemplate Examples.noGasAnalysis
           Examples.noFindings Examples.noFindings Examples.allKeys Examples.unauthorized
           0 0 0 Examples.atOnce Examples.llpSupplyChainNamed ∅ unauthorized_allFail eq_refl
           Hmiss)) Examples.supplyChainContract eq_refl)).
Defined.

(** C1, as the specification words it, fails on the generation endpoint
    of the main server: with every provider attempt failing, a valid
    request is answered with [success: false] and no contract.  It also
    fails in the contract controller when a customization has no
    rendering: the fallback template throws on it and the controller
    answers with the status 500. *)
Lemma endpoint_fails_when_all_providers_fail :
  let run := Examples.generate Examples.allKeys Examples.unauthorized 0 0
               Examples.llpSupplyChain ∅ in
  let reply :=
    fst (Controller.generateCustomizedContract Examples.emptyObject Examples.typeError
           Intercepted Examples.unauthorized "LLP" "B2B" "White Label"
           (Some [("cap", JsOpaque)])) in
  allFail Examples.unauthorized /\
  validRequest Examples.llpSupplyChain = true /\
  success (fst (fst run)) = false /\
  artifact (fst (fst run)) <>
    AiService.getFallbackContract "LLP" "B2B" "Supply Chain" None /\
  validRequest (Examples.llpWhiteLabel (Some [("cap", JsOpaque)])) = true /\
  reply = Controller.Failure 500 "Failed to generate contract".
Proof.
  cbv zeta. split; [exact unauthorized_allFail|]. split; [reflexivity|].
  split; [vm_compute; reflexivity|]. split; [vm_compute; discriminate|].
  split; vm_compute; reflexivity.
Qed.

(** C6, as the code has it.  In the generation endpoint of the main
    server every request body sent to a provider is the one of a persona
    task of the request: the system message of the persona and a prompt
    built from the category fields (and, for the code task, from the
    template of the request), whatever the providers answer.  In the
    earlier server the tasks run in sequence: the prompt of the code
    task is the answer to the analysis task, and the prompt of the
    security task is the answer to the code task. *)
Theorem persona_prompts_are_built_from_the_request :
  forall (typeError : string)
         (getContractTemplate :
            string -> string -> string -> option Customizations -> option string)
         (analyzeGasUsage : string -> list GasAnalysis)
         (extractVulnerabilities extractRecommendations : string -> list string)
         (stringify : option Customizations -> string)
         (env : Env) (o : Oracle) (now checked stored : Z) (settles : Persona -> nat)
         (req : ContractRequest) (contractCache : gmap string CacheEntry),
    Forall (builtFromRequest getContractTemplate req)
      (snd (Server.generate typeError getContractTemplate analyzeGasUsage
              extractVulnerabilities extractRecommendations env o now checked stored settles
              req contractCache)) /\
    (forall analysis,
        o OpenRouter
          (LegacyServer.personaRequest (LegacyServer.basePrompt stringify req) nanjunda)
          0%nat = HttpOk (Some analysis) ->
        nth_error
          (snd (LegacyServer.generate stringify extractVulnerabilities extractRecommendations
                  o req)) 1 =
          Some (ECall OpenRouter (LegacyServer.personaRequest analysis achyutha) 0%nat)) /\
    (forall analysis code,
        o OpenRouter
          (LegacyServer.personaRequest (LegacyServer.basePrompt stringify req) nanjunda)
          0%nat = HttpOk (Some analysis) ->
        o OpenRouter (LegacyServer.personaRequest analysis achyutha) 0%nat =
          HttpOk (Some code) ->
        nth_error
          (snd (LegacyServer.generate stringify extractVulnerabilities extractRecommendations
                  o req)) 2 =
          Some (ECall OpenRouter (LegacyServer.personaRequest code sandeep) 0%nat)).
Proof.
  intros typeError tpl gas vul rec stringify env o now checked stored settles req
    contractCache.
  split; [|split].
  - apply generate_trace.
  - intros a Ha. unfold LegacyServer.generate, LegacyServer.processWithPersona. simpl.
    rewrite Ha.
    destruct (o OpenRouter (LegacyServer.personaRequest a achyutha) 0%nat) as [[g|]|st];
      try reflexivity.
    now destruct (o OpenRouter (LegacyServer.personaRequest g sandeep) 0%nat) as [[s|]|st].
  - intros a g Ha Hg. unfold LegacyServer.generate, LegacyServer.processWithPersona. simpl.
    rewrite Ha, Hg.
    now destruct (o OpenRouter (LegacyServer.personaRequest g sandeep) 0%nat) as [[s|]|st].
Qed.

(** C6, as the specification words it, fails on the earlier server: two
    provider worlds that give different analyses make the code task
    receive different prompts for the same request. *)
Lemma sequential_code_prompt_depends_on_the_analysis :
  let codeCall o :=
    nth_error
      (snd (LegacyServer.generate Examples.emptyObjectOrNot Examples.noFindings
              Examples.noFindings o Examples.llpSupplyChain)) 1 in
  codeCall Examples.cautious =
    Some (ECall OpenRouter
            (LegacyServer.personaRequest "Use role-based access control." achyutha) 0%nat) /\
  codeCall Examples.minimal =
    Some (ECall OpenRouter
            (LegacyServer.personaRequest "Keep the contract minimal." achyutha) 0%nat) /\
  codeCall Examples.cautious <> codeCall Examples.minimal.
Proof. cbv zeta. split; [reflexivity|]. split; [reflexivity|]. vm_compute. discriminate. Qed.

End TotalFailure.

(** ** Content validation and the fallback contract *)

Section Validation.
Import JsString Http Server Notions AiService.
Local Arguments String.append : simpl nomatch.

Lemma markerFree_spec s :
  markerFree s = true <-> forall m, In m placeholderMarkers -> includes s m = false.
Proof.
  unfold markerFree. rewrite forallb_forall. split; intros H m Hm.
  - now apply negb_true_iff, H.
  - now apply negb_true_iff, H.
Qed.

Lemma closes_spec x m :
  closes x = true -> In m placeholderMarkers ->
  noBorder m x = true /\ includes x m = false.
Proof.
  unfold closes. rewrite forallb_forall. intros H Hm.
  apply H, andb_true_iff in Hm as [? ?%negb_true_iff]. now split.
Qed.

Lemma opens_spec y m : opens y = true -> In m placeholderMarkers -> noEntry m y = true.
Proof. unfold opens. rewrite forallb_forall. intros H Hm. now apply H. Qed.

(** A closing literal in front of a clean text. *)
Lemma clean_after_literal m x w :
  In m placeholderMarkers -> closes x = true ->
  includes w m = false -> includes (x +:+ w) m = false.
Proof.
  intros Hm Hx Hw. destruct (closes_spec _ _ Hx Hm) as [Hb Hc].
  now rewrite includes_append_noBorder, Hc, Hw.
Qed.

(** A clean piece in front of an opening literal. *)
Lemma clean_before_literal m p y z :
  In m placeholderMarkers -> opens y = true ->
  includes p m = false -> includes (y +:+ z) m = false ->
  includes (p +:+ y +:+ z) m = false.
Proof.
  intros Hm Hy Hp Hz.
  now rewrite includes_append_noEntry, Hp, Hz by now apply opens_spec.
Qed.

(** *** The custom parameters of the generic template *)

Lemma markerFreeValue_spec value shown m :
  markerFreeValue value = true -> show value = Some shown -> In m placeholderMarkers ->
  includes shown m = false.
Proof.
  unfold markerFreeValue. intros H E. rewrite E, markerFree_spec in H. apply H.
Qed.

Lemma customParameter_clean m key value line w :
  In m placeholderMarkers ->
  customParameter (key, value) = Some line ->
  includes key m = false -> markerFreeValue value = true -> includes w m = false ->
  includes (line +:+ w) m = false.
Proof.
  intros Hm Hline Hk Hvalue Hw. unfold customParameter in Hline.
  destruct (show value) as [shown|] eqn:Hshown; [|discriminate].
  pose proof (markerFreeValue_spec value shown m Hvalue Hshown Hm) as Hv.
  apply (inj Some) in Hline. subst line.
  destruct (typeofString value).
  - rewrite !append_assoc.
    apply clean_after_literal; [exact Hm | reflexivity |].
    change (" public " +:+ key +:+ " = " +:+ dq +:+ shown +:+ dq +:+ ";" +:+ w)
      with (" public " +:+ key +:+ " = " +:+ (dq +:+ shown +:+ dq +:+ ";" +:+ w)).
    apply clean_after_literal; [exact Hm | reflexivity |].
    apply clean_before_literal; [exact Hm | reflexivity | exact Hk |].
    apply clean_after_literal; [exact Hm | reflexivity |].
    apply clean_after_literal; [exact Hm | reflexivity |].
    apply clean_before_literal; [exact Hm | reflexivity | exact Hv |].
    apply clean_after_literal; [exact Hm | reflexivity |].
    apply clean_after_literal; [exact Hm | reflexivity | exact Hw].
  - rewrite !append_assoc.
    apply clean_after_literal; [exact Hm | reflexivity |].
    apply clean_after_literal; [exact Hm | reflexivity |].
    apply clean_before_literal; [exact Hm | reflexivity | exact Hk |].
    apply clean_after_literal; [exact Hm | reflexivity |].
    apply clean_before_literal; [exact Hm | reflexivity | exact Hv |].
    apply clean_after_literal; [exact Hm | reflexivity | exact Hw].
Qed.

Lemma mapM_cons_inv (entry : string * JsValue) obj lines :
  mapM customParameter (entry :: obj) = Some lines ->
  exists line lines',
    customParameter entry = Some line /\ mapM customParameter obj = Some lines' /\
    lines = line :: lines'.
Proof.
  cbn. destruct (customParameter entry) as [line|]; [|discriminate]. cbn.
  destruct (mapM customParameter obj) as [lines'|]; [|discriminate]. cbn.
  intros [= <-]. eauto.
Qed.

Lemma customParameters_clean m obj lines w :
  In m placeholderMarkers ->
  mapM customParameter obj = Some lines ->
  forallb (fun '(key, value) => markerFree key && markerFreeValue value) obj = true ->
  includes w m = false ->
  includes (join parameterSeparator lines +:+ w) m = false.
Proof.
  intros Hm. revert lines w. induction obj as [|[key value] obj IH]; intros lines w Hl Hobj Hw.
  - injection Hl as <-. exact Hw.
  - apply mapM_cons_inv in Hl as (line & lines' & Hline & Hl & ->).
    simpl in Hobj. apply andb_true_iff in Hobj as [[Hk Hv]%andb_true_iff Hobj].
    rewrite markerFree_spec in Hk.
    destruct obj as [|entry obj].
    + injection Hl as <-. simpl. eapply customParameter_clean; eauto.
    + destruct (mapM_cons_inv _ _ _ Hl) as (line' & lines'' & _ & _ & ->).
      change (join parameterSeparator (line :: line' :: lines''))
        with (line +:+ parameterSeparator +:+ join parameterSeparator (line' :: lines'')).
      rewrite !append_assoc.
      eapply customParameter_clean; eauto.
      apply clean_after_literal; [exact Hm | reflexivity |].
      now apply IH.
Qed.

Lemma propertyOr_clean customizations key fallback name :
  propertyOr customizations key fallback = Some name ->
  markerFreeCustomizations customizations = true -> markerFree fallback = true ->
  markerFree name = true.
Proof.
  intros Hn Hc Hf. destruct customizations as [obj|]; [|now injection Hn as <-].
  simpl in *.
  induction obj as [|[k v] obj IH]; [now injection Hn as <-|].
  simpl in Hc. apply andb_true_iff in Hc as [[_ Hv]%andb_true_iff Hobj]. simpl in Hn.
  destruct (String.eqb k key); [|now apply IH].
  destruct (truthy v); [|now injection Hn as <-].
  unfold markerFreeValue in Hv. now rewrite Hn in Hv.
Qed.

(** *** [validateContractCode] *)

Lemma validateContractCode_alt code :
  validateContractCode code =
    includes code "pragma solidity" && includes code "contract " &&
    (includes code "constructor" || includes code "function ") &&
    markerFree code && (500 <? String.length code)%nat.
Proof.
  unfold validateContractCode, hasPlaceholderComment, markerFree, placeholderMarkers.
  cbn [forallb].
  replace (500 <? Z.of_nat (String.length code)) with (500 <? String.length code)%nat.
  - destruct (includes code "..."), (includes code "// TODO"),
      (includes code "// Implementation"), (includes code "rest of the code"),
      (includes code "// Add implementation"); cbn; now rewrite ?andb_false_r, ?andb_true_r.
  - destruct (Nat.ltb_spec 500 (String.length code)), (Z.ltb_spec 500 (Z.of_nat (String.length code)));
      (reflexivity || lia).
Qed.

Lemma length_append_r (p w : string) :
  (String.length w <= String.length (p +:+ w))%nat.
Proof. rewrite length_append. lia. Qed.

(** A clean piece in front of a clean last literal. *)
Lemma clean_before_last m p y :
  In m placeholderMarkers -> opens y = true ->
  includes p m = false -> includes y m = false -> includes (p +:+ y) m = false.
Proof.
  intros Hm Hy Hp Hz. rewrite <- (append_nil_r y).
  apply clean_before_literal; auto. now rewrite append_nil_r.
Qed.

(** Walks through a template, literal by literal and piece by piece. *)
Ltac walk Hm :=
  repeat first
    [ apply clean_after_literal; [exact Hm | vm_compute; reflexivity |]
    | apply clean_before_literal; [exact Hm | vm_compute; reflexivity | solve [auto] |]
    | apply clean_before_last;
        [exact Hm | vm_compute; reflexivity | solve [auto] | vm_compute; reflexivity]
    | apply (proj1 (markerFree_spec _)); [vm_compute; reflexivity | exact Hm] ].

(** Finds a literal that holds the text looked for, and a literal longer
    than 500 characters at the end. *)
Ltac find_literal :=
  first [ apply includes_append_l; vm_compute; reflexivity
        | apply includes_append_r; find_literal
        | vm_compute; reflexivity ].

Ltac long_tail :=
  first [ eapply Nat.lt_le_trans; [|apply length_append_r]; long_tail
        | apply Nat.ltb_lt; vm_compute; reflexivity ].

Lemma wellFormed_intro code :
  includes code "pragma solidity" = true ->
  includes code "SPDX-License-Identifier" = true ->
  includes code "contract " = true ->
  includes code "constructor" = true ->
  (500 < String.length code)%nat ->
  markerFree code = true ->
  wellFormed code.
Proof.
  intros H1 H2 H3 H4 H5 Hm. unfold wellFormed.
  rewrite validateContractCode_alt, H1, H2, H3, H4, Hm.
  apply Nat.ltb_lt in H5 as H5'. rewrite H5'. now repeat split.
Qed.

Lemma customParameters_text_clean m cust parameters w :
  In m placeholderMarkers -> customParameters cust = Some parameters ->
  markerFreeCustomizations cust = true ->
  includes w m = false -> includes (parameters +:+ w) m = false.
Proof.
  intros Hm Hp Hcust Hw. destruct cust as [obj|]; simpl in Hp.
  - destruct (mapM customParameter obj) as [lines|] eqn:Hl; [|discriminate].
    injection Hp as <-. now apply customParameters_clean with obj.
  - injection Hp as <-. now apply clean_after_literal.
Qed.

(** The fallback contract of category fields and customizations without
    a marker is well formed, whichever template is chosen. *)
Lemma fallback_wellFormed e t c cust contract :
  markerFreeCategories e t c = true ->
  markerFreeCustomizations cust = true ->
  getFallbackContract e t c cust = Some contract ->
  wellFormed contract.
Proof.
  unfold markerFreeCategories.
  intros [[[He Ht]%andb_true_iff Hc]%andb_true_iff Hrc]%andb_true_iff Hcust.
  rewrite markerFree_spec in He, Ht, Hc, Hrc.
  unfold getFallbackContract.
  destruct (includes c "Equity");
    [|destruct (includes c "Supply Chain");
      [|destruct (includes c "Profit Sharing"); [|destruct (includes c "Revenue")]]].
  - destruct (propertyOr cust "tokenName" "EquityToken") as [name|] eqn:En; [|discriminate].
    pose proof (propertyOr_clean cust "tokenName" "EquityToken" name En Hcust eq_refl)
      as Hname.
    rewrite markerFree_spec in Hname.
    intros <-%(inj Some). apply wellFormed_intro; [find_literal .. | long_tail |].
    apply markerFree_spec. intros m Hm. walk Hm.
  - intros <-%(inj Some). apply wellFormed_intro; [find_literal .. | long_tail |].
    apply markerFree_spec. intros m Hm. walk Hm.
  - intros <-%(inj Some). apply wellFormed_intro; [find_literal .. | long_tail |].
    apply markerFree_spec. intros m Hm. walk Hm.
  - intros <-%(inj Some). apply wellFormed_intro; [find_literal .. | long_tail |].
    apply markerFree_spec. intros m Hm. walk Hm.
  - destruct (customParameters cust) as [parameters|] eqn:Ep; [|discriminate].
    intros <-%(inj Some). apply wellFormed_intro; [find_literal .. | long_tail |].
    apply markerFree_spec. intros m Hm. walk Hm.
    apply customParameters_text_clean with cust; [exact Hm | exact Ep | exact Hcust |].
    walk Hm.
Qed.

(** The allowed categories hold no marker. *)
Lemma validRequest_markerFree req :
  validRequest req = true ->
  markerFreeCategories (entityType req) (transactionType req) (contractType req) = true.
Proof.
  intros (He & Ht & Hc)%validRequest_inv. unfold markerFreeCategories.
  assert (forall (f : string -> bool) values x, In x values -> forallb f values = true ->
                           f x = true) as Hin.
  { intros f values x Hx Hall. rewrite forallb_forall in Hall. now apply Hall. }
  rewrite (Hin markerFree _ _ He), (Hin markerFree _ _ Ht), (Hin markerFree _ _ Hc),
    (Hin (fun c => markerFree (removeSpaces c)) _ _ Hc); reflexivity.
Qed.

(** C10, as the code has it.  For every request that passes the
    validation of the endpoint and whose customizations hold no
    placeholder marker, neither in a key nor in a rendered value, the
    fallback contract, which [getFallbackContract] returns when every
    customization value has a rendering, passes [validateContractCode]:
    it has the pragma, the licence identifier, a contract declaration, a
    constructor or a function, more than 500 characters and no
    placeholder marker. *)
Theorem fallback_contract_passes_validation :
  forall req : ContractRequest,
    validRequest req = true ->
    markerFreeCustomizations (customizations req) = true ->
    (renderable (customizations req) = true ->
     exists code, fallbackOf req = Some code) /\
    (forall code, fallbackOf req = Some code ->
       validateContractCode code = true /\
       includes code "pragma solidity" = true /\
       includes code "SPDX-License-Identifier" = true /\
       includes code "contract " = true /\
       includes code "constructor" || includes code "function " = true /\
       (500 < String.length code)%nat /\
       markerFree code = true).
Proof.
  intros req Hv Hc. unfold fallbackOf. split; [apply renderable_fallback|].
  intros code Hcode.
  exact (fallback_wellFormed _ _ _ _ _ (validRequest_markerFree req Hv) Hc Hcode).
Qed.

Lemma fallback_contract_passes_validation_witness :
  validRequest (Examples.llpWhiteLabel (Some Examples.plainCustomizations)) = true /\
  markerFreeCustomizations (Some Examples.plainCustomizations) = true /\
  exists code,
    fallbackOf (Examples.llpWhiteLabel (Some Examples.plainCustomizations)) = Some code /\
    validateContractCode code = true.
Proof.
  split; [reflexivity|]. split; [reflexivity|].
  destruct (fallback_contract_passes_validation
              (Examples.llpWhiteLabel (Some Examples.plainCustomizations))
              eq_refl eq_refl) as [Hsome Hgood].
  destruct (Hsome eq_refl) as [code Hcode].
  exists code. split; [exact Hcode | exact (proj1 (Hgood code Hcode))].
Defined.

(** C10, as the specification words it, fails twice.  With no marker in
    any customization value but an ellipsis as a key, the fallback
    contract of a valid request holds an ellipsis and does not pass the
    validation.  And with a customization value that has no rendering
    (and so holds no marker) there is no fallback contract at all: the
    generic template throws on it. *)
Lemma marker_in_a_key_breaks_the_fallback :
  let req := Examples.llpWhiteLabel (Some Examples.ellipsisKey) in
  let req' := Examples.llpWhiteLabel (Some [("cap", JsOpaque)]) in
  validRequest req = true /\
  markerFreeValues (customizations req) = true /\
  (exists code,
      fallbackOf req = Some code /\
      includes code "..." = true /\
      validateContractCode code = false) /\
  validRequest req' = true /\
  markerFreeValues (customizations req') = true /\
  fallbackOf req' = None.
Proof.
  cbv zeta. split; [reflexivity|]. split; [reflexivity|]. split.
  - eexists. split; [vm_compute; reflexivity|]. split; vm_compute; reflexivity.
  - repeat split.
Qed.

(** *** What the services return *)

Lemma completeCode_inv generatedCode :
  completeCode generatedCode = true ->
  includes generatedCode "SPDX-License-Identifier" = true /\
  includes generatedCode "pragma solidity" = true /\
  includes generatedCode "contract" = true /\
  includes generatedCode "..." = false /\
  includes generatedCode "rest of" = false /\
  includes generatedCode "remains the same" = false.
Proof.
  unfold completeCode.
  destruct (includes generatedCode "SPDX-License-Identifier"),
    (includes generatedCode "pragma solidity"), (includes generatedCode "contract"),
    (includes generatedCode "..."), (includes generatedCode "rest of"),
    (includes generatedCode "remains the same"); simpl; try discriminate.
  now repeat split.
Qed.

(** C4, as the code has it.  [validateContractCode] rejects a code that
    lacks the pragma, a contract declaration, or both a constructor and
    a function, that has no more than 500 characters, or that holds one
    of the markers [...], [// TODO], [// Implementation],
    [rest of the code] and [// Add implementation]; it accepts a code
    with the licence identifier that passes all these tests.  The code
    [generateCustomContract] returns is the fallback contract or the
    extract of a provider answer that this validation accepted.  The
    code of a fresh answer of the generation endpoint has the licence
    identifier, the pragma and the word [contract], and none of [...],
    [rest of] and [remains the same]. *)
Theorem returned_code_passed_validation :
  forall (stringify : Customizations -> string) (typeError : string) (layer : Layer)
         (getContractTemplate :
            string -> string -> string -> option Customizations -> option string)
         (analyzeGasUsage : string -> list GasAnalysis)
         (extractVulnerabilities extractRecommendations : string -> list string)
         (env : Env) (o : Oracle) (now checked stored : Z) (settles : Persona -> nat)
         (req : ContractRequest) (contractCache : gmap string CacheEntry),
    (forall code,
        validateContractCode code = true ->
        includes code "pragma solidity" = true /\
        includes code "contract " = true /\
        includes code "constructor" || includes code "function " = true /\
        (500 < String.length code)%nat /\
        markerFree code = true) /\
    (forall code,
        includes code "SPDX-License-Identifier" = true ->
        includes code "pragma solidity" = true ->
        includes code "contract " = true ->
        includes code "constructor" || includes code "function " = true ->
        (500 < String.length code)%nat ->
        markerFree code = true ->
        validateContractCode code = true) /\
    (forall result,
        fst (generateCustomContract stringify typeError layer o (entityType req)
               (transactionType req) (contractType req) (customizations req)) =
          Returned result ->
        fallbackOf req = Some (AiService.code result) \/
        (validateContractCode (AiService.code result) = true /\
         includes (AiService.code result) "..." = false /\
         includes (AiService.code result) "// TODO" = false /\
         exists p body n content,
           o p body n = HttpOk (Some content) /\
           AiService.code result = extractContractCode content)) /\
    (forall data cache1 tr,
        Server.generate typeError getContractTemplate analyzeGasUsage extractVulnerabilities
          extractRecommendations env o now checked stored settles req contractCache =
          (Generated data None, cache1, tr) ->
        includes (dataCode data) "SPDX-License-Identifier" = true /\
        includes (dataCode data) "pragma solidity" = true /\
        includes (dataCode data) "contract" = true /\
        includes (dataCode data) "..." = false /\
        includes (dataCode data) "rest of" = false /\
        includes (dataCode data) "remains the same" = false).
Proof.
  intros stringify typeError layer tpl gas vul rec env o now checked stored settles req
    contractCache.
  assert (forall code,
            validateContractCode code = true ->
            includes code "pragma solidity" = true /\
            includes code "contract " = true /\
            includes code "constructor" || includes code "function " = true /\
            (500 < String.length code)%nat /\
            markerFree code = true) as Hvalid.
  { intros code. rewrite validateContractCode_alt, !andb_true_iff, Nat.ltb_lt. tauto. }
  split; [exact Hvalid|]. split; [|split].
  - intros code _ H1 H2 H3 H4 H5.
    rewrite validateContractCode_alt, !andb_true_iff, Nat.ltb_lt. tauto.
  - intros result Hres.
    destruct (generateCustomContract_code _ _ _ _ _ _ _ _ _ Hres)
      as [H|(Hv & Hfrom)]; [now left | right].
    destruct (Hvalid _ Hv) as (_ & _ & _ & _ & Hm). rewrite markerFree_spec in Hm.
    split; [exact Hv|]. split; [apply Hm; cbn; auto|]. split; [apply Hm; cbn; auto|].
    exact Hfrom.
  - intros data cache1 tr H.
    apply generate_fresh_inv in H as (entry & -> & _ & Hc & _).
    now apply completeCode_inv.
Qed.

(** C4, as the specification words it, fails: a provider answer that
    holds the word TODO, outside of a [// TODO] comment, passes both
    validations and is returned as the contract by
    [generateCustomContract] and by the generation endpoint. *)
Lemma unfinished_contract_is_returned :
  includes Examples.unfinishedContract "TODO" = true /\
  validateContractCode Examples.unfinishedContract = true /\
  (exists result,
      fst (generateCustomContract Examples.emptyObject Examples.typeError Plain
             Examples.unfinished "LLP" "B2B" "Supply Chain" None) = Returned result /\
      AiService.code result = Examples.unfinishedContract) /\
  artifact
    (fst (fst (Examples.generate Examples.allKeys Examples.unfinished 0 0
                 Examples.llpSupplyChain ∅))) = Some Examples.unfinishedContract.
Proof.
  split; [vm_compute; reflexivity|]. split; [vm_compute; reflexivity|]. split.
  - eexists. split; vm_compute; reflexivity.
  - vm_compute; reflexivity.
Qed.

End Validation.

(** ** The shape of a request and of a persona task *)

Section RequestShape.
Import JsString Http Server Notions Measures.

(** A request under the interceptor goes on while its exchanges fail
    with something retryable and the budget lasts. *)
Lemma request_shape o p body budget first :
  exists k, (k <= budget)%nat /\
    request o p body budget first =
      (o p body (first + k)%nat, ECall p body first :: retries p body (S first) k) /\
    (forall j, (j < k)%nat -> retryable (o p body (first + j)%nat) = true) /\
    ((k < budget)%nat -> retryable (o p body (first + k)%nat) = false).
Proof.
  revert first. induction budget as [|b IH]; intros first.
  - exists 0%nat. rewrite Nat.add_0_r. simpl.
    repeat split; try lia.
    destruct (o p body first) as [t|st]; [|destruct (noRetry st)]; reflexivity.
  - simpl. destruct (o p body first) as [t|st] eqn:E.
    { exists 0%nat. rewrite Nat.add_0_r, E. repeat split; try lia. }
    destruct (noRetry st) eqn:Hn.
    { exists 0%nat. rewrite Nat.add_0_r, E. simpl. rewrite Hn. repeat split; try lia. }
    destruct (IH (S first)) as (k & Hk & Hreq & Hbefore & Hstop).
    exists (S k). rewrite Hreq.
    replace (first + S k)%nat with (S first + k)%nat by lia.
    repeat split; try lia.
    + intros [|j] Hj.
      * rewrite Nat.add_0_r, E. simpl. now rewrite Hn.
      * replace (first + S j)%nat with (S first + j)%nat by lia. apply Hbefore. lia.
    + intros Hlt. apply Hstop. lia.
Qed.

Lemma post_shape o p body :
  exists k, (k <= 3)%nat /\
    post Intercepted o p body = (o p body k, retrySchedule p body k) /\
    (forall j, (j < k)%nat -> retryable (o p body j) = true) /\
    ((k < 3)%nat -> retryable (o p body k) = false).
Proof. exact (request_shape o p body maxRetries 0). Qed.

Lemma retrySchedule_measures p body k :
  (k <= 3)%nat ->
  let tr := retrySchedule p body k in
  calls tr = S k /\ callsTo p tr = S k /\
  (forall q, q <> p -> callsTo q tr = 0%nat) /\
  onlyCallsTo p tr /\
  0 <= totalDelay tr <= 14000 /\
  lastEvent tr = Some (ECall p body k).
Proof.
  intros Hk.
  assert (k = 0 \/ k = 1 \/ k = 2 \/ k = 3)%nat as [->|[->|[->| ->]]] by lia;
    (split; [reflexivity|]; split; [now destruct p|]; split;
     [intros q Hq; destruct p, q; solve [reflexivity | congruence]|];
     split; [repeat constructor|]; split; [vm_compute; split; congruence | reflexivity]).
Qed.

Lemma totalDelay_app tr tr' : totalDelay (tr ++ tr') = totalDelay tr + totalDelay tr'.
Proof.
  unfold totalDelay. induction tr as [|[q b k|ms] tr IH]; simpl; [reflexivity | exact IH | lia].
Qed.

Lemma onlyCallsTo_callsTo p q tr : onlyCallsTo p tr -> q <> p -> callsTo q tr = 0%nat.
Proof.
  intros H Hq. induction H as [|[r b k|ms] tr Hev _ IH]; [reflexivity| |].
  - rewrite callsTo_cons, IH. subst r. now destruct p, q.
  - rewrite callsTo_cons, IH. now destruct q.
Qed.

Lemma lastEvent_app tr ev tr' :
  lastEvent (tr ++ ev :: tr') = lastEvent (ev :: tr').
Proof.
  unfold lastEvent. rewrite map_app. induction (map Some tr) as [|x l IH]; [reflexivity|].
  simpl app. rewrite <- IH. simpl. now destruct (l ++ _) eqn:E; [destruct l; discriminate|].
Qed.

(** The possible courses of one [try] block. *)
Lemma tryProvider_cases o keyIsSet p body afterwards :
  (keyIsSet = false /\ tryProvider o keyIsSet p body afterwards = afterwards) \/
  (keyIsSet = true /\
   exists k, (k <= 3)%nat /\
     ((exists text, o p body k = HttpOk (Some text) /\ (50 <= String.length text)%nat /\
         tryProvider o keyIsSet p body afterwards = (Returned text, retrySchedule p body k)) \/
      (substantial (o p body k) = None /\
         tryProvider o keyIsSet p body afterwards =
           (fst afterwards, retrySchedule p body k ++ snd afterwards)))).
Proof.
  destruct keyIsSet; [right; split; [reflexivity|] | now left].
  destruct (post_shape o p body) as (k & Hk & Hpost & _). exists k. split; [exact Hk|].
  unfold tryProvider. rewrite Hpost.
  destruct (substantial (o p body k)) as [text|] eqn:Hs.
  - left. exists text. unfold substantial in Hs.
    destruct (o p body k) as [[t|]|st]; try discriminate.
    destruct (Nat.ltb_spec (String.length t) 50); [discriminate|].
    injection Hs as ->. auto.
  - right. split; [reflexivity|]. now destruct afterwards.
Qed.

(** X1.  Under the interceptor a request is a run of at most four
    exchanges of the same body with the same provider: it is re-issued
    exactly as long as the exchange just made failed with something other
    than the statuses 400, 401 and 403 and fewer than three retries were
    made; the answer of the request is the answer of its last exchange,
    and the waits before the retries are 2, 4 and 8 seconds, in this
    order. *)
Theorem request_stops_at_the_first_final_answer :
  forall (o : Oracle) (p : Provider) (body : Payload),
  exists k, (k <= 3)%nat /\
    post Intercepted o p body = (o p body k, retrySchedule p body k) /\
    (forall j, (j < k)%nat -> retryable (o p body j) = true) /\
    ((k < 3)%nat -> retryable (o p body k) = false) /\
    delays (retrySchedule p body k) = firstn k [2000; 4000; 8000].
Proof.
  intros o p body. destruct (post_shape o p body) as (k & Hk & Hpost & Hbefore & Hstop).
  exists k. repeat split; try assumption.
  assert (k = 0 \/ k = 1 \/ k = 2 \/ k = 3)%nat as [->|[->|[->| ->]]] by lia; reflexivity.
Qed.

(** *** [processWithPersona] *)

Let chain (env : Env) (o : Oracle) (prompt : string) (persona : Persona) (q : Provider)
    (afterwards : Result string * Trace) : Result string * Trace :=
  tryProvider o (keySet env q) q (chatRequest (personaModel q) persona prompt) afterwards.

Lemma processWithPersona_chain env o prompt persona c e t :
  processWithPersona env o prompt persona c e t =
    chain env o prompt persona Together
      (chain env o prompt persona OpenRouter
         (chain env o prompt persona AIML
            (Thrown "Failed to generate content with any available API", []))).
Proof. reflexivity. Qed.

(** The measures of what one block adds. *)
Lemma chain_measures env o prompt persona q afterwards :
  let run := chain env o prompt persona q afterwards in
  exists tr rest,
    snd run = tr ++ rest /\
    (rest = [] \/ rest = snd afterwards) /\
    onlyCallsTo q tr /\ (calls tr <= 4)%nat /\ 0 <= totalDelay tr <= 14000 /\
    (keySet env q = false -> tr = []).
Proof.
  unfold chain.
  destruct (tryProvider_cases o (keySet env q) q
              (chatRequest (personaModel q) persona prompt) afterwards)
    as [[Hk ->]|(Hk & k & Hle & [(text & _ & _ & ->)|(_ & ->)])].
  - exists [], (snd afterwards). unfold calls, totalDelay. simpl.
    repeat split; try (now auto); try constructor; lia.
  - destruct (retrySchedule_measures q (chatRequest (personaModel q) persona prompt) k Hle)
      as (Hc & _ & _ & Hq & Hd & _).
    exists (retrySchedule q (chatRequest (personaModel q) persona prompt) k), [].
    simpl snd. rewrite app_nil_r. repeat split; try (now auto); try lia.
    intros Hf. congruence.
  - destruct (retrySchedule_measures q (chatRequest (personaModel q) persona prompt) k Hle)
      as (Hc & _ & _ & Hq & Hd & _).
    exists (retrySchedule q (chatRequest (personaModel q) persona prompt) k), (snd afterwards).
    simpl snd. repeat split; try (now auto); try lia.
    intros Hf. congruence.
Qed.

(** The trace of a persona task is made of three parts, one for each
    provider in the order of the chain. *)
Lemma processWithPersona_parts env o prompt persona c e t :
  exists tr1 tr2 tr3,
    snd (processWithPersona env o prompt persona c e t) = tr1 ++ tr2 ++ tr3 /\
    (onlyCallsTo Together tr1 /\ (calls tr1 <= 4)%nat /\ 0 <= totalDelay tr1 <= 14000 /\
     (TOGETHER_API_KEY env = false -> tr1 = [])) /\
    (onlyCallsTo OpenRouter tr2 /\ (calls tr2 <= 4)%nat /\ 0 <= totalDelay tr2 <= 14000 /\
     (OPENROUTER_API_KEY env = false -> tr2 = [])) /\
    (onlyCallsTo AIML tr3 /\ (calls tr3 <= 4)%nat /\ 0 <= totalDelay tr3 <= 14000 /\
     (AIML_API_KEY env = false -> tr3 = [])).
Proof.
  rewrite processWithPersona_chain.
  set (r3 := chain env o prompt persona AIML _).
  set (r2 := chain env o prompt persona OpenRouter r3).
  destruct (chain_measures env o prompt persona Together r2)
    as (tr1 & rest1 & E1 & Hrest1 & H1).
  destruct (chain_measures env o prompt persona OpenRouter r3)
    as (tr2 & rest2 & E2 & Hrest2 & H2).
  destruct (chain_measures env o prompt persona AIML
              (Thrown "Failed to generate content with any available API", []))
    as (tr3 & rest3 & E3 & Hrest3 & H3).
  fold r3 in E3, E2. fold r2 in E2, E1.
  assert (rest3 = []) as -> by (destruct Hrest3 as [->| ->]; reflexivity).
  rewrite app_nil_r in E3.
  assert (forall p, onlyCallsTo p [] /\ (calls [] <= 4)%nat /\ 0 <= totalDelay [] <= 14000 /\
                    (keySet env p = false -> @nil Event = [])) as Hnil.
  { intros p. unfold calls, totalDelay. simpl. repeat split; try constructor; lia. }
  destruct Hrest1 as [->| ->].
  - exists tr1, [], []. rewrite E1. simpl. repeat split; try apply (Hnil OpenRouter);
      try apply (Hnil AIML); apply H1.
  - destruct Hrest2 as [->| ->].
    + exists tr1, tr2, []. rewrite E1, E2. repeat split; try apply (Hnil AIML);
        try apply H1; apply H2.
    + exists tr1, tr2, tr3. rewrite E1, E2, E3. repeat split;
        try apply H1; try apply H2; apply H3.
Qed.

(** The measures of the trace of a persona task, from its parts. *)
Lemma processWithPersona_measures env o prompt persona c e t :
  let tr := snd (processWithPersona env o prompt persona c e t) in
  (forall p, keySet env p = false -> callsTo p tr = 0%nat) /\
  (forall p, (callsTo p tr <= 4)%nat) /\
  (calls tr <= 12)%nat /\
  0 <= totalDelay tr <= 42000.
Proof.
  intros tr.
  destruct (processWithPersona_parts env o prompt persona c e t)
    as (tr1 & tr2 & tr3 & E & (Q1 & C1 & D1 & K1) & (Q2 & C2 & D2 & K2) & (Q3 & C3 & D3 & K3)).
  subst tr. rewrite E.
  assert (forall p q tr, onlyCallsTo q tr -> (callsTo p tr <= calls tr)%nat) as Hle.
  { intros p q tr H. induction H as [|[r b k|ms] tr' _ _ IH]; [reflexivity| |].
    - rewrite callsTo_cons. change (calls (ECall r b k :: tr')) with (S (calls tr')).
      destruct (isCallTo p _); lia.
    - rewrite callsTo_cons. change (calls (EDelay ms :: tr')) with (calls tr').
      now destruct p. }
  split; [|split; [|split]].
  - intros p Hp. rewrite !callsTo_app.
    destruct p; simpl in Hp.
    + rewrite (K1 Hp). rewrite (onlyCallsTo_callsTo _ _ _ Q2), (onlyCallsTo_callsTo _ _ _ Q3);
        [reflexivity | discriminate | discriminate].
    + rewrite (K2 Hp). rewrite (onlyCallsTo_callsTo _ _ _ Q1), (onlyCallsTo_callsTo _ _ _ Q3);
        [reflexivity | discriminate | discriminate].
    + rewrite (K3 Hp). rewrite (onlyCallsTo_callsTo _ _ _ Q1), (onlyCallsTo_callsTo _ _ _ Q2);
        [reflexivity | discriminate | discriminate].
  - intros p. rewrite !callsTo_app.
    pose proof (Hle p _ _ Q1). pose proof (Hle p _ _ Q2). pose proof (Hle p _ _ Q3).
    destruct p.
    + rewrite (onlyCallsTo_callsTo _ Together _ Q2), (onlyCallsTo_callsTo _ Together _ Q3);
        [lia | discriminate | discriminate].
    + rewrite (onlyCallsTo_callsTo _ OpenRouter _ Q1), (onlyCallsTo_callsTo _ OpenRouter _ Q3);
        [lia | discriminate | discriminate].
    + rewrite (onlyCallsTo_callsTo _ AIML _ Q1), (onlyCallsTo_callsTo _ AIML _ Q2);
        [lia | discriminate | discriminate].
  - rewrite !calls_app. lia.
  - rewrite !totalDelay_app. lia.
Qed.

(** X2.  A persona task asks the providers in the order Together,
    OpenRouter, AIML and never comes back to an earlier one: its trace is
    a run of exchanges with Together, then one with OpenRouter, then one
    with AIML (each may be empty).  A provider whose API key is not set
    is not called.  Whatever the providers answer, the task makes at most
    4 exchanges with each provider and 12 in all, and its back-off waits
    add up to at most 42 seconds. *)
Theorem persona_task_is_bounded :
  forall (env : Env) (o : Oracle) (prompt : string) (persona : Persona)
         (contractType entityType transactionType : string),
    let tr := snd (processWithPersona env o prompt persona
                     contractType entityType transactionType) in
    (exists tr1 tr2 tr3,
        tr = tr1 ++ tr2 ++ tr3 /\
        onlyCallsTo Together tr1 /\ onlyCallsTo OpenRouter tr2 /\ onlyCallsTo AIML tr3) /\
    (forall p, keySet env p = false -> callsTo p tr = 0%nat) /\
    (forall p, (callsTo p tr <= 4)%nat) /\
    (calls tr <= 12)%nat /\
    0 <= totalDelay tr <= 42000.
Proof.
  intros env o prompt persona c e t tr.
  split; [|exact (processWithPersona_measures env o prompt persona c e t)].
  destruct (processWithPersona_parts env o prompt persona c e t)
    as (tr1 & tr2 & tr3 & E & (Q1 & _) & (Q2 & _) & (Q3 & _)).
  exists tr1, tr2, tr3. auto.
Qed.

(** The text a run returns is a substantial answer to the last exchange
    of the run. *)
Let answered (env : Env) (o : Oracle) (prompt : string) (persona : Persona)
    (run : Result string * Trace) : Prop :=
  forall text, fst run = Returned text ->
    exists p k,
      keySet env p = true /\ (k <= 3)%nat /\
      o p (chatRequest (personaModel p) persona prompt) k = HttpOk (Some text) /\
      (50 <= String.length text)%nat /\
      lastEvent (snd run) = Some (ECall p (chatRequest (personaModel p) persona prompt) k).

Lemma chain_answered env o prompt persona q afterwards :
  answered env o prompt persona afterwards ->
  answered env o prompt persona (chain env o prompt persona q afterwards).
Proof.
  intros Haft text Hret. unfold chain in *.
  destruct (tryProvider_cases o (keySet env q) q
              (chatRequest (personaModel q) persona prompt) afterwards)
    as [[Hk E]|(Hk & k & Hle & [(text' & Ho & Hlen & E)|(Hs & E)])]; rewrite E in *.
  - now apply Haft.
  - simpl in Hret. injection Hret as ->. exists q, k. repeat split; try assumption.
    simpl snd.
    now destruct (retrySchedule_measures q (chatRequest (personaModel q) persona prompt) k Hle)
      as (_ & _ & _ & _ & _ & Hlast).
  - simpl in Hret. destruct (Haft _ Hret) as (p & k' & Hkey & Hk' & Ho & Hlen & Hlast).
    exists p, k'. repeat split; try assumption. simpl snd.
    destruct (snd afterwards) as [|ev rest]; [discriminate Hlast|]. rewrite <- Hlast.
    exact (lastEvent_app (retrySchedule q (chatRequest (personaModel q) persona prompt) k)
             ev rest).
Qed.

(** X3.  When a persona task returns a text, the text is what a provider
    whose key is set answered (with a 2xx status) to one of the at most
    four exchanges of the request made for the task, it is at least 50
    characters long, and that exchange is the last event of the task:
    nothing is asked after a substantial answer. *)
Theorem persona_answer_is_the_last_exchange :
  forall (env : Env) (o : Oracle) (prompt : string) (persona : Persona)
         (contractType entityType transactionType : string) (text : string) (tr : Trace),
    processWithPersona env o prompt persona contractType entityType transactionType =
      (Returned text, tr) ->
    exists p k,
      keySet env p = true /\ (k <= 3)%nat /\
      o p (chatRequest (personaModel p) persona prompt) k = HttpOk (Some text) /\
      (50 <= String.length text)%nat /\
      lastEvent tr = Some (ECall p (chatRequest (personaModel p) persona prompt) k).
Proof.
  intros env o prompt persona c e t text tr H.
  rewrite processWithPersona_chain in H.
  assert (answered env o prompt persona
            (Thrown "Failed to generate content with any available API", [])) as H0
    by (intros text' Ht; discriminate Ht).
  apply (chain_answered env o prompt persona AIML) in H0.
  apply (chain_answered env o prompt persona OpenRouter) in H0.
  apply (chain_answered env o prompt persona Together) in H0.
  specialize (H0 text). rewrite H in H0. exact (H0 eq_refl).
Qed.

Lemma persona_answer_is_the_last_exchange_witness :
  processWithPersona Examples.allKeys Scenarios.secondProviderAnswers "Review the vault"
    sandeep "Supply Chain" "LLP" "B2B" =
    (Returned Scenarios.shortAnswer,
     snd (processWithPersona Examples.allKeys Scenarios.secondProviderAnswers
            "Review the vault" sandeep "Supply Chain" "LLP" "B2B")) /\
  exists p k,
    keySet Examples.allKeys p = true /\ (k <= 3)%nat /\
    Scenarios.secondProviderAnswers p (chatRequest (personaModel p) sandeep "Review the vault") k =
      HttpOk (Some Scenarios.shortAnswer) /\
    (50 <= String.length Scenarios.shortAnswer)%nat /\
    lastEvent (snd (processWithPersona Examples.allKeys Scenarios.secondProviderAnswers
                      "Review the vault" sandeep "Supply Chain" "LLP" "B2B")) =
      Some (ECall p (chatRequest (personaModel p) sandeep "Review the vault") k).
Proof.
  assert (processWithPersona Examples.allKeys Scenarios.secondProviderAnswers
            "Review the vault" sandeep "Supply Chain" "LLP" "B2B" =
          (Returned Scenarios.shortAnswer,
           snd (processWithPersona Examples.allKeys Scenarios.secondProviderAnswers
                  "Review the vault" sandeep "Supply Chain" "LLP" "B2B"))) as H
    by (vm_compute; reflexivity).
  split; [exact H|].
  exact (persona_answer_is_the_last_exchange Examples.allKeys Scenarios.secondProviderAnswers
           "Review the vault" sandeep "Supply Chain" "LLP" "B2B" Scenarios.shortAnswer _ H).
Defined.

End RequestShape.
(** ** More on the generation endpoint and the contract cache *)

Section EndpointMore.
Import JsString Http Server Notions Measures.

Variable typeError : string.
Variable getContractTemplate :
  string -> string -> string -> option Customizations -> option string.
Variable analyzeGasUsage : string -> list GasAnalysis.
Variable extractVulnerabilities : string -> list string.
Variable extractRecommendations : string -> list string.

Let generate :=
  Server.generate typeError getContractTemplate analyzeGasUsage extractVulnerabilities
    extractRecommendations.
Let generateFresh :=
  Server.generateFresh typeError getContractTemplate analyzeGasUsage extractVulnerabilities
    extractRecommendations.

Let noProvider : string := "Failed to generate content with any available API".
Let incomplete : string := "Generated code is incomplete or invalid".
Let invalidRequest : string := "Invalid entity type, transaction type, or contract type".

(** The response the endpoint builds from a cache entry. *)
Let dataOf (entry : CacheEntry) : GenerationData :=
  {| dataAnalysis := analysis entry; dataCode := code entry;
     dataVulnerabilities := vulnerabilities entry;
     dataRecommendations := recommendations entry;
     dataGasAnalysis := gasAnalysis entry |}.

(** A fresh generation, spelled out: the three runs, the response, the
    cache and the trace. *)
Lemma generateFresh_spelled env o checked stored settles req cacheKey contractCache :
  exists tr1 tr2 tr3 a s,
    processWithPersona env o (analysisPrompt req) nanjunda
      (contractType req) (entityType req) (transactionType req) = (a, tr1) /\
    (tr2 = [] \/
     exists template g,
       processWithPersona env o (codePrompt req template) achyutha
         (contractType req) (entityType req) (transactionType req) = (g, tr2)) /\
    processWithPersona env o (securityPrompt req) sandeep
      (contractType req) (entityType req) (transactionType req) = (s, tr3) /\
    snd (generateFresh env o checked stored settles req cacheKey contractCache) =
      tr1 ++ tr2 ++ tr3 /\
    ((exists entry,
        fst (generateFresh env o checked stored settles req cacheKey contractCache) =
          (Generated (dataOf entry) None, <[cacheKey := entry]> contractCache) /\
        timestamp entry = stored /\ lastChecked entry = checked /\
        status entry = valid /\ issues entry = [] /\
        dependencies entry = defaultDependencies /\
        compiler entry = solidityVersion env /\
        completeCode (code entry) = true /\
        a = Returned (analysis entry) /\
        gasAnalysis entry = analyzeGasUsage (code entry) /\
        (exists template,
           getContractTemplate (contractType req) (entityType req) (transactionType req)
             (customizations req) = Some template /\
           fragmentsBase entry = template /\
           fragmentsFeatures entry = [] /\
           fragmentsCustomizations entry = default [] (customizations req) /\
           framework entry = "OpenZeppelin 5.0.0" /\
           processWithPersona env o (codePrompt req template) achyutha
             (contractType req) (entityType req) (transactionType req) =
             (Returned (code entry), tr2)) /\
        exists securityAnalysis,
          s = Returned securityAnalysis /\
          vulnerabilities entry = extractVulnerabilities securityAnalysis /\
          recommendations entry = extractRecommendations securityAnalysis) \/
     (exists message,
        fst (generateFresh env o checked stored settles req cacheKey contractCache) =
          (failed message, contractCache) /\
        (message = noProvider \/ message = incomplete \/
         getContractTemplate (contractType req) (entityType req) (transactionType req)
           (customizations req) = None /\ message = typeError))).
Proof.
  unfold generateFresh, Server.generateFresh, Server.codePhase, rejected.
  pose proof (processWithPersona_thrown env o (analysisPrompt req) nanjunda
                (contractType req) (entityType req) (transactionType req)) as Ta.
  pose proof (fun template => processWithPersona_thrown env o (codePrompt req template)
                achyutha (contractType req) (entityType req) (transactionType req)) as Tg.
  pose proof (processWithPersona_thrown env o (securityPrompt req) sandeep
                (contractType req) (entityType req) (transactionType req)) as Ts.
  destruct (processWithPersona env o (analysisPrompt req) nanjunda _ _ _) as [a tr1].
  destruct (processWithPersona env o (securityPrompt req) sandeep _ _ _) as [s tr3].
  cbn [fst] in Ta, Ts.
  destruct (getContractTemplate _ _ _ _) as [template|].
  - specialize (Tg template).
    destruct (processWithPersona env o (codePrompt req template) achyutha _ _ _)
      as [g tr2] eqn:Eg.
    cbn [fst] in Tg.
    exists tr1, tr2, tr3, a, s.
    split; [reflexivity|]. split; [right; eauto|]. split; [reflexivity|].
    destruct a as [a|ma]; [|rewrite (Ta _ eq_refl) in *];
      (destruct g as [g|mg]; [destruct (completeCode g) eqn:Hc|rewrite (Tg _ eq_refl) in *]);
      (destruct s as [s|ms]; [|rewrite (Ts _ eq_refl) in *]); cbn [fst snd];
      (split; [reflexivity|]);
      try (right;
           match goal with
           | |- context [earliest settles ?f ?l] =>
               pose proof (earliest_In settles f l) as Hin; cbn [In] in Hin;
               destruct (earliest settles f l) as [who message]; cbn [snd];
               exists message; split; [reflexivity|];
               repeat (destruct Hin as [Hin|Hin]; [injection Hin as <- <-; auto|]);
               destruct Hin
           | |- _ => eexists; split; [reflexivity | auto]
           end).
    left. match goal with |- context [<[_ := ?e]> _] => exists e end. cbn.
    repeat (split; [solve [auto]|]). split; [exists template; auto 10 | eauto].
  - exists tr1, [], tr3, a, s.
    split; [reflexivity|]. split; [now left|]. split; [reflexivity|].
    destruct a as [a|ma]; [|rewrite (Ta _ eq_refl) in *];
      (destruct s as [s|ms]; [|rewrite (Ts _ eq_refl) in *]); cbn [fst snd];
      (split; [reflexivity|]); right;
      match goal with
      | |- context [earliest settles ?f ?l] =>
          pose proof (earliest_In settles f l) as Hin; cbn [In] in Hin;
          destruct (earliest settles f l) as [who message]; cbn [snd];
          exists message; split; [reflexivity|];
          repeat (destruct Hin as [Hin|Hin]; [injection Hin as <- <-; auto|]);
          destruct Hin
      | |- _ => eexists; split; [reflexivity | auto]
      end.
Qed.

(** The handler on a request of the interface, by cases. *)
Lemma generate_cases env o now checked stored settles (req : ContractRequest) contractCache :
  (exists entry,
      contractCache !! requestKey env req = Some entry /\
      now - timestamp entry < CACHE_DURATION /\
      generate env o now checked stored settles req contractCache =
        (Generated (dataOf entry) (Some true), contractCache, [])) \/
  (noLiveEntry now (requestKey env req) contractCache /\
   ((validRequest req = false /\
     generate env o now checked stored settles req contractCache =
       (Rejected 400 invalidRequest, contractCache, [])) \/
    (validRequest req = true /\
     generate env o now checked stored settles req contractCache =
       generateFresh env o checked stored settles req (requestKey env req) contractCache))).
Proof.
  unfold generate. rewrite generate_typed. cbv zeta.
  destruct (contractCache !! requestKey env req) as [cached|] eqn:E.
  - destruct (Z.ltb_spec (now - timestamp cached) CACHE_DURATION) as [Hlt|Hge].
    + left. exists cached. auto.
    + right. split; [intros entry He; rewrite E in He; injection He as <-; lia|].
      destruct (validRequest req); [right | left]; auto.
  - right. split; [intros entry He; rewrite E in He; discriminate|].
    destruct (validRequest req); [right | left]; auto.
Qed.

(** What a freshly generated answer leaves in the cache. *)
Lemma generate_fresh_entry env o now checked stored settles (req : ContractRequest)
    contractCache data cache1 tr :
  generate env o now checked stored settles req contractCache =
    (Generated data None, cache1, tr) ->
  exists entry,
    cache1 = <[requestKey env req := entry]> contractCache /\
    data = dataOf entry /\
    timestamp entry = stored /\ lastChecked entry = checked /\
    status entry = valid /\ issues entry = [] /\
    dependencies entry = defaultDependencies /\
    compiler entry = solidityVersion env.
Proof.
  destruct (generate_cases env o now checked stored settles req contractCache)
    as [(entry & _ & _ & ->)|(_ & [(Hv & ->)|(Hv & ->)])]; [discriminate | discriminate |].
  destruct (generateFresh_spelled env o checked stored settles req (requestKey env req)
              contractCache)
    as (tr1 & tr2 & tr3 & a & s & _ & _ & _ & Etr &
        [(entry & E & Ht & Hl & Hs & Hi & Hd & Hc & _)|(message & E & _)]).
  - destruct (generateFresh env o checked stored settles req (requestKey env req)
                contractCache) as [[r c] tr']. simpl in E, Etr. injection E as -> ->.
    intros [= <- <- _]. exists entry. auto 10.
  - destruct (generateFresh env o checked stored settles req (requestKey env req)
                contractCache) as [[r c] tr']. simpl in E. injection E as -> ->.
    discriminate.
Qed.

(** Where the findings of a freshly generated answer come from. *)
Lemma generate_fresh_findings env o now checked stored settles (req : ContractRequest)
    contractCache data cache1 tr :
  generate env o now checked stored settles req contractCache =
    (Generated data None, cache1, tr) ->
  completeCode (dataCode data) = true /\
  dataGasAnalysis data = analyzeGasUsage (dataCode data) /\
  exists securityAnalysis,
    fst (processWithPersona env o (securityPrompt req) sandeep
           (contractType req) (entityType req) (transactionType req)) =
      Returned securityAnalysis /\
    dataVulnerabilities data = extractVulnerabilities securityAnalysis /\
    dataRecommendations data = extractRecommendations securityAnalysis.
Proof.
  destruct (generate_cases env o now checked stored settles req contractCache)
    as [(entry & _ & _ & ->)|(_ & [(Hv & ->)|(Hv & ->)])]; [discriminate | discriminate |].
  destruct (generateFresh_spelled env o checked stored settles req (requestKey env req)
              contractCache)
    as (tr1 & tr2 & tr3 & a & s & _ & _ & E3 & Etr &
        [(entry & E & _ & _ & _ & _ & _ & _ & Hc & _ & Hg & _ & sec & -> & Hvul & Hrec)
        |(message & E & _)]).
  - destruct (generateFresh env o checked stored settles req (requestKey env req)
                contractCache) as [[r c] tr']. simpl in E, Etr. injection E as -> ->.
    intros [= <- <- _]. simpl. rewrite E3. simpl. eauto 8.
  - destruct (generateFresh env o checked stored settles req (requestKey env req)
                contractCache) as [[r c] tr']. simpl in E. injection E as -> ->.
    discriminate.
Qed.

(** The handler on any body, by cases. *)
Lemma generate_body_cases env o now checked stored settles body contractCache :
  (bodyKey env body = None /\
   generate env o now checked stored settles body contractCache =
     (failed typeError, contractCache, [])) \/
  (exists cacheKey,
      bodyKey env body = Some cacheKey /\
      ((exists entry,
           contractCache !! cacheKey = Some entry /\
           now - timestamp entry < CACHE_DURATION /\
           generate env o now checked stored settles body contractCache =
             (Generated (dataOf entry) (Some true), contractCache, [])) \/
       (noLiveEntry now cacheKey contractCache /\
        ((validated body = None /\
          generate env o now checked stored settles body contractCache =
            (Rejected 400 invalidRequest, contractCache, [])) \/
         (exists req,
             validated body = Some req /\ validRequest req = true /\
             cacheKey = requestKey env req /\
             generate env o now checked stored settles body contractCache =
               generateFresh env o checked stored settles req cacheKey contractCache))))).
Proof.
  unfold generate, Server.generate.
  destruct (bodyKey env body) as [cacheKey|] eqn:Ek; [right | now left].
  exists cacheKey. split; [reflexivity|].
  assert (noLiveEntry now cacheKey contractCache ->
          noLiveEntry now cacheKey contractCache /\
          ((validated body = None /\
            match validated body with
            | Some req =>
                generateFresh env o checked stored settles req cacheKey contractCache
            | None => (Rejected 400 invalidRequest, contractCache, [])
            end = (Rejected 400 invalidRequest, contractCache, [])) \/
           (exists req,
               validated body = Some req /\ validRequest req = true /\
               cacheKey = requestKey env req /\
               match validated body with
               | Some req =>
                   generateFresh env o checked stored settles req cacheKey contractCache
               | None => (Rejected 400 invalidRequest, contractCache, [])
               end = generateFresh env o checked stored settles req cacheKey contractCache)))
    as Hmiss.
  { intros Hold. split; [exact Hold|].
    destruct (validated body) as [req|] eqn:Hv; [right | now left].
    exists req. destruct (validated_inv _ _ Hv) as [-> Hvalid].
    rewrite bodyKey_typed in Ek. injection Ek as <-. auto. }
  destruct (contractCache !! cacheKey) as [cached|] eqn:E.
  - destruct (Z.ltb_spec (now - timestamp cached) CACHE_DURATION) as [Hlt|Hge].
    + left. exists cached. auto.
    + right. apply Hmiss. intros entry He. rewrite E in He. injection He as <-. lia.
  - right. apply Hmiss. intros entry He. rewrite E in He. discriminate.
Qed.

Lemma errorStatus_cases message :
  errorStatus message = 401 \/ errorStatus message = 429 \/ errorStatus message = 500.
Proof.
  unfold errorStatus. destruct (includes message "OPENROUTER_API_KEY"); [auto|].
  destruct (includes message "rate limit"); auto.
Qed.

(** X5.  One handling of [POST /api/generate] makes at most 36 provider
    exchanges, at most 12 with each provider and none with a provider
    whose API key is not set, and its back-off waits add up to at most
    126 seconds, whatever the body of the request is and whatever the
    providers answer.  A handling that answers from the cache or with
    the status 400 makes no exchange at all. *)
Theorem endpoint_is_bounded :
  forall (env : Env) (o : Oracle) (now checked stored : Z) (settles : Persona -> nat)
         (body : RequestBody) (contractCache : gmap string CacheEntry),
    let response :=
      fst (fst (generate env o now checked stored settles body contractCache)) in
    let tr := snd (generate env o now checked stored settles body contractCache) in
    (calls tr <= 36)%nat /\
    (forall p, (callsTo p tr <= 12)%nat) /\
    (forall p, keySet env p = false -> callsTo p tr = 0%nat) /\
    0 <= totalDelay tr <= 126000 /\
    (fromCache response = Some true -> tr = []) /\
    (forall message, response = Rejected 400 message -> tr = []).
Proof.
  intros env o now checked stored settles body contractCache.
  assert (forall p, callsTo p [] = 0%nat) as Hnil by reflexivity.
  cbv zeta.
  destruct (generate_body_cases env o now checked stored settles body contractCache)
    as [(_ & E)|(cacheKey & _ & [(entry & _ & _ & E)|(_ & [(Hv & E)|(req & _ & _ & _ & E)])])];
    rewrite E;
    try (simpl fst; simpl snd; unfold calls, totalDelay; simpl; repeat split; intros;
         rewrite ?Hnil; solve [reflexivity | lia]).
  destruct (generateFresh_spelled env o checked stored settles req cacheKey contractCache)
    as (tr1 & tr2 & tr3 & a & s & E1 & E2 & E3 & Etr & Hr).
  rewrite Etr.
  pose proof (processWithPersona_measures env o (analysisPrompt req) nanjunda
                (contractType req) (entityType req) (transactionType req)) as M1.
  pose proof (processWithPersona_measures env o (securityPrompt req) sandeep
                (contractType req) (entityType req) (transactionType req)) as M3.
  rewrite E1 in M1. rewrite E3 in M3. simpl in M1, M3.
  assert ((forall p, keySet env p = false -> callsTo p tr2 = 0%nat) /\
          (forall p, (callsTo p tr2 <= 4)%nat) /\
          (calls tr2 <= 12)%nat /\ 0 <= totalDelay tr2 <= 42000) as M2.
  { destruct E2 as [->|(template & g & E2)].
    - unfold calls, totalDelay. simpl. repeat split; intros; rewrite ?Hnil; lia.
    - pose proof (processWithPersona_measures env o (codePrompt req template) achyutha
                    (contractType req) (entityType req) (transactionType req)) as M2.
      rewrite E2 in M2. exact M2. }
  destruct M1 as (K1 & P1 & C1 & D1), M2 as (K2 & P2 & C2 & D2), M3 as (K3 & P3 & C3 & D3).
  rewrite !calls_app, !totalDelay_app.
  split; [lia|]. split; [|split; [|split; [lia|]]].
  - intros p. rewrite !callsTo_app. specialize (P1 p). specialize (P2 p). specialize (P3 p).
    lia.
  - intros p Hp. rewrite !callsTo_app, (K1 p Hp), (K2 p Hp), (K3 p Hp). reflexivity.
  - destruct Hr as [(entry & -> & _)|(message & -> & _)]; simpl;
      (split; [discriminate|]); intros m; [discriminate|].
    intros [= Hs _]. destruct (errorStatus_cases message) as [H|[H|H]]; lia.
Qed.

(** X6.  A handling of [POST /api/generate] changes the cache only when
    it answers with a freshly generated result, and then only under the
    key of the request, which has passed the validation: the entry
    written there carries the data of the answer, the clock read when
    the entry is built as [timestamp] and the one read just before as
    [lastChecked], the status [valid] without issues, the two
    OpenZeppelin packages at [^5.0.0] as dependencies and the resolved
    Solidity version as compiler, and replaces whatever was stored under
    the key.  In every other case (cache hit, status 400, an error) the
    cache is left as it was. *)
Theorem endpoint_writes_only_its_own_key :
  forall (env : Env) (o : Oracle) (now checked stored : Z) (settles : Persona -> nat)
         (body : RequestBody) (contractCache : gmap string CacheEntry),
    let response :=
      fst (fst (generate env o now checked stored settles body contractCache)) in
    let cache' := snd (fst (generate env o now checked stored settles body contractCache)) in
    (forall k, bodyKey env body <> Some k -> cache' !! k = contractCache !! k) /\
    match response with
    | Generated data None =>
        exists req entry,
          validated body = Some req /\
          cache' = <[requestKey env req := entry]> contractCache /\
          data = {| dataAnalysis := analysis entry; dataCode := code entry;
                    dataVulnerabilities := vulnerabilities entry;
                    dataRecommendations := recommendations entry;
                    dataGasAnalysis := gasAnalysis entry |} /\
          timestamp entry = stored /\ lastChecked entry = checked /\
          status entry = valid /\ issues entry = [] /\
          dependencies entry =
            [("@openzeppelin/contracts-upgradeable", "^5.0.0");
             ("@openzeppelin/contracts", "^5.0.0")] /\
          compiler entry = solidityVersion env
    | _ => cache' = contractCache
    end.
Proof.
  intros env o now checked stored settles body contractCache.
  destruct (generate_body_cases env o now checked stored settles body contractCache)
    as [(_ & ->)|(cacheKey & Ek & [(entry & _ & _ & ->)|
                  (_ & [(Hv & ->)|(req & Hv & _ & -> & ->)])])];
    simpl; [auto | auto | auto |].
  destruct (generateFresh_spelled env o checked stored settles req (requestKey env req)
              contractCache)
    as (tr1 & tr2 & tr3 & a & s & _ & _ & _ & _ &
        [(entry & -> & Ht & Hl & Hs & Hi & Hd & Hc & _)|(message & -> & _)]); simpl.
  - split; [intros k Hk; apply lookup_insert_ne; congruence|].
    exists req, entry. auto 10.
  - auto.
Qed.

(** X7.  [POST /api/generate] answers with [fromCache: true] exactly when
    the cache holds an entry under the key its category fields render to
    that was written less than [CACHE_DURATION] (7 days) before; the
    answer is then built from this entry alone, whether or not the body
    would pass the validation.  An entry of exactly that age or older is
    not served. *)
Theorem cache_hit_exactly_for_a_live_entry :
  forall (env : Env) (o : Oracle) (now checked stored : Z) (settles : Persona -> nat)
         (body : RequestBody) (contractCache : gmap string CacheEntry),
    let response :=
      fst (fst (generate env o now checked stored settles body contractCache)) in
    (fromCache response = Some true <->
     exists cacheKey entry,
       bodyKey env body = Some cacheKey /\ contractCache !! cacheKey = Some entry /\
       now - timestamp entry < 7 * 24 * 60 * 60 * 1000) /\
    (forall cacheKey entry,
       bodyKey env body = Some cacheKey -> contractCache !! cacheKey = Some entry ->
       now - timestamp entry < 7 * 24 * 60 * 60 * 1000 ->
       response =
         Generated {| dataAnalysis := analysis entry; dataCode := code entry;
                      dataVulnerabilities := vulnerabilities entry;
                      dataRecommendations := recommendations entry;
                      dataGasAnalysis := gasAnalysis entry |} (Some true)).
Proof.
  intros env o now checked stored settles body contractCache.
  change (7 * 24 * 60 * 60 * 1000) with CACHE_DURATION.
  destruct (generate_body_cases env o now checked stored settles body contractCache)
    as [(Ek & ->)|(cacheKey & Ek & [(entry & He & Hlt & ->)|(Hold & Hmiss)])]; simpl.
  - split; [split; [discriminate|]|].
    + intros (k & entry & Hk & _). congruence.
    + intros k entry Hk. congruence.
  - split; [split; eauto|]. intros k entry' Hk He' _.
    rewrite Ek in Hk. injection Hk as <-. rewrite He in He'. now injection He' as <-.
  - assert (fromCache
              (fst (fst (generate env o now checked stored settles body contractCache))) <>
              Some true) as Hfresh.
    { destruct Hmiss as [(Hv & ->)|(req & _ & _ & _ & ->)]; simpl; [discriminate|].
      destruct (generateFresh_spelled env o checked stored settles req cacheKey
                  contractCache)
        as (tr1 & tr2 & tr3 & a & s & _ & _ & _ & _ &
            [(entry & -> & _)|(message & -> & _)]); simpl; discriminate. }
    split; [split|].
    + intros H. now destruct Hfresh.
    + intros (k & entry & Hk & He & Hlt). rewrite Ek in Hk. injection Hk as <-.
      specialize (Hold _ He). lia.
    + intros k entry Hk He Hlt. rewrite Ek in Hk. injection Hk as <-.
      specialize (Hold _ He). lia.
Qed.

(** *** [getFromCache] and [checkDependencyVersions] *)

Lemma checkDependencyVersions_up_to_date latest deps :
  (forall pkg version latestVersion,
      In (pkg, version) deps -> latest pkg = Some latestVersion ->
      String.ltb (removeFirst "^" version) latestVersion = false) ->
  checkDependencyVersions latest deps = [].
Proof.
  intros H. unfold checkDependencyVersions. induction deps as [|[pkg version] deps IH];
    [reflexivity|].
  simpl. rewrite IH by (intros; eapply H; [right|]; eassumption).
  destruct (latest pkg) as [latestVersion|] eqn:E; [|reflexivity].
  now rewrite (H pkg version latestVersion (or_introl eq_refl) E).
Qed.

(** X8.  The entry written by a fresh generation is accepted by the cache
    read helper [getFromCache] as long as it is read no later than
    [CACHE_DURATION] after the clock read [checked] of the write (the
    one kept as [lastChecked]) and the package registry, for each
    of the two OpenZeppelin packages, either fails or reports a version
    that is not above [5.0.0] in the order of strings: the helper returns
    the entry, whose code is the code of the answer, and leaves the cache
    as it is. *)
Theorem fresh_entry_is_read_back :
  forall (env : Env) (o : Oracle) (now checked stored now' : Z) (settles : Persona -> nat)
         (req : ContractRequest)
         (contractCache cache1 : gmap string CacheEntry) (data : GenerationData) (tr : Trace)
         (latest : string -> option string),
    generate env o now checked stored settles req contractCache =
      (Generated data None, cache1, tr) ->
    now' - checked <= CACHE_DURATION ->
    (forall pkg latestVersion,
        latest pkg = Some latestVersion -> String.ltb "5.0.0" latestVersion = false) ->
    exists entry,
      getFromCache latest now' (requestKey env req) cache1 = (Some entry, cache1) /\
      code entry = dataCode data /\
      analysis entry = dataAnalysis data /\
      status entry = valid.
Proof.
  intros env o now checked stored now' settles req contractCache cache1 data tr latest H Hage
    Hreg.
  apply generate_fresh_entry in H as (entry & -> & -> & _ & Hl & Hs & _ & Hd & _).
  exists entry. unfold getFromCache. rewrite lookup_insert_eq, Hl.
  destruct (Z.ltb_spec CACHE_DURATION (now' - checked)) as [Hlt|_]; [lia|].
  rewrite checkDependencyVersions_up_to_date; [simpl; auto|].
  intros pkg version latestVersion Hin Hlatest. rewrite Hd in Hin.
  destruct Hin as [[= <- <-]|[[= <- <-]|[]]]; exact (Hreg _ _ Hlatest).
Qed.

End EndpointMore.

Section EndpointMoreWitnesses.
Import JsString Http Server Notions Measures.

Lemma fresh_entry_is_read_back_witness :
  Examples.generate Examples.allKeys Examples.helpful 0 1000 Examples.llpSupplyChain ∅ =
    (Generated Examples.firstData None, Examples.cacheAfterFirst, snd Examples.firstRun) /\
  61000 - 1000 <= CACHE_DURATION /\
  (forall pkg latestVersion,
      Scenarios.currentRelease pkg = Some latestVersion ->
      String.ltb "5.0.0" latestVersion = false) /\
  exists entry,
    getFromCache Scenarios.currentRelease 61000
      (requestKey Examples.allKeys Examples.llpSupplyChain) Examples.cacheAfterFirst =
      (Some entry, Examples.cacheAfterFirst) /\
    code entry = dataCode Examples.firstData /\
    analysis entry = dataAnalysis Examples.firstData /\
    status entry = valid.
Proof.
  assert (Examples.generate Examples.allKeys Examples.helpful 0 1000 Examples.llpSupplyChain ∅ =
    (Generated Examples.firstData None, Examples.cacheAfterFirst, snd Examples.firstRun)) as H1
    by (vm_compute; reflexivity).
  assert (61000 - 1000 <= CACHE_DURATION) as H2 by (unfold CACHE_DURATION; lia).
  assert (forall pkg latestVersion,
            Scenarios.currentRelease pkg = Some latestVersion ->
            String.ltb "5.0.0" latestVersion = false) as H3
    by (intros pkg latestVersion [= <-]; reflexivity).
  split; [exact H1|]. split; [exact H2|]. split; [exact H3|].
  exact (fresh_entry_is_read_back Examples.typeError Examples.plainTemplate
           Examples.noGasAnalysis Examples.noFindings Examples.noFindings Examples.allKeys
           Examples.helpful 0 1000 1000 61000 Examples.atOnce Examples.llpSupplyChain ∅
           Examples.cacheAfterFirst Examples.firstData
           (snd Examples.firstRun) Scenarios.currentRelease H1 H2 H3).
Defined.

End EndpointMoreWitnesses.
(** ** The cache helpers *)

Section CacheHelpers.
Import JsString Http Server Notions Measures CacheWrite.

Lemma checkDependencyVersions_unreachable latest deps :
  (forall pkg, latest pkg = None) -> checkDependencyVersions latest deps = [].
Proof.
  intros H. apply checkDependencyVersions_up_to_date.
  intros pkg version latestVersion _ E. rewrite H in E. discriminate.
Qed.

(** X9.  [getFromCache] never adds or removes an entry and touches no
    key but the one it is asked for.  What it may change in the entry
    under that key is the status, which becomes [outdated], and the
    issues: the code, the analysis, the time stamps and the dependencies
    stay as they were.  When it returns an entry, this is the entry
    stored under the key, and the cache is left as it was. *)
Theorem getFromCache_only_marks_its_entry :
  forall (latest : string -> option string) (now : Z) (cacheKey : string)
         (contractCache : gmap string CacheEntry),
    let returned := fst (getFromCache latest now cacheKey contractCache) in
    let cache' := snd (getFromCache latest now cacheKey contractCache) in
    (forall k, k <> cacheKey -> cache' !! k = contractCache !! k) /\
    (forall k, is_Some (cache' !! k) <-> is_Some (contractCache !! k)) /\
    (forall entry', cache' !! cacheKey = Some entry' ->
       exists entry,
         contractCache !! cacheKey = Some entry /\
         code entry' = code entry /\ analysis entry' = analysis entry /\
         timestamp entry' = timestamp entry /\ lastChecked entry' = lastChecked entry /\
         dependencies entry' = dependencies entry /\
         (entry' = entry \/ status entry' = outdated)) /\
    (forall entry, returned = Some entry ->
       contractCache !! cacheKey = Some entry /\ cache' = contractCache).
Proof.
  intros latest now cacheKey contractCache. unfold getFromCache.
  destruct (contractCache !! cacheKey) as [entry|] eqn:E.
  - assert (forall found,
              let cache' := <[cacheKey := markOutdated entry found]> contractCache in
              (forall k, k <> cacheKey -> cache' !! k = contractCache !! k) /\
              (forall k, is_Some (cache' !! k) <-> is_Some (contractCache !! k)) /\
              (forall entry', cache' !! cacheKey = Some entry' ->
                 exists entry0,
                   Some entry = Some entry0 /\
                   code entry' = code entry0 /\ analysis entry' = analysis entry0 /\
                   timestamp entry' = timestamp entry0 /\
                   lastChecked entry' = lastChecked entry0 /\
                   dependencies entry' = dependencies entry0 /\
                   (entry' = entry0 \/ status entry' = outdated))) as Hmark.
    { intros found cache'. subst cache'. split; [|split].
      - intros k Hk. now apply lookup_insert_ne.
      - intros k. destruct (decide (k = cacheKey)) as [->|Hk].
        + rewrite lookup_insert_eq, E. split; eauto.
        + now rewrite lookup_insert_ne.
      - intros entry'. rewrite lookup_insert_eq. intros [= <-].
        exists entry. simpl. auto 10. }
    destruct (CACHE_DURATION <? now - lastChecked entry).
    + destruct (Hmark None) as (H1 & H2 & H3). simpl. repeat split; auto; try discriminate;
        apply H2.
    + destruct (0 <? length (checkDependencyVersions latest (dependencies entry)))%nat.
      * destruct (Hmark (Some (checkDependencyVersions latest (dependencies entry))))
          as (H1 & H2 & H3). simpl. repeat split; auto; try discriminate; apply H2.
      * simpl. repeat split; auto; try congruence.
        intros entry' He'. exists entry'. rewrite E in He'. auto 10.
  - simpl. repeat split; auto; try discriminate.
    intros entry' He'. rewrite E in He'. discriminate.
Qed.

(** X10.  Once the validation of an entry is older than [CACHE_DURATION],
    [getFromCache] refuses it, marks it [outdated], and refuses it at
    every later time as well, whatever the package registry reports:
    the helper never refreshes [lastChecked]. *)
Theorem expired_entry_stays_refused :
  forall (latest latest' : string -> option string) (now now' : Z) (cacheKey : string)
         (contractCache : gmap string CacheEntry) (entry : CacheEntry),
    contractCache !! cacheKey = Some entry ->
    CACHE_DURATION < now - lastChecked entry ->
    now <= now' ->
    let first := getFromCache latest now cacheKey contractCache in
    fst first = None /\
    (exists marked, snd first !! cacheKey = Some marked /\
                    status marked = outdated /\ code marked = code entry) /\
    fst (getFromCache latest' now' cacheKey (snd first)) = None.
Proof.
  intros latest latest' now now' cacheKey contractCache entry E Hexp Hle first.
  assert (first = (None, <[cacheKey := markOutdated entry None]> contractCache)) as ->.
  { subst first. unfold getFromCache. rewrite E.
    destruct (Z.ltb_spec CACHE_DURATION (now - lastChecked entry)) as [_|Hge]; [reflexivity | lia]. }
  simpl fst. simpl snd. split; [reflexivity|]. split.
  - exists (markOutdated entry None). rewrite lookup_insert_eq. auto.
  - unfold getFromCache. rewrite lookup_insert_eq. simpl lastChecked.
    destruct (Z.ltb_spec CACHE_DURATION (now' - lastChecked entry)) as [_|Hge]; [|lia].
    reflexivity.
Qed.

(** X11.  A package registry that cannot be reached invalidates nothing:
    when every version lookup fails, [checkDependencyVersions] reports no
    dependency, and [getFromCache] returns every entry whose validation
    is at most [CACHE_DURATION] old, whatever its dependencies and
    whatever status it carries, leaving the cache as it is. *)
Theorem unreachable_registry_invalidates_nothing :
  forall (latest : string -> option string) (now : Z) (cacheKey : string)
         (contractCache : gmap string CacheEntry) (entry : CacheEntry),
    (forall pkg, latest pkg = None) ->
    contractCache !! cacheKey = Some entry ->
    now - lastChecked entry <= CACHE_DURATION ->
    (forall deps, checkDependencyVersions latest deps = []) /\
    getFromCache latest now cacheKey contractCache = (Some entry, contractCache).
Proof.
  intros latest now cacheKey contractCache entry Hdown E Hage.
  split; [intros deps; now apply checkDependencyVersions_unreachable|].
  unfold getFromCache. rewrite E.
  destruct (Z.ltb_spec CACHE_DURATION (now - lastChecked entry)) as [Hlt|_]; [lia|].
  now rewrite checkDependencyVersions_unreachable.
Qed.

(** X12.  What [saveToCache] stores is read back by [getFromCache]: for
    an argument without metadata the entry stored gets the two
    OpenZeppelin packages at [^5.0.0] as dependencies, so it is returned
    for [CACHE_DURATION] after the write as long as the registry, for
    each of them, fails or reports a version not above [5.0.0] in the
    order of strings.  The entry returned has the code and the analysis
    of the argument (the empty string for a missing one), the time of
    the write as time stamp, and the status [valid] without issues,
    whatever time stamp and validation the argument carried; every other
    key of the cache is as before the write. *)
Theorem saved_entry_is_read_back :
  forall (env : Env) (now now' : Z) (cacheKey : string) (partial : PartialEntry)
         (contractCache : gmap string CacheEntry) (latest : string -> option string),
    partialMetadata partial = None ->
    now' - now <= CACHE_DURATION ->
    (forall pkg latestVersion,
        latest pkg = Some latestVersion -> String.ltb "5.0.0" latestVersion = false) ->
    let saved := saveToCache env now cacheKey partial contractCache in
    (exists entry,
        getFromCache latest now' cacheKey saved = (Some entry, saved) /\
        code entry = default EmptyString (partialCode partial) /\
        analysis entry = default EmptyString (partialAnalysis partial) /\
        timestamp entry = now /\ lastChecked entry = now /\
        status entry = valid /\ issues entry = [] /\
        compiler entry = solidityVersion env) /\
    (forall k, k <> cacheKey -> saved !! k = contractCache !! k).
Proof.
  intros env now now' cacheKey partial contractCache latest Hmeta Hage Hreg saved.
  split; [|intros k Hk; now apply lookup_insert_ne].
  subst saved. unfold saveToCache, getFromCache. rewrite Hmeta. cbv zeta.
  rewrite lookup_insert_eq. simpl lastChecked. simpl dependencies.
  destruct (Z.ltb_spec CACHE_DURATION (now' - now)) as [Hlt|_]; [lia|].
  rewrite checkDependencyVersions_up_to_date.
  - simpl. eexists. split; [reflexivity|]. simpl. auto 10.
  - intros pkg version latestVersion Hin Hlatest.
    destruct Hin as [[= <- <-]|[[= <- <-]|[]]]; exact (Hreg _ _ Hlatest).
Qed.

Lemma expired_entry_stays_refused_witness :
  Scenarios.vaultCache !! "vault" = Some Scenarios.vault /\
  CACHE_DURATION < (1000 + Scenarios.eightDays) - lastChecked Scenarios.vault /\
  1000 + Scenarios.eightDays <= 2000 + Scenarios.eightDays /\
  fst (getFromCache Scenarios.currentRelease (2000 + Scenarios.eightDays) "vault"
         (snd (getFromCache Examples.newerRelease (1000 + Scenarios.eightDays) "vault"
                 Scenarios.vaultCache))) = None.
Proof.
  assert (Scenarios.vaultCache !! "vault" = Some Scenarios.vault) as H1 by reflexivity.
  assert (CACHE_DURATION < (1000 + Scenarios.eightDays) - lastChecked Scenarios.vault) as H2
    by reflexivity.
  assert (1000 + Scenarios.eightDays <= 2000 + Scenarios.eightDays) as H3 by lia.
  split; [exact H1|]. split; [exact H2|]. split; [exact H3|].
  exact (proj2 (proj2 (expired_entry_stays_refused Examples.newerRelease
                         Scenarios.currentRelease (1000 + Scenarios.eightDays)
                         (2000 + Scenarios.eightDays) "vault" Scenarios.vaultCache
                         Scenarios.vault H1 H2 H3))).
Defined.

Lemma unreachable_registry_invalidates_nothing_witness :
  (forall pkg, Scenarios.registryDown pkg = None) /\
  Scenarios.vaultCache !! "vault" = Some Scenarios.vault /\
  2000 - lastChecked Scenarios.vault <= CACHE_DURATION /\
  getFromCache Scenarios.registryDown 2000 "vault" Scenarios.vaultCache =
    (Some Scenarios.vault, Scenarios.vaultCache).
Proof.
  assert (forall pkg, Scenarios.registryDown pkg = None) as H1 by reflexivity.
  assert (Scenarios.vaultCache !! "vault" = Some Scenarios.vault) as H2 by reflexivity.
  assert (2000 - lastChecked Scenarios.vault <= CACHE_DURATION) as H3
    by (unfold CACHE_DURATION; simpl; lia).
  split; [exact H1|]. split; [exact H2|]. split; [exact H3|].
  exact (proj2 (unreachable_registry_invalidates_nothing Scenarios.registryDown 2000 "vault"
                  Scenarios.vaultCache Scenarios.vault H1 H2 H3)).
Defined.

Lemma saved_entry_is_read_back_witness :
  partialMetadata Scenarios.vaultEntry = None /\
  2000 - 1000 <= CACHE_DURATION /\
  (forall pkg latestVersion,
      Scenarios.currentRelease pkg = Some latestVersion ->
      String.ltb "5.0.0" latestVersion = false) /\
  exists entry,
    getFromCache Scenarios.currentRelease 2000 "vault"
      (saveToCache Examples.allKeys 1000 "vault" Scenarios.vaultEntry ∅) =
      (Some entry, saveToCache Examples.allKeys 1000 "vault" Scenarios.vaultEntry ∅) /\
    code entry = "contract Vault {}" /\ timestamp entry = 1000 /\ status entry = valid.
Proof.
  assert (partialMetadata Scenarios.vaultEntry = None) as H1 by reflexivity.
  assert (2000 - 1000 <= CACHE_DURATION) as H2 by (unfold CACHE_DURATION; lia).
  assert (forall pkg latestVersion,
            Scenarios.currentRelease pkg = Some latestVersion ->
            String.ltb "5.0.0" latestVersion = false) as H3
    by (intros pkg latestVersion [= <-]; reflexivity).
  split; [exact H1|]. split; [exact H2|]. split; [exact H3|].
  destruct (saved_entry_is_read_back Examples.allKeys 1000 2000 "vault" Scenarios.vaultEntry
              ∅ Scenarios.currentRelease H1 H2 H3)
    as [(entry & Hget & Hcode & _ & Htime & _ & Hstatus & _) _].
  exists entry. auto.
Defined.

End CacheHelpers.

Section EndpointAndHelper.
Import JsString Http Server Notions Measures CacheWrite.

Variable typeError : string.
Variable getContractTemplate :
  string -> string -> string -> option Customizations -> option string.
Variable analyzeGasUsage : string -> list GasAnalysis.
Variable extractVulnerabilities : string -> list string.
Variable extractRecommendations : string -> list string.

Let generate :=
  Server.generate typeError getContractTemplate analyzeGasUsage extractVulnerabilities
    extractRecommendations.

(** X13.  The cache write that [POST /api/generate] spells out inline is
    the one of the helper [saveToCache] but for the time stamp.  After a
    freshly generated answer the cache is what [saveToCache] makes of
    the cache before, called at the clock read [checked] under the key
    of the request with the data of the answer, the template of the
    request as base fragment and the customizations of the request, and
    without metadata, once the time stamp of the entry is set to the
    later clock read [stored]; when the two reads give the same time
    the two writes are the same. *)
Theorem endpoint_write_is_saveToCache :
  forall (env : Env) (o : Oracle) (now checked stored : Z) (settles : Persona -> nat)
         (req : ContractRequest)
         (contractCache cache1 : gmap string CacheEntry) (data : GenerationData) (tr : Trace),
    generate env o now checked stored settles req contractCache =
      (Generated data None, cache1, tr) ->
    exists template,
      getContractTemplate (contractType req) (entityType req) (transactionType req)
        (customizations req) = Some template /\
      let saved :=
        saveToCache env checked (requestKey env req)
          {| partialCode := Some (dataCode data);
             partialTimestamp := None;
             partialAnalysis := Some (dataAnalysis data);
             partialSecurity := Some (dataVulnerabilities data, dataRecommendations data);
             partialGasAnalysis := Some (dataGasAnalysis data);
             partialFragments := Some (template, [], default [] (customizations req));
             partialMetadata := None;
             partialValidation := None |}
          contractCache in
      cache1 = alter (restamped stored) (requestKey env req) saved /\
      (checked = stored -> cache1 = saved).
Proof.
  intros env o now checked stored settles req contractCache cache1 data tr H.
  destruct (generate_cases typeError getContractTemplate analyzeGasUsage
              extractVulnerabilities extractRecommendations env o now checked stored settles
              req contractCache)
    as [(entry & _ & _ & E)|(_ & [(Hv & E)|(Hv & E)])];
    unfold generate in H; rewrite E in H; [discriminate | discriminate |].
  destruct (generateFresh_spelled typeError getContractTemplate analyzeGasUsage
              extractVulnerabilities extractRecommendations env o checked stored settles req
              (requestKey env req) contractCache)
    as (tr1 & tr2 & tr3 & a & s & _ & _ & _ & _ &
        [(entry & E' & Ht & Hl & Hs & Hi & Hd & Hc & _ & _ & Hg &
          (template & Htpl & Hb & Hf & Hcu & Hfw & _) & sec & _ & Hvul & Hrec)|
         (message & E' & _)]);
    destruct (Server.generateFresh _ _ _ _ _ _ _ _ _ _ _ _ _) as [[r c] tr'];
    cbn [fst] in E'; injection E' as -> ->; [|discriminate].
  injection H as <- <- _. exists template. split; [exact Htpl|]. cbv zeta.
  assert (forall t, t = timestamp entry ->
            <[requestKey env req := entry]> contractCache =
            alter (restamped t) (requestKey env req)
              (saveToCache env checked (requestKey env req)
                 {| partialCode := Some (code entry);
                    partialTimestamp := None;
                    partialAnalysis := Some (analysis entry);
                    partialSecurity := Some (vulnerabilities entry, recommendations entry);
                    partialGasAnalysis := Some (gasAnalysis entry);
                    partialFragments := Some (template, [], default [] (customizations req));
                    partialMetadata := None;
                    partialValidation := None |}
                 contractCache)) as Halter.
  { intros t ->. unfold saveToCache. cbn [default fst snd partialCode partialAnalysis
      partialSecurity partialGasAnalysis partialFragments partialMetadata].
    rewrite alter_insert_eq. f_equal.
    destruct entry. cbn in *. unfold restamped. cbn. subst. reflexivity. }
  cbn [dataCode dataAnalysis dataVulnerabilities dataRecommendations dataGasAnalysis].
  split; [apply Halter; congruence|].
  intros ->. unfold saveToCache. cbn [default fst snd partialCode partialAnalysis
    partialSecurity partialGasAnalysis partialFragments partialMetadata].
  f_equal. destruct entry. cbn in *. subst. reflexivity.
Qed.

(** X14.  The two reads of the cache draw the line of expiry at
    different places.  For an entry stored under the key of a request
    with equal [timestamp] and [lastChecked] (as [saveToCache] writes
    them, and the endpoint when its two clock reads agree) and
    dependencies that the registry does not report as outdated: whenever
    the endpoint serves the entry, [getFromCache] returns it;
    [getFromCache] returns it in exactly one more case, when the entry
    is precisely [CACHE_DURATION] old, and then the endpoint does not
    serve it but generates anew. *)
Theorem cache_reads_agree_up_to_the_boundary :
  forall (env : Env) (o : Oracle) (now checked stored : Z) (settles : Persona -> nat)
         (req : ContractRequest)
         (contractCache : gmap string CacheEntry) (entry : CacheEntry)
         (latest : string -> option string),
    contractCache !! requestKey env req = Some entry ->
    timestamp entry = lastChecked entry ->
    checkDependencyVersions latest (dependencies entry) = [] ->
    let served :=
      fromCache (fst (fst (generate env o now checked stored settles req contractCache))) =
        Some true in
    let returned :=
      fst (getFromCache latest now (requestKey env req) contractCache) = Some entry in
    (served <-> now - timestamp entry < CACHE_DURATION) /\
    (returned <-> now - timestamp entry <= CACHE_DURATION) /\
    (served -> returned) /\
    (returned -> served \/ now - timestamp entry = CACHE_DURATION).
Proof.
  intros env o now checked stored settles req contractCache entry latest He Ht Hd served
    returned.
  assert (served <-> now - timestamp entry < CACHE_DURATION) as Hs.
  { subst served. unfold generate.
    destruct (generate_cases typeError getContractTemplate analyzeGasUsage
                extractVulnerabilities extractRecommendations env o now checked stored
                settles req contractCache)
      as [(entry' & He' & Hlt & ->)|(Hold & Hmiss)].
    - rewrite He in He'. injection He' as <-. simpl. split; auto.
    - specialize (Hold _ He). split; [|lia]. intros Hserved. exfalso.
      destruct Hmiss as [(_ & E)|(_ & E)]; rewrite E in Hserved; [discriminate|].
      destruct (generateFresh_spelled typeError getContractTemplate analyzeGasUsage
                  extractVulnerabilities extractRecommendations env o checked stored settles
                  req (requestKey env req) contractCache)
        as (tr1 & tr2 & tr3 & a & s & _ & _ & _ & _ &
            [(entry' & E' & _)|(message & E' & _)]);
        rewrite E' in Hserved; discriminate. }
  assert (returned <-> now - timestamp entry <= CACHE_DURATION) as Hr.
  { subst returned. rewrite getFromCache_returns, Ht. split; [now intros (_ & H & _) | auto]. }
  split; [exact Hs|]. split; [exact Hr|]. rewrite Hs, Hr. split; lia.
Qed.

End EndpointAndHelper.

Section EndpointAndHelperWitness.
Import JsString Http Server Notions Measures CacheWrite.

Lemma endpoint_write_is_saveToCache_witness :
  Examples.generate Examples.allKeys Examples.helpful 0 1000 Examples.llpSupplyChain ∅ =
    (Generated Examples.firstData None, Examples.cacheAfterFirst, snd Examples.firstRun) /\
  Examples.cacheAfterFirst =
    saveToCache Examples.allKeys 1000 (requestKey Examples.allKeys Examples.llpSupplyChain)
      {| partialCode := Some Examples.supplyChainContract;
         partialTimestamp := None;
         partialAnalysis := Some Examples.supplyChainContract;
         partialSecurity := Some ([], []);
         partialGasAnalysis := Some [];
         partialFragments := Some ("contract Supply Chain", [], []);
         partialMetadata := None;
         partialValidation := None |}
      ∅.
Proof.
  assert (Examples.generate Examples.allKeys Examples.helpful 0 1000 Examples.llpSupplyChain ∅ =
    (Generated Examples.firstData None, Examples.cacheAfterFirst, snd Examples.firstRun)) as H1
    by (vm_compute; reflexivity).
  split; [exact H1|].
  destruct (endpoint_write_is_saveToCache Examples.typeError Examples.plainTemplate
              Examples.noGasAnalysis Examples.noFindings Examples.noFindings Examples.allKeys
              Examples.helpful 0 1000 1000 Examples.atOnce Examples.llpSupplyChain ∅
              Examples.cacheAfterFirst Examples.firstData (snd Examples.firstRun) H1)
    as (template & Htpl & _ & Hsame).
  injection Htpl as <-. exact (Hsame eq_refl).
Defined.

Lemma cache_reads_agree_up_to_the_boundary_witness :
  Scenarios.supplyCache !! requestKey Examples.allKeys Examples.llpSupplyChain =
    Some Scenarios.vault /\
  timestamp Scenarios.vault = lastChecked Scenarios.vault /\
  checkDependencyVersions Scenarios.currentRelease (dependencies Scenarios.vault) = [] /\
  fst (getFromCache Scenarios.currentRelease (1000 + CACHE_DURATION)
         (requestKey Examples.allKeys Examples.llpSupplyChain) Scenarios.supplyCache) =
    Some Scenarios.vault /\
  fromCache (fst (fst (Examples.generate Examples.allKeys Examples.helpful
                         (1000 + CACHE_DURATION) (1000 + CACHE_DURATION)
                         Examples.llpSupplyChain Scenarios.supplyCache))) <> Some true.
Proof.
  assert (Scenarios.supplyCache !! requestKey Examples.allKeys Examples.llpSupplyChain =
          Some Scenarios.vault) as H1 by reflexivity.
  assert (timestamp Scenarios.vault = lastChecked Scenarios.vault) as H2 by reflexivity.
  assert (checkDependencyVersions Scenarios.currentRelease (dependencies Scenarios.vault) = [])
    as H3 by reflexivity.
  split; [exact H1|]. split; [exact H2|]. split; [exact H3|].
  destruct (cache_reads_agree_up_to_the_boundary Examples.typeError Examples.plainTemplate
              Examples.noGasAnalysis
              Examples.noFindings Examples.noFindings Examples.allKeys Examples.helpful
              (1000 + CACHE_DURATION) (1000 + CACHE_DURATION) (1000 + CACHE_DURATION)
              Examples.atOnce Examples.llpSupplyChain
              Scenarios.supplyCache Scenarios.vault Scenarios.currentRelease H1 H2 H3)
    as (Hs & Hr & _).
  split.
  - apply Hr. simpl. lia.
  - intros Hserved. apply Hs in Hserved. simpl in Hserved. lia.
Defined.

End EndpointAndHelperWitness.
(** ** The extractors of findings *)

Section ReportFacts.
Import JsString JsText TextNotions.
Local Arguments String.append : simpl nomatch.
Local Arguments Ascii.eqb : simpl never.
Local Arguments isSpace : simpl never.

(** *** [trim] *)

Lemma trimStart_head s c t : trimStart s = String c t -> isSpace c = false.
Proof.
  induction s as [|d s IH]; simpl; [discriminate|].
  destruct (isSpace d) eqn:E; [exact IH|]. now intros [= <- _].
Qed.

Lemma trimStart_fixed c t : isSpace c = false -> trimStart (String c t) = String c t.
Proof. intros H. simpl. now rewrite H. Qed.

Lemma trimEnd_cons c s : isSpace c = false -> trimEnd (String c s) = String c (trimEnd s).
Proof. intros H. simpl. destruct (trimEnd s); [now rewrite H | reflexivity]. Qed.

Lemma trimEnd_idempotent s : trimEnd (trimEnd s) = trimEnd s.
Proof.
  induction s as [|c s IH]; [reflexivity|]. simpl.
  destruct (trimEnd s) as [|d t] eqn:E.
  - destruct (isSpace c) eqn:Hc; [reflexivity|]. simpl. now rewrite Hc.
  - simpl. simpl in IH. now rewrite IH.
Qed.

Lemma trim_idempotent s : trim (trim s) = trim s.
Proof.
  unfold trim. destruct (trimStart s) as [|c t] eqn:E; [reflexivity|].
  apply trimStart_head in E. rewrite (trimEnd_cons _ _ E), (trimStart_fixed _ _ E).
  now rewrite <- (trimEnd_cons _ _ E), trimEnd_idempotent.
Qed.

Lemma trimEnd_blank s : trimEnd s = EmptyString -> blank s = true.
Proof.
  induction s as [|c s IH]; [reflexivity|]. simpl.
  destruct (trimEnd s); [|discriminate].
  destruct (isSpace c); [intros _; now apply IH | discriminate].
Qed.

Lemma trim_blank s : trim s = EmptyString -> blank s = true.
Proof.
  unfold trim. intros H. apply trimEnd_blank in H.
  induction s as [|c s IH]; [reflexivity|]. simpl in *.
  destruct (isSpace c) eqn:E; [now apply IH|].
  simpl in H. now rewrite E in H.
Qed.

Lemma isSpace_lowerChar c : isSpace c = true -> lowerChar c = c.
Proof.
  unfold isSpace, lowerChar. cbv zeta.
  destruct (Nat.leb_spec 65 (nat_of_ascii c)); [|reflexivity].
  destruct (Nat.leb_spec 9 (nat_of_ascii c)), (Nat.leb_spec (nat_of_ascii c) 13),
    (Nat.eqb_spec (nat_of_ascii c) 32); simpl; intros; try discriminate; lia.
Qed.

(** A word that starts with something other than white space does not
    occur in a blank line. *)
Lemma blank_mentions line a word :
  isSpace a = false -> blank line = true -> mentions line (String a word) = false.
Proof.
  intros Ha. unfold mentions. induction line as [|c line IH]; [reflexivity|].
  simpl. intros [Hc Hb]%andb_true_iff. rewrite (IH Hb), orb_false_r.
  rewrite (isSpace_lowerChar _ Hc).
  destruct (Ascii.eqb_spec a c) as [->|_]; [congruence | reflexivity].
Qed.

Lemma mentions_trim line a word :
  isSpace a = false -> mentions line (String a word) = true -> trim line <> EmptyString.
Proof.
  intros Ha Hm Ht. apply trim_blank in Ht.
  now rewrite (blank_mentions _ _ _ Ha Ht) in Hm.
Qed.

Lemma nonEmpty_spec s : nonEmpty s = true <-> s <> EmptyString.
Proof.
  unfold nonEmpty. destruct (String.eqb_spec s EmptyString) as [->|H]; simpl; split;
    congruence.
Qed.

Lemma length_positive s : (0 <? String.length s)%nat = nonEmpty s.
Proof. now destruct s. Qed.

(** *** [split] and [join] *)

Lemma split_oneLine s : oneLine s = true -> split s = [s].
Proof.
  induction s as [|c s IH]; [reflexivity|]. simpl.
  intros [Hc Hs]%andb_true_iff. apply negb_true_iff in Hc. now rewrite Hc, (IH Hs).
Qed.

Lemma split_line s rest :
  oneLine s = true -> split (s +:+ String lf rest) = s :: split rest.
Proof.
  induction s as [|c s IH]; [reflexivity|]. simpl.
  intros [Hc Hs]%andb_true_iff. apply negb_true_iff in Hc. now rewrite Hc, (IH Hs).
Qed.

Lemma split_join lines :
  lines <> [] -> forallb oneLine lines = true -> split (join newline lines) = lines.
Proof.
  induction lines as [|x [|y rest] IH]; [congruence | |].
  - simpl. intros _ [H _]%andb_true_iff. now apply split_oneLine.
  - intros _ H. change (forallb oneLine (x :: y :: rest))
      with (oneLine x && forallb oneLine (y :: rest)) in H.
    apply andb_true_iff in H as [Hx Hrest].
    change (join newline (x :: y :: rest)) with (x +:+ String lf (join newline (y :: rest))).
    rewrite (split_line _ _ Hx), IH; [reflexivity | discriminate | exact Hrest].
Qed.

End ReportFacts.

Section SectionScanFacts.
Import JsString JsText TextNotions SectionScan.

(** What the loop of [extractVulnerabilities] pushes: lines of the rest
    of the text, and only once the section has been entered. *)
Lemma vulnerabilitiesFrom_sound inSection lines v :
  In v (vulnerabilitiesFrom inSection lines) ->
  exists before line after,
    lines = before ++ line :: after /\ v = trim line /\ v <> EmptyString /\
    noHeader line = true /\
    (inSection = true \/ exists header, In header before /\
                                        mentions header "vulnerabilities:" = true).
Proof.
  revert inSection. induction lines as [|l rest IH]; intros inSection; [intros []|].
  simpl. destruct (mentions l "vulnerabilities:") eqn:Hv.
  - intros (before & line & after & -> & Hrest)%IH.
    exists (l :: before), line, after. split; [reflexivity|].
    destruct Hrest as (? & ? & ? & _). repeat split; auto.
    right. exists l. split; [now left | exact Hv].
  - destruct (mentions l "recommendations:") eqn:Hr.
    + rewrite !andb_false_r. simpl. destruct inSection; simpl; [intros []|].
      intros (before & line & after & -> & Ht & Hne & Hh & [Hs|(header & Hin & Hm)])%IH;
        [discriminate|].
      exists (l :: before), line, after. repeat split; auto.
      right. exists header. split; [now right | exact Hm].
    + rewrite !andb_true_r, !andb_false_r. intros Hin%in_app_or.
      destruct Hin as [Hin|Hin].
      * destruct (inSection && nonEmpty (trim l)) eqn:E; [|destruct Hin].
        destruct Hin as [<-|[]]. apply andb_true_iff in E as [-> Hne%nonEmpty_spec].
        exists [], l, rest. unfold noHeader. rewrite Hv, Hr. repeat split; auto.
      * apply IH in Hin as (before & line & after & -> & Ht & Hne & Hh & Hs).
        exists (l :: before), line, after. repeat split; auto.
        destruct Hs as [Hs|(header & Hin & Hm)]; [now left|].
        right. exists header. split; [now right | exact Hm].
Qed.

Lemma recommendationsFrom_sound inSection lines v :
  In v (recommendationsFrom inSection lines) ->
  exists before line after,
    lines = before ++ line :: after /\ v = trim line /\ v <> EmptyString /\
    mentions line "recommendations:" = false /\
    (inSection = true \/ exists header, In header before /\
                                        mentions header "recommendations:" = true).
Proof.
  revert inSection. induction lines as [|l rest IH]; intros inSection; [intros []|].
  simpl. destruct (mentions l "recommendations:") eqn:Hr.
  - intros (before & line & after & -> & Hrest)%IH.
    exists (l :: before), line, after. split; [reflexivity|].
    destruct Hrest as (? & ? & ? & _). repeat split; auto.
    right. exists l. split; [now left | exact Hr].
  - intros Hin%in_app_or. destruct Hin as [Hin|Hin].
    + destruct (inSection && nonEmpty (trim l)) eqn:E; [|destruct Hin].
      destruct Hin as [<-|[]]. apply andb_true_iff in E as [-> Hne%nonEmpty_spec].
      exists [], l, rest. repeat split; auto.
    + apply IH in Hin as (before & line & after & -> & Ht & Hne & Hh & Hs).
      exists (l :: before), line, after. repeat split; auto.
      destruct Hs as [Hs|(header & Hin & Hm)]; [now left|].
      right. exists header. split; [now right | exact Hm].
Qed.

(** X15.  Every vulnerability that [extractVulnerabilities] of the main
    server reports is a line of the analysis, trimmed and not empty,
    that mentions neither section header and stands after a line that
    mentions [vulnerabilities:] (in any capitalisation).  An analysis
    without such a header line yields no vulnerability at all. *)
Theorem vulnerabilities_are_lines_of_the_section :
  forall (securityAnalysis : string),
    (forall v, In v (extractVulnerabilities securityAnalysis) ->
       v <> EmptyString /\ trim v = v /\
       exists before line after header,
         split securityAnalysis = before ++ line :: after /\ v = trim line /\
         mentions line "vulnerabilities:" = false /\
         mentions line "recommendations:" = false /\
         In header before /\ mentions header "vulnerabilities:" = true) /\
    ((forall line, In line (split securityAnalysis) ->
        mentions line "vulnerabilities:" = false) ->
     extractVulnerabilities securityAnalysis = []).
Proof.
  intros securityAnalysis.
  assert (forall v, In v (extractVulnerabilities securityAnalysis) ->
            v <> EmptyString /\ trim v = v /\
            exists before line after header,
              split securityAnalysis = before ++ line :: after /\ v = trim line /\
              mentions line "vulnerabilities:" = false /\
              mentions line "recommendations:" = false /\
              In header before /\ mentions header "vulnerabilities:" = true) as Hsound.
  { intros v (before & line & after & E & -> & Hne & Hh & [Hs|(header & Hin & Hm)])
             %vulnerabilitiesFrom_sound; [discriminate|].
    split; [exact Hne|]. split; [apply trim_idempotent|].
    unfold noHeader in Hh. apply andb_true_iff in Hh as [Hv%negb_true_iff Hr%negb_true_iff].
    exists before, line, after, header. auto 8. }
  split; [exact Hsound|]. intros Hnone.
  destruct (extractVulnerabilities securityAnalysis) as [|v vs] eqn:E; [reflexivity|].
  destruct (Hsound v (or_introl eq_refl))
    as (_ & _ & before & line & after & header & Hs & _ & _ & _ & Hin & Hm).
  rewrite Hnone in Hm; [discriminate|]. rewrite Hs. apply in_or_app. now left.
Qed.

(** X16.  Every recommendation that [extractRecommendations] of the main
    server reports is a line of the analysis, trimmed and not empty,
    that does not mention [recommendations:] and stands after a line
    that does.  An analysis without such a header line yields no
    recommendation. *)
Theorem recommendations_are_lines_of_the_section :
  forall (securityAnalysis : string),
    (forall v, In v (extractRecommendations securityAnalysis) ->
       v <> EmptyString /\ trim v = v /\
       exists before line after header,
         split securityAnalysis = before ++ line :: after /\ v = trim line /\
         mentions line "recommendations:" = false /\
         In header before /\ mentions header "recommendations:" = true) /\
    ((forall line, In line (split securityAnalysis) ->
        mentions line "recommendations:" = false) ->
     extractRecommendations securityAnalysis = []).
Proof.
  intros securityAnalysis.
  assert (forall v, In v (extractRecommendations securityAnalysis) ->
            v <> EmptyString /\ trim v = v /\
            exists before line after header,
              split securityAnalysis = before ++ line :: after /\ v = trim line /\
              mentions line "recommendations:" = false /\
              In header before /\ mentions header "recommendations:" = true) as Hsound.
  { intros v (before & line & after & E & -> & Hne & Hh & [Hs|(header & Hin & Hm)])
             %recommendationsFrom_sound; [discriminate|].
    split; [exact Hne|]. split; [apply trim_idempotent|].
    exists before, line, after, header. auto 8. }
  split; [exact Hsound|]. intros Hnone.
  destruct (extractRecommendations securityAnalysis) as [|v vs] eqn:E; [reflexivity|].
  destruct (Hsound v (or_introl eq_refl))
    as (_ & _ & before & line & after & header & Hs & _ & _ & Hin & Hm).
  rewrite Hnone in Hm; [discriminate|]. rewrite Hs. apply in_or_app. now left.
Qed.

(** *** Reading back a report in two sections *)

Lemma trimmed_spec line : trimmed line = true -> trim line = line /\ nonEmpty (trim line) = true.
Proof.
  unfold trimmed. intros [Ht Hn]%andb_true_iff. apply String.eqb_eq in Ht.
  now rewrite Ht.
Qed.

Lemma noHeader_spec line :
  noHeader line = true ->
  mentions line "vulnerabilities:" = false /\ mentions line "recommendations:" = false.
Proof. unfold noHeader. now intros [?%negb_true_iff ?%negb_true_iff]%andb_true_iff. Qed.

Lemma vulnerabilitiesFrom_preamble preamble rest :
  forallb noHeader preamble = true ->
  vulnerabilitiesFrom false (preamble ++ rest) = vulnerabilitiesFrom false rest.
Proof.
  induction preamble as [|l preamble IH]; [reflexivity|]. simpl.
  intros [[Hv Hr]%noHeader_spec Hrest]%andb_true_iff. rewrite Hv. now apply IH.
Qed.

Lemma vulnerabilitiesFrom_section findings header2 rest :
  forallb trimmed findings = true -> forallb noHeader findings = true ->
  mentions header2 "vulnerabilities:" = false ->
  mentions header2 "recommendations:" = true ->
  vulnerabilitiesFrom true (findings ++ header2 :: rest) = findings.
Proof.
  intros Ht Hh Hv2 Hr2. induction findings as [|l findings IH].
  - simpl. rewrite Hv2, Hr2. simpl. now rewrite andb_false_r.
  - simpl in Ht, Hh. apply andb_true_iff in Ht as [[Hl Hn]%trimmed_spec Ht].
    apply andb_true_iff in Hh as [[Hv Hr]%noHeader_spec Hh].
    simpl. rewrite Hv, Hr, Hn, Hl. simpl. now rewrite (IH Ht Hh).
Qed.

Lemma recommendationsFrom_before lines rest :
  forallb (fun line => negb (mentions line "recommendations:")) lines = true ->
  recommendationsFrom false (lines ++ rest) = recommendationsFrom false rest.
Proof.
  induction lines as [|l lines IH]; [reflexivity|]. simpl.
  intros [Hr%negb_true_iff Hrest]%andb_true_iff. rewrite Hr. now apply IH.
Qed.

Lemma recommendationsFrom_section findings :
  forallb trimmed findings = true ->
  forallb (fun line => negb (mentions line "recommendations:")) findings = true ->
  recommendationsFrom true findings = findings.
Proof.
  induction findings as [|l findings IH]; [reflexivity|]. simpl.
  intros [[Hl Hn]%trimmed_spec Ht]%andb_true_iff [Hr%negb_true_iff Hh]%andb_true_iff.
  rewrite Hr, Hn, Hl. simpl. now rewrite (IH Ht Hh).
Qed.

(** X17.  A report in two sections is read back in full by the two
    extractors of the main server.  Take lines without a line feed: some
    lines that mention no header, a line that mentions [vulnerabilities:]
    and not [recommendations:], the vulnerabilities, a line that mentions
    [recommendations:] and not [vulnerabilities:], and the
    recommendations, every vulnerability and recommendation being
    trimmed, not empty and free of [recommendations:], the
    vulnerabilities also free of [vulnerabilities:].  From the text of
    these lines joined by line feeds [extractVulnerabilities] yields
    exactly the vulnerabilities and [extractRecommendations] exactly the
    recommendations, each in the order of the report. *)
Theorem sectioned_report_is_read_back :
  forall (preamble : list string) (header1 : string) (vulnerabilities : list string)
         (header2 : string) (recommendations : list string),
    forallb oneLine (preamble ++ header1 :: vulnerabilities ++ header2 :: recommendations)
      = true ->
    forallb noHeader preamble = true ->
    mentions header1 "vulnerabilities:" = true ->
    mentions header1 "recommendations:" = false ->
    forallb trimmed vulnerabilities = true ->
    forallb noHeader vulnerabilities = true ->
    mentions header2 "recommendations:" = true ->
    mentions header2 "vulnerabilities:" = false ->
    forallb trimmed recommendations = true ->
    forallb (fun line => negb (mentions line "recommendations:")) recommendations = true ->
    let report := sectioned preamble header1 vulnerabilities header2 recommendations in
    extractVulnerabilities report = vulnerabilities /\
    extractRecommendations report = recommendations.
Proof.
  intros preamble header1 vulnerabilities header2 recommendations
         Hlines Hpre Hv1 Hr1 Htv Hhv Hr2 Hv2 Htr Hhr report.
  subst report. unfold extractVulnerabilities, extractRecommendations, sectioned.
  rewrite split_join; [| now destruct preamble | exact Hlines]. split.
  - rewrite (vulnerabilitiesFrom_preamble _ _ Hpre). simpl. rewrite Hv1.
    now apply vulnerabilitiesFrom_section.
  - rewrite recommendationsFrom_before.
    + simpl. rewrite Hr1. simpl.
      rewrite recommendationsFrom_before.
      * simpl. rewrite Hr2. now apply recommendationsFrom_section.
      * rewrite forallb_forall in Hhv |- *. intros l Hl.
        now destruct (noHeader_spec _ (Hhv l Hl)) as [_ ->].
    + rewrite forallb_forall in Hpre |- *. intros l Hl.
      now destruct (noHeader_spec _ (Hpre l Hl)) as [_ ->].
Qed.

Lemma sectioned_report_is_read_back_witness :
  let report :=
    sectioned Scenarios.reviewPreamble "VULNERABILITIES:" Scenarios.reviewVulnerabilities
      "Recommendations:" Scenarios.reviewRecommendations in
  extractVulnerabilities report = Scenarios.reviewVulnerabilities /\
  extractRecommendations report = Scenarios.reviewRecommendations.
Proof.
  apply (sectioned_report_is_read_back Scenarios.reviewPreamble "VULNERABILITIES:"
           Scenarios.reviewVulnerabilities "Recommendations:"
           Scenarios.reviewRecommendations); reflexivity.
Defined.

End SectionScanFacts.

Section KeywordScanFacts.
Import JsString JsText TextNotions KeywordScan.

Lemma keyword_line_survives (keyword : string -> bool) lines :
  (forall line, keyword line = true -> trim line <> EmptyString) ->
  List.filter (fun line => (0 <? String.length line)%nat)
    (map trim (List.filter keyword lines)) =
  map trim (List.filter keyword lines).
Proof.
  intros H. induction lines as [|l lines IH]; [reflexivity|]. simpl.
  destruct (keyword l) eqn:E; [|exact IH]. simpl.
  rewrite length_positive, (proj2 (nonEmpty_spec _) (H _ E)). now rewrite IH.
Qed.

Lemma vulnerabilityLine_trim line : vulnerabilityLine line = true -> trim line <> EmptyString.
Proof.
  unfold vulnerabilityLine.
  intros [[[H|H]%orb_true_iff|H]%orb_true_iff|H]%orb_true_iff;
    revert H; now apply mentions_trim.
Qed.

Lemma recommendationLine_trim line : recommendationLine line = true -> trim line <> EmptyString.
Proof.
  unfold recommendationLine.
  intros [[[H|H]%orb_true_iff|H]%orb_true_iff|H]%orb_true_iff;
    revert H; now apply mentions_trim.
Qed.

(** X18.  The extractors of [aiService.ts] report exactly the lines of
    the analysis that mention one of their keywords (in any
    capitalisation), trimmed and in the order of the text: a
    vulnerability for [vulnerability], [risk], [issue] or [weakness], a
    recommendation for [recommend], [suggest], [should] or
    [best practice].  No reported line is empty, and the closing filter
    on the length removes nothing, since a line that mentions a keyword
    is not blank. *)
Theorem keyword_lines_are_reported :
  forall (securityAnalysis : string),
    extractVulnerabilities securityAnalysis =
      map trim (List.filter vulnerabilityLine (split securityAnalysis)) /\
    extractRecommendations securityAnalysis =
      map trim (List.filter recommendationLine (split securityAnalysis)) /\
    (forall v, In v (extractVulnerabilities securityAnalysis) <->
       exists line, In line (split securityAnalysis) /\ vulnerabilityLine line = true /\
                    v = trim line) /\
    (forall r, In r (extractRecommendations securityAnalysis) <->
       exists line, In line (split securityAnalysis) /\ recommendationLine line = true /\
                    r = trim line) /\
    (forall x, In x (extractVulnerabilities securityAnalysis) \/
               In x (extractRecommendations securityAnalysis) ->
       x <> EmptyString /\ trim x = x).
Proof.
  intros securityAnalysis. unfold extractVulnerabilities, extractRecommendations.
  rewrite (keyword_line_survives _ _ vulnerabilityLine_trim),
          (keyword_line_survives _ _ recommendationLine_trim).
  assert (forall (keyword : string -> bool) x,
            In x (map trim (List.filter keyword (split securityAnalysis))) <->
            exists line, In line (split securityAnalysis) /\ keyword line = true /\
                         x = trim line) as Hin.
  { intros keyword x. rewrite in_map_iff. split.
    - intros (line & <- & [Hl Hk]%filter_In). eauto.
    - intros (line & Hl & Hk & ->). exists line. split; [reflexivity|].
      apply filter_In. auto. }
  split; [reflexivity|]. split; [reflexivity|]. split; [apply Hin|]. split; [apply Hin|].
  intros x [(line & _ & Hk & ->)%Hin|(line & _ & Hk & ->)%Hin];
    (split; [|apply trim_idempotent]).
  - now apply vulnerabilityLine_trim.
  - now apply recommendationLine_trim.
Qed.

End KeywordScanFacts.
(** ** [extractContractCode] *)

Section ExtractFacts.
Import JsString JsText TextNotions AiService.
Local Arguments String.append : simpl nomatch.
Local Arguments Ascii.eqb : simpl never.
Local Arguments isSpace : simpl never.

(** *** Parts of a text *)

Lemma partOf_trans a b c : partOf a b -> partOf b c -> partOf a c.
Proof.
  intros (x & y & ->) (u & v & ->). exists (u +:+ x), (y +:+ v).
  now rewrite !append_assoc.
Qed.

Lemma partOf_suffix a s : partOf s (a +:+ s).
Proof. exists a, EmptyString. now rewrite append_nil_r. Qed.

Lemma partOf_includes m s : partOf m s -> includes s m = true.
Proof.
  intros (a & b & ->). apply includes_append_r, includes_append_l.
  destruct m; simpl; [reflexivity|]. now rewrite Ascii.eqb_refl, startsWith_refl.
Qed.

Lemma trimStart_suffix s : exists a, s = a +:+ trimStart s.
Proof.
  induction s as [|c s [a IH]]; [now exists EmptyString|]. simpl.
  destruct (isSpace c); [|now exists EmptyString].
  exists (String c a). simpl. now rewrite <- IH.
Qed.

Lemma trimEnd_prefix s : exists b, s = trimEnd s +:+ b.
Proof.
  induction s as [|c s [b IH]]; [now exists EmptyString|]. simpl.
  destruct (trimEnd s) as [|d t].
  - destruct (isSpace c).
    + now exists (String c s).
    + exists b. simpl. f_equal. exact IH.
  - exists b. simpl. f_equal. exact IH.
Qed.

Lemma trim_partOf s : partOf (trim s) s.
Proof.
  unfold trim. destruct (trimStart_suffix s) as [a Ha].
  destruct (trimEnd_prefix (trimStart s)) as [b Hb].
  exists a, b. now rewrite <- Hb.
Qed.

Lemma substring_all s k : (String.length s <= k)%nat -> String.substring 0 k s = s.
Proof.
  revert k. induction s as [|c s IH]; intros [|k] H; simpl in *; try reflexivity; [lia|].
  rewrite IH; [reflexivity | lia].
Qed.

Lemma substring_suffix s n k :
  (String.length s <= k)%nat -> exists a, s = a +:+ String.substring n k s.
Proof.
  revert n. induction s as [|c s IH]; intros n H.
  - exists EmptyString. now destruct n, k.
  - destruct n as [|n].
    + exists EmptyString. now rewrite substring_all.
    + simpl in *. destruct (IH n) as [a Ha]; [lia|].
      exists (String c a). simpl. now rewrite <- Ha.
Qed.

Lemma substring_append m rest k :
  (String.length rest <= k)%nat ->
  String.substring (String.length m) k (m +:+ rest) = rest.
Proof.
  intros H. induction m as [|c m IH]; simpl; [now apply substring_all | exact IH].
Qed.

Lemma drop_append m rest : drop (String.length m) (m +:+ rest) = rest.
Proof. unfold drop. apply substring_append. rewrite length_append. lia. Qed.

Lemma drop_suffix n s : exists a, s = a +:+ drop n s.
Proof. now apply substring_suffix. Qed.

Lemma startsWith_split m s : startsWith m s = true -> exists t, s = m +:+ t.
Proof.
  revert s. induction m as [|a m IH]; intros [|b s]; simpl; try discriminate; eauto.
  intros [->%Ascii.eqb_eq [t ->]%IH]%andb_true_iff. now exists t.
Qed.

Lemma startsWith_drop m s :
  startsWith m s = true -> m +:+ String.substring (String.length m) (String.length s) s = s.
Proof.
  intros [t ->]%startsWith_split. f_equal. apply substring_append.
  rewrite length_append. lia.
Qed.

Lemma splitAt_sound m s pre post :
  splitAt m s = Some (pre, post) -> s = pre +:+ m +:+ post.
Proof.
  revert pre. induction s as [|c s IH]; intros pre.
  - simpl. destruct (startsWith m EmptyString) eqn:E; [|discriminate].
    destruct m; [|discriminate]. now intros [= <- <-].
  - cbn [splitAt]. destruct (startsWith m (String c s)) eqn:E.
    + intros [= <- <-]. symmetry. exact (startsWith_drop _ _ E).
    + destruct (splitAt m s) as [[pre' post']|]; [|discriminate].
      intros [= <- <-]. simpl. now rewrite <- (IH pre' eq_refl).
Qed.

Lemma matchHeader_suffix s found : matchHeader s = Some found -> exists a, s = a +:+ found.
Proof.
  induction s as [|c s IH]; cbn [matchHeader].
  - destruct (_ || _); [|discriminate]. intros [= <-]. now exists EmptyString.
  - destruct (_ || _); [intros [= <-]; now exists EmptyString|].
    intros [a ->]%IH. now exists (String c a).
Qed.

Lemma matchCodeBlock_partOf content body :
  matchCodeBlock content = Some body -> partOf body content.
Proof.
  unfold matchCodeBlock.
  destruct (splitAt fence content) as [[pre rest]|] eqn:E1; [|discriminate].
  apply splitAt_sound in E1.
  set (rest' := if startsWith "solidity" rest then drop 8 rest else rest).
  assert (exists a, rest = a +:+ rest') as [a Ha].
  { subst rest'. destruct (startsWith "solidity" rest); [apply drop_suffix|].
    now exists EmptyString. }
  destruct (trimStart_suffix rest') as [a' Ha'].
  destruct (splitAt fence (trimStart rest')) as [[body' post]|] eqn:E2; [|discriminate].
  apply splitAt_sound in E2. intros [= <-].
  exists (pre +:+ fence +:+ a +:+ a'), (fence +:+ post).
  rewrite E1, Ha, Ha' at 1. rewrite E2. now rewrite !append_assoc.
Qed.

(** X19.  The code that [extractContractCode] returns is a contiguous
    part of the answer it is given (nothing is added or rearranged) and
    is trimmed: it neither starts nor ends with white space. *)
Theorem extracted_code_is_a_trimmed_part :
  forall (content : string),
    partOf (extractContractCode content) content /\
    includes content (extractContractCode content) = true /\
    trim (extractContractCode content) = extractContractCode content.
Proof.
  intros content.
  assert (partOf (extractContractCode content) content /\
          trim (extractContractCode content) = extractContractCode content) as [Hp Ht].
  { unfold extractContractCode.
    destruct (matchCodeBlock content) as [[|c body]|] eqn:E1.
    - destruct (matchHeader content) as [found|] eqn:E2.
      + split; [|apply trim_idempotent].
        destruct (matchHeader_suffix _ _ E2) as [a ->].
        eapply partOf_trans; [apply trim_partOf | apply partOf_suffix].
      + split; [apply trim_partOf | apply trim_idempotent].
    - split; [|apply trim_idempotent].
      eapply partOf_trans; [apply trim_partOf | now apply matchCodeBlock_partOf].
    - destruct (matchHeader content) as [found|] eqn:E2.
      + split; [|apply trim_idempotent].
        destruct (matchHeader_suffix _ _ E2) as [a ->].
        eapply partOf_trans; [apply trim_partOf | apply partOf_suffix].
      + split; [apply trim_partOf | apply trim_idempotent]. }
  split; [exact Hp|]. split; [now apply partOf_includes | exact Ht].
Qed.

(** *** A fenced block *)

Lemma no_backtick_cons c s :
  includes (String c s) backtick = false ->
  Ascii.eqb "`" c = false /\ includes s backtick = false.
Proof.
  simpl. intros [H1 H2]%orb_false_iff. split; [|exact H2].
  destruct (Ascii.eqb "`" c); [|reflexivity]. simpl in H1.
  now destruct s.
Qed.

Lemma splitAt_fence x rest :
  includes x backtick = false -> splitAt fence (x +:+ fence +:+ rest) = Some (x, rest).
Proof.
  induction x as [|c x IH].
  - intros _. change (EmptyString +:+ fence +:+ rest) with (fence +:+ rest).
    assert (startsWith fence (fence +:+ rest) = true) as Hs
      by (apply startsWith_append, startsWith_refl).
    destruct (fence +:+ rest) as [|d s] eqn:E; [discriminate|].
    cbn [splitAt]. rewrite Hs, <- E.
    change (String.substring (String.length fence) (String.length (fence +:+ rest))
              (fence +:+ rest)) with (drop (String.length fence) (fence +:+ rest)).
    now rewrite drop_append.
  - intros [Hc Hx]%no_backtick_cons.
    change (String c x +:+ fence +:+ rest) with (String c (x +:+ fence +:+ rest)).
    cbn [splitAt]. rewrite (IH Hx).
    unfold fence at 1. cbn [startsWith]. now rewrite Hc.
Qed.

Lemma trimStart_blank gap s : blank gap = true -> trimStart (gap +:+ s) = trimStart s.
Proof.
  induction gap as [|c gap IH]; [reflexivity|]. simpl.
  intros [-> H]%andb_true_iff. now apply IH.
Qed.

Lemma trimStart_append s t :
  blank s = false -> trimStart (s +:+ t) = trimStart s +:+ t.
Proof.
  induction s as [|c s IH]; [discriminate|]. simpl.
  destruct (isSpace c); [exact IH | reflexivity].
Qed.

Lemma trimStart_not_blank s : blank s = false -> trimStart s <> EmptyString.
Proof.
  induction s as [|c s IH]; [discriminate|]. simpl.
  destruct (isSpace c); [exact IH | discriminate].
Qed.

Lemma trimStart_idempotent s : trimStart (trimStart s) = trimStart s.
Proof.
  destruct (trimStart s) as [|c t] eqn:E; [reflexivity|].
  apply trimStart_head in E. now apply trimStart_fixed.
Qed.

Lemma trimStart_no_backtick s :
  includes s backtick = false -> includes (trimStart s) backtick = false.
Proof.
  induction s as [|c s IH]; [reflexivity|]. intros H.
  simpl trimStart. destruct (isSpace c); [|exact H].
  apply IH. now apply no_backtick_cons in H.
Qed.

(** X20.  A contract in a fenced block is extracted whole.  When the
    answer is some prose, the opening fence, the language tag
    [solidity] or no tag, white space (not empty when there is no tag),
    a code that is not blank, the closing fence and anything after it,
    and neither the prose nor the code holds a backquote, then
    [extractContractCode] returns the code, trimmed. *)
Theorem fenced_code_is_extracted :
  forall (prose tag gap code rest : string),
    includes prose backtick = false ->
    tag = "solidity" \/ (tag = EmptyString /\ gap <> EmptyString) ->
    blank gap = true ->
    includes code backtick = false ->
    blank code = false ->
    extractContractCode (prose +:+ fence +:+ tag +:+ gap +:+ code +:+ fence +:+ rest) =
      trim code.
Proof.
  intros prose tag gap code rest Hprose Htag Hgap Hcode Hblank.
  unfold extractContractCode, matchCodeBlock.
  rewrite (splitAt_fence _ _ Hprose).
  assert ((if startsWith "solidity" (tag +:+ gap +:+ code +:+ fence +:+ rest)
           then drop 8 (tag +:+ gap +:+ code +:+ fence +:+ rest)
           else tag +:+ gap +:+ code +:+ fence +:+ rest) =
          gap +:+ code +:+ fence +:+ rest) as ->.
  { destruct Htag as [->|[-> Hne]].
    - rewrite (startsWith_append _ _ _ (startsWith_refl "solidity")).
      exact (drop_append "solidity" _).
    - change (EmptyString +:+ gap +:+ code +:+ fence +:+ rest)
        with (gap +:+ code +:+ fence +:+ rest).
      destruct gap as [|g gap]; [congruence|].
      simpl in Hgap. apply andb_true_iff in Hgap as [Hg _].
      assert (startsWith "solidity" (String g gap +:+ code +:+ fence +:+ rest) = false)
        as ->; [|reflexivity].
      change (String g gap +:+ code +:+ fence +:+ rest)
        with (String g (gap +:+ code +:+ fence +:+ rest)).
      cbn [startsWith].
      destruct (Ascii.eqb_spec "s" g) as [<-|_]; [discriminate Hg | reflexivity]. }
  rewrite (trimStart_blank _ _ Hgap), (trimStart_append _ _ Hblank).
  rewrite (splitAt_fence _ _ (trimStart_no_backtick _ Hcode)).
  pose proof (trimStart_not_blank _ Hblank) as Hne.
  destruct (trimStart code) as [|c body] eqn:E; [congruence|].
  rewrite <- E. unfold trim. now rewrite trimStart_idempotent.
Qed.

Lemma fenced_code_is_extracted_witness :
  extractContractCode
    (Scenarios.fencedProse +:+ fence +:+ "solidity" +:+ newline +:+ Scenarios.fencedCode +:+
     fence +:+ newline +:+ "It compiles with version 0.8.20.") =
    trim Scenarios.fencedCode.
Proof.
  apply (fenced_code_is_extracted Scenarios.fencedProse "solidity" newline
           Scenarios.fencedCode (newline +:+ "It compiles with version 0.8.20."));
    solve [reflexivity | now left].
Defined.

End ExtractFacts.
(** ** The fallback contract and the provider chain of [generateCustomContract] *)

Section FallbackShape.
Import JsString Http Server Notions Measures AiService.
Local Arguments String.append : simpl nomatch.

(** Finds the literal of a template that holds the text looked for, and
    a literal longer than 500 characters at its end. *)
Ltac locate :=
  first [ apply includes_append_l; vm_compute; reflexivity
        | apply includes_append_r; locate
        | vm_compute; reflexivity ].

Ltac long_enough :=
  first [ eapply Nat.lt_le_trans; [|apply length_append_r]; long_enough
        | apply Nat.ltb_lt; vm_compute; reflexivity ].

(** X21.  Whatever the category fields and the customizations are (they
    need not pass any validation), [getFallbackContract] returns a
    contract when every customization value has a rendering, and a
    contract it returns contains a pragma, the SPDX licence identifier,
    a contract declaration and a constructor, and is longer than 500
    characters.  So [validateContractCode] rejects a fallback contract
    only for a placeholder marker, which can only come from the fields
    interpolated into the template. *)
Theorem fallback_fails_only_on_a_marker :
  forall (entityType transactionType contractType : string)
         (customizations : option Customizations),
    (renderable customizations = true ->
     exists code,
       getFallbackContract entityType transactionType contractType customizations =
         Some code) /\
    (forall code,
       getFallbackContract entityType transactionType contractType customizations =
         Some code ->
       includes code "pragma solidity" = true /\
       includes code "SPDX-License-Identifier" = true /\
       includes code "contract " = true /\
       includes code "constructor" = true /\
       (500 < String.length code)%nat /\
       validateContractCode code = markerFree code).
Proof.
  intros e t c cust. split; [apply renderable_fallback|]. intros code Hcode.
  assert (includes code "pragma solidity" = true /\
          includes code "SPDX-License-Identifier" = true /\
          includes code "contract " = true /\
          includes code "constructor" = true /\
          (500 < String.length code)%nat) as (H1 & H2 & H3 & H4 & H5).
  { revert Hcode. unfold getFallbackContract.
    destruct (includes c "Equity");
      [destruct (propertyOr cust "tokenName" "EquityToken") as [name|]; [|discriminate]
      |destruct (includes c "Supply Chain");
        [|destruct (includes c "Profit Sharing");
          [|destruct (includes c "Revenue");
            [|destruct (customParameters cust) as [parameters|]; [|discriminate]]]]];
      intros <-%(inj Some);
      (split; [locate|]; split; [locate|]; split; [locate|]; split; [locate | long_enough]). }
  repeat (split; [assumption|]).
  rewrite validateContractCode_alt, H1, H3, H4.
  apply Nat.ltb_lt in H5. rewrite H5. simpl. now rewrite andb_true_r.
Qed.

(** *** The chain of [generateCustomContract] *)

(** The exchanges one request may take under a layer. *)
Let cap (layer : Layer) : nat := match layer with Plain => 1 | Intercepted => 4 end.

Lemma post_measures layer o p body :
  let tr := snd (post layer o p body) in
  onlyCallsTo p tr /\ (1 <= calls tr <= cap layer)%nat /\ callsTo p tr = calls tr.
Proof.
  destruct layer.
  - simpl. repeat split; try (repeat constructor); try (unfold calls; simpl; lia).
    now destruct p.
  - destruct (post_shape o p body) as (k & Hk & -> & _). cbv zeta. cbn [snd].
    destruct (retrySchedule_measures p body k Hk) as (Hc & Hp & _ & Hq & _).
    rewrite Hc, Hp. simpl. repeat split; auto; lia.
Qed.

(** X22.  [generateCustomContract] asks Together first, whether or not a
    key is configured, then OpenRouter, then AIML, and a provider only
    when the answer of every provider before it was not accepted (no
    content, or a code that fails the validation); the code it returns
    from a provider is the accepted code of the last provider asked.
    The trace is the request to Together, followed by the request to
    OpenRouter if it is made, followed by the request to AIML if it is
    made; it holds at least one and at most three exchanges without the
    interceptor, at most twelve with it.  When no answer was accepted
    the function returns the contract of [getFallbackContract], or
    throws when there is none.  The template answer (the only one that
    lists a vulnerability) is given only after all three providers were
    asked. *)
Theorem providers_are_asked_in_turn :
  forall (stringify : Customizations -> string) (typeError : string) (layer : Layer)
         (o : Oracle) (entityType transactionType contractType : string)
         (customizations : option Customizations),
    let prompt := basePrompt stringify entityType transactionType contractType customizations in
    let first := post layer o Together (togetherRequest prompt) in
    let second := post layer o OpenRouter (openRouterRequest prompt) in
    let third := post layer o AIML (aimlRequest prompt) in
    let run :=
      generateCustomContract stringify typeError layer o entityType transactionType
        contractType customizations in
    ((exists result,
         fst run = Returned result /\ snd run = snd first /\
         accepted (fst first) = Some (code result)) \/
     (exists result,
         fst run = Returned result /\ snd run = snd first ++ snd second /\
         accepted (fst first) = None /\ accepted (fst second) = Some (code result)) \/
     (exists result,
         fst run = Returned result /\ snd run = snd first ++ snd second ++ snd third /\
         accepted (fst first) = None /\ accepted (fst second) = None /\
         accepted (fst third) = Some (code result)) \/
     (snd run = snd first ++ snd second ++ snd third /\
      accepted (fst first) = None /\ accepted (fst second) = None /\
      accepted (fst third) = None /\
      match getFallbackContract entityType transactionType contractType customizations with
      | Some contract =>
          exists result,
            fst run = Returned result /\ code result = contract /\
            vulnerabilities result =
              ["Template provided due to generation issues with AI providers."]
      | None => fst run = Thrown ("Failed to generate contract using AI: " +:+ typeError)
      end)) /\
    (1 <= calls (snd run) <= 3 * match layer with Plain => 1 | Intercepted => 4 end)%nat /\
    (forall result,
       fst run = Returned result -> vulnerabilities result <> [] ->
       snd run = snd first ++ snd second ++ snd third /\
       accepted (fst first) = None /\ accepted (fst second) = None /\
       accepted (fst third) = None /\
       getFallbackContract entityType transactionType contractType customizations =
         Some (code result)).
Proof.
  intros stringify typeError layer o e t c cust prompt first second third run.
  pose proof (post_measures layer o Together (togetherRequest prompt)) as (_ & M1 & _).
  pose proof (post_measures layer o OpenRouter (openRouterRequest prompt)) as (_ & M2 & _).
  pose proof (post_measures layer o AIML (aimlRequest prompt)) as (_ & M3 & _).
  fold first in M1. fold second in M2. fold third in M3.
  change (match layer with Plain => 1 | Intercepted => 4 end)%nat with (cap layer).
  destruct (generateCustomContract_cases stringify typeError layer o e t c cust)
    as [(r & Hr & Htr & A1 & Hvul)|[(r & Hr & Htr & A1 & A2 & Hvul)|
        [(r & Hr & Htr & A1 & A2 & A3 & Hvul)|(Htr & A1 & A2 & A3 & Hf)]]];
    fold prompt in Htr, A1; fold first in Htr, A1; fold run in Htr;
    try fold run in Hr; try fold run in Hf;
    try (fold prompt in A2; fold second in Htr, A2);
    try (fold prompt in A3; fold third in Htr, A3).
  - split; [left; eauto|]. rewrite Htr. split; [lia|].
    intros result Hres Hne. rewrite Hr in Hres. injection Hres as <-. congruence.
  - split; [right; left; eauto 6|]. rewrite Htr, calls_app. split; [lia|].
    intros result Hres Hne. rewrite Hr in Hres. injection Hres as <-. congruence.
  - split; [right; right; left; eauto 8|]. rewrite Htr, !calls_app. split; [lia|].
    intros result Hres Hne. rewrite Hr in Hres. injection Hres as <-. congruence.
  - split; [|rewrite Htr, !calls_app; split; [lia|]].
    + right; right; right. repeat (split; [assumption|]).
      destruct (getFallbackContract e t c cust) as [contract|]; [|exact Hf].
      eexists. split; [exact Hf|]. split; reflexivity.
    + intros result Hres Hne. repeat (split; [assumption|]).
      destruct (getFallbackContract e t c cust) as [contract|]; rewrite Hres in Hf;
        [|discriminate].
      now injection Hf as ->.
Qed.

End FallbackShape.
(** ** The sequential pipeline of [backend/src/server.ts] *)

Section SequentialPipeline.
Import JsString Http Server Notions Measures LegacyServer.

Variable stringify : option Customizations -> string.
Variable extractVulnerabilities : string -> list string.
Variable extractRecommendations : string -> list string.

Let generate := LegacyServer.generate stringify extractVulnerabilities extractRecommendations.
Let basePrompt := LegacyServer.basePrompt stringify.

(** The single exchange of a stage. *)
Let ask (prompt : string) (persona : Persona) : Event :=
  ECall OpenRouter (personaRequest prompt persona) 0%nat.

Lemma processWithPersona_cases o prompt persona :
  (forall body, o OpenRouter body 0%nat <> HttpOk None) ->
  (exists text,
      o OpenRouter (personaRequest prompt persona) 0%nat = HttpOk (Some text) /\
      processWithPersona o prompt persona = (inl text, [ask prompt persona])) \/
  (exists status,
      o OpenRouter (personaRequest prompt persona) 0%nat = HttpFail status /\
      processWithPersona o prompt persona =
        (inr (RequestFailed status), [ask prompt persona])).
Proof.
  intros Hcontent. unfold processWithPersona. simpl.
  specialize (Hcontent (personaRequest prompt persona)).
  destruct (o OpenRouter (personaRequest prompt persona) 0%nat) as [[text|]|status];
    [left | congruence | right]; eauto.
Qed.

(** X23.  The earlier server runs the three personas one after the
    other, each with a single exchange with OpenRouter that is never
    retried, and feeds each answer to the next stage: the developer is
    prompted with the analysis and the auditor with the code.  Provided
    every 2xx response carries a content, the endpoint answers with
    success exactly after three answered exchanges, the contract being
    the second answer; otherwise it answers with the failure of the
    exchange that failed, which is the last exchange made: no stage runs
    after a failed one. *)
Theorem sequential_pipeline_stops_at_the_first_failure :
  forall (o : Oracle) (req : ContractRequest),
    (forall body, o OpenRouter body 0%nat <> HttpOk None) ->
    match fst (generate o req) with
    | Success contract result =>
        exists security,
          snd (generate o req) =
            [ask (basePrompt req) nanjunda; ask (AiService.analysis result) achyutha;
             ask contract sandeep] /\
          o OpenRouter (personaRequest (basePrompt req) nanjunda) 0%nat =
            HttpOk (Some (AiService.analysis result)) /\
          o OpenRouter (personaRequest (AiService.analysis result) achyutha) 0%nat =
            HttpOk (Some contract) /\
          o OpenRouter (personaRequest contract sandeep) 0%nat = HttpOk (Some security) /\
          AiService.code result = contract /\
          AiService.vulnerabilities result = extractVulnerabilities security /\
          AiService.recommendations result = extractRecommendations security
    | ServerError cause =>
        exists status answered prompt persona,
          cause = RequestFailed status /\
          snd (generate o req) = answered ++ [ask prompt persona] /\
          (length answered <= 2)%nat /\
          (forall ev, In ev answered ->
             exists body text, ev = ECall OpenRouter body 0%nat /\
                               o OpenRouter body 0%nat = HttpOk (Some text)) /\
          o OpenRouter (personaRequest prompt persona) 0%nat = HttpFail status
    end.
Proof.
  intros o req Hcontent. unfold generate, LegacyServer.generate.
  fold (basePrompt req).
  destruct (processWithPersona_cases o (basePrompt req) nanjunda Hcontent)
    as [(analysis & Ho1 & ->)|(status & Ho & ->)].
  2:{ simpl. exists status, [], (basePrompt req), nanjunda.
      repeat split; auto. intros ev []. }
  destruct (processWithPersona_cases o analysis achyutha Hcontent)
    as [(contract & Ho2 & ->)|(status & Ho & ->)].
  2:{ simpl. exists status, [ask (basePrompt req) nanjunda], analysis, achyutha.
      repeat split; auto. intros ev [<-|[]]. eauto. }
  destruct (processWithPersona_cases o contract sandeep Hcontent)
    as [(security & Ho3 & ->)|(status & Ho & ->)].
  2:{ simpl. exists status, [ask (basePrompt req) nanjunda; ask analysis achyutha],
        contract, sandeep.
      repeat split; auto. intros ev [<-|[<-|[]]]; eauto. }
  simpl. exists security. auto 10.
Qed.

End SequentialPipeline.

Section SequentialPipelineWitness.
Import JsString Http Server Notions Measures LegacyServer.

Lemma sequential_pipeline_stops_at_the_first_failure_witness :
  (forall body, Scenarios.openRouterAnswers OpenRouter body 0%nat <> HttpOk None) /\
  exists result,
    fst (LegacyServer.generate Examples.emptyObjectOrNot Examples.noFindings
           Examples.noFindings Scenarios.openRouterAnswers Examples.llpSupplyChain) =
      Success Scenarios.shortAnswer result /\
    AiService.analysis result = Scenarios.shortAnswer.
Proof.
  assert (forall body, Scenarios.openRouterAnswers OpenRouter body 0%nat <> HttpOk None) as H
    by (intros body; discriminate).
  split; [exact H|].
  pose proof (sequential_pipeline_stops_at_the_first_failure Examples.emptyObjectOrNot
                Examples.noFindings Examples.noFindings Scenarios.openRouterAnswers
                Examples.llpSupplyChain H) as Hrun.
  destruct (fst (LegacyServer.generate Examples.emptyObjectOrNot Examples.noFindings
                   Examples.noFindings Scenarios.openRouterAnswers Examples.llpSupplyChain))
    as [contract result|cause].
  - destruct Hrun as (security & _ & H1 & H2 & _). exists result.
    injection H1 as <-. injection H2 as <-. auto.
  - destruct Hrun as (status & answered & prompt & persona & _ & _ & _ & _ & Hfail).
    discriminate Hfail.
Defined.

End SequentialPipelineWitness.
(** ** Names read out of a contract *)

Section CodeScanFacts.
Import JsString JsText TextNotions Server CodeScan.
Local Arguments String.append : simpl nomatch.
Local Arguments Ascii.eqb : simpl never.
Local Arguments isSpace : simpl never.
Local Arguments isWord : simpl never.

Lemma span_every f s : every f (fst (span f s)) = true.
Proof.
  induction s as [|c s IH]; [reflexivity|]. simpl.
  destruct (f c) eqn:E; [|reflexivity].
  destruct (span f s) as [taken rest]. simpl in *. now rewrite E.
Qed.

Lemma span_append f a b :
  every f a = true -> stopsAt f b = true -> span f (a +:+ b) = (a, b).
Proof.
  intros Ha Hb. induction a as [|c a IH]; simpl.
  - destruct b as [|d b]; [reflexivity|]. simpl in *.
    apply negb_true_iff in Hb. now rewrite Hb.
  - simpl in Ha. apply andb_true_iff in Ha as [-> Ha]. now rewrite (IH Ha).
Qed.

Lemma identifier_intro c name :
  every isWord (String c name) = true -> identifier (String c name) = true.
Proof. intros H. unfold identifier. now rewrite H. Qed.

Lemma declarationAt_identifier s name :
  declarationAt s = Some name -> identifier name = true /\ startsWith "contract" s = true.
Proof.
  unfold declarationAt. destruct (startsWith "contract" s); [|discriminate].
  destruct (span isSpace (AiService.drop 8 s)) as [[|g gap] rest]; [discriminate|].
  pose proof (span_every isWord rest) as He.
  destruct (fst (span isWord rest)) as [|c n]; [discriminate|].
  intros [= <-]. split; [now apply identifier_intro | reflexivity].
Qed.

Lemma firstDeclaration_identifier s name :
  firstDeclaration s = Some name -> identifier name = true /\ includes s "contract" = true.
Proof.
  induction s as [|c s IH]; cbn [firstDeclaration].
  - destruct (declarationAt EmptyString) as [n|] eqn:E; [|discriminate].
    intros [= ->]. now apply declarationAt_identifier in E as [? ?].
  - destruct (declarationAt (String c s)) as [n|] eqn:E.
    + intros [= ->]. apply declarationAt_identifier in E as [Hi Hs].
      split; [exact Hi|]. cbn [includes]. now rewrite Hs.
    + intros [Hi Hs]%IH. split; [exact Hi|]. cbn [includes]. rewrite Hs. apply orb_true_r.
Qed.

(** X24.  [extractContractName] always returns a name: a text that is
    not empty and made of digits, letters and underscores only.  For a
    text in which the word [contract] does not occur it returns
    [Contract]. *)
Theorem contract_name_is_an_identifier :
  forall (contractCode : string),
    identifier (extractContractName contractCode) = true /\
    (includes contractCode "contract" = false ->
     extractContractName contractCode = "Contract").
Proof.
  intros contractCode. unfold extractContractName.
  destruct (firstDeclaration contractCode) as [name|] eqn:E.
  - apply firstDeclaration_identifier in E as [Hi Hs]. split; [exact Hi | congruence].
  - split; reflexivity.
Qed.

Lemma startsWith_enough m a b :
  (String.length m <= String.length a)%nat -> startsWith m (a +:+ b) = startsWith m a.
Proof.
  revert a. induction m as [|x m IH]; intros [|y a] H; simpl in *; try reflexivity; [lia|].
  rewrite IH; [reflexivity | lia].
Qed.

Lemma blank_every s : blank s = every isSpace s.
Proof. induction s as [|c s IH]; [reflexivity|]. simpl. now rewrite IH. Qed.

Lemma isWord_not_space c : isWord c = true -> isSpace c = false.
Proof.
  unfold isWord, isSpace. cbv zeta. intros H.
  destruct (Nat.leb_spec 9 (nat_of_ascii c)), (Nat.leb_spec (nat_of_ascii c) 13),
    (Nat.eqb_spec (nat_of_ascii c) 32); simpl; try reflexivity; exfalso;
    destruct (Nat.leb_spec 48 (nat_of_ascii c)), (Nat.leb_spec (nat_of_ascii c) 57),
      (Nat.leb_spec 65 (nat_of_ascii c)), (Nat.leb_spec (nat_of_ascii c) 90),
      (Nat.eqb_spec (nat_of_ascii c) 95), (Nat.leb_spec 97 (nat_of_ascii c)),
      (Nat.leb_spec (nat_of_ascii c) 122); simpl in H; try discriminate; lia.
Qed.

(** Before the declaration nothing matches. *)
Lemma firstDeclaration_skip pre declaration :
  includes (pre +:+ "contrac") "contract" = false ->
  firstDeclaration (pre +:+ "contract" +:+ declaration) =
  firstDeclaration ("contract" +:+ declaration).
Proof.
  induction pre as [|c pre IH]; [reflexivity|].
  change (String c pre +:+ "contrac") with (String c (pre +:+ "contrac")).
  cbn [includes]. intros [Hhere Hlater]%orb_false_iff.
  change (String c pre +:+ "contract" +:+ declaration)
    with (String c (pre +:+ "contract" +:+ declaration)).
  cbn [firstDeclaration].
  assert (declarationAt (String c (pre +:+ "contract" +:+ declaration)) = None) as ->.
  { unfold declarationAt.
    change (String c (pre +:+ "contract" +:+ declaration))
      with (String c pre +:+ "contract" +:+ declaration).
    change ("contract" +:+ declaration) with ("contrac" +:+ "t" +:+ declaration).
    rewrite <- append_assoc, startsWith_enough.
    - change (String c pre +:+ "contrac") with (String c (pre +:+ "contrac")).
      now rewrite Hhere.
    - rewrite length_append. simpl. lia. }
  now apply IH.
Qed.

(** X25.  [extractContractName] finds the declared name.  When the text
    is some lines in which the word [contract] does not occur (nor
    starts, to be completed by the declaration), then the word
    [contract], white space, a name and something that does not go on
    with a digit, a letter or an underscore, the function returns the
    name. *)
Theorem declared_name_is_found :
  forall (before gap name rest : string),
    includes (before +:+ "contrac") "contract" = false ->
    blank gap = true -> gap <> EmptyString ->
    identifier name = true ->
    stopsAt isWord rest = true ->
    extractContractName (before +:+ "contract" +:+ gap +:+ name +:+ rest) = name.
Proof.
  intros before gap name rest Hbefore Hgap Hne Hname Hrest.
  unfold extractContractName. rewrite (firstDeclaration_skip _ _ Hbefore).
  unfold identifier in Hname. apply andb_true_iff in Hname as [Hn Hw].
  destruct name as [|c name]; [discriminate|].
  assert (declarationAt ("contract" +:+ gap +:+ String c name +:+ rest) =
          Some (String c name)) as Hd.
  { unfold declarationAt.
    rewrite (startsWith_append _ _ _ (startsWith_refl "contract")).
    rewrite (drop_append "contract").
    rewrite span_append; [| now rewrite <- blank_every |].
    - destruct gap as [|g gap]; [congruence|].
      rewrite span_append; [reflexivity | exact Hw | exact Hrest].
    - simpl. simpl in Hw. apply andb_true_iff in Hw as [Hc _].
      now rewrite (isWord_not_space _ Hc). }
  destruct ("contract" +:+ gap +:+ String c name +:+ rest) as [|d s] eqn:E;
    cbn [firstDeclaration]; now rewrite Hd.
Qed.

Lemma declared_name_is_found_witness :
  extractContractName
    ("// SPDX-License-Identifier: MIT" +:+ newline +:+ "pragma solidity ^0.8.20;" +:+
     newline +:+ "contract" +:+ " " +:+ "Vault_2" +:+ " is Ownable {}") = "Vault_2".
Proof.
  apply (declared_name_is_found
           ("// SPDX-License-Identifier: MIT" +:+ newline +:+ "pragma solidity ^0.8.20;" +:+
            newline) " " "Vault_2" " is Ownable {}");
    solve [reflexivity | discriminate].
Defined.

(** *** [analyzeGasUsage] *)

Lemma definitionAt_identifier s name matched :
  definitionAt s = Some (name, matched) ->
  identifier name = true /\ startsWith "function" s = true /\ (1 <= matched)%nat.
Proof.
  unfold definitionAt. destruct (startsWith "function" s); [|discriminate].
  destruct (span isSpace (AiService.drop 8 s)) as [[|g gap] afterGap]; [discriminate|].
  pose proof (span_every isWord afterGap) as He.
  destruct (span isWord afterGap) as [[|c n] afterName]; [discriminate|].
  destruct (span isSpace afterName) as [gap' [|paren afterParen]]; [discriminate|].
  destruct (Ascii.eqb paren "("); [|discriminate].
  destruct (span _ afterParen) as [parameters [|close afterClose]]; [discriminate|].
  intros [= <- <-]. split; [now apply identifier_intro|]. split; [reflexivity | lia].
Qed.

Lemma definitionsFrom_identifier skip s name :
  In name (definitionsFrom skip s) -> identifier name = true /\ includes s "function" = true.
Proof.
  revert skip. induction s as [|c s IH]; intros skip.
  - destruct skip; [|intros []]. cbn [definitionsFrom].
    destruct (definitionAt EmptyString) as [[n m]|] eqn:E; [|intros []].
    apply definitionAt_identifier in E as (_ & E & _). discriminate.
  - destruct skip as [|skip]; cbn [definitionsFrom].
    + destruct (definitionAt (String c s)) as [[n m]|] eqn:E.
      * apply definitionAt_identifier in E as (Hi & Hs & _).
        intros [<-|[Hi' Hs']%IH]; (split; [assumption|]); cbn [includes];
          rewrite Hs; reflexivity.
      * intros [Hi Hs]%IH. split; [exact Hi|]. cbn [includes]. rewrite Hs.
        apply orb_true_r.
    + intros [Hi Hs]%IH. split; [exact Hi|]. cbn [includes]. rewrite Hs.
      apply orb_true_r.
Qed.

(** X26.  [analyzeGasUsage] reports entries for functions that are
    declared in the contract: the name of every entry is a proper name
    (not empty; digits, letters and underscores), and a contract in
    which the word [function] does not occur has no entry.  Every entry
    carries the same figures: the estimate 50000 and the
    recommendations of the contract as a whole, one for each of
    [for (uint ], [require(] and [string memory] that occurs somewhere
    in the contract, in this order, whether or not the function of the
    entry holds it. *)
Theorem gas_entries_are_uniform :
  forall (contractCode : string),
    (forall entry, In entry (analyzeGasUsage contractCode) ->
       identifier (functionName entry) = true /\
       estimatedGas entry = 50000 /\
       gasRecommendations entry = recommendationsFor contractCode) /\
    (length (recommendationsFor contractCode) <= 3)%nat /\
    (includes contractCode "function" = false -> analyzeGasUsage contractCode = []) /\
    (includes contractCode "for (uint " = false ->
     includes contractCode "require(" = false ->
     includes contractCode "string memory" = false ->
     recommendationsFor contractCode = []).
Proof.
  intros contractCode. split; [|split; [|split]].
  - unfold analyzeGasUsage. intros entry (name & <- & Hin)%in_map_iff. simpl.
    apply definitionsFrom_identifier in Hin as [Hi _]. auto.
  - unfold recommendationsFor.
    destruct (includes contractCode "for (uint "), (includes contractCode "require("),
      (includes contractCode "string memory"); simpl; lia.
  - intros Hnone. unfold analyzeGasUsage.
    destruct (definitionsFrom 0 contractCode) as [|name names] eqn:E; [reflexivity|].
    assert (In name (definitionsFrom 0 contractCode)) as Hin by (rewrite E; now left).
    apply definitionsFrom_identifier in Hin as [_ Hs]. congruence.
  - intros H1 H2 H3. unfold recommendationsFor. now rewrite H1, H2, H3.
Qed.

End CodeScanFacts.
(** ** What a freshly generated answer reports *)

Section FreshAnswers.
Import JsString JsText TextNotions Http Server Notions Measures.

Variable typeError : string.
Variable getContractTemplate :
  string -> string -> string -> option Customizations -> option string.

(** The endpoint with the extractors and the gas analysis of the main
    server in place. *)
Let generate :=
  Server.generate typeError getContractTemplate CodeScan.analyzeGasUsage
    SectionScan.extractVulnerabilities SectionScan.extractRecommendations.

Lemma extracted_vulnerability_is_trimmed securityAnalysis v :
  In v (SectionScan.extractVulnerabilities securityAnalysis) ->
  v <> EmptyString /\ trim v = v.
Proof.
  intros (_ & line & _ & _ & -> & Hne & _)%vulnerabilitiesFrom_sound.
  split; [exact Hne | apply trim_idempotent].
Qed.

Lemma extracted_recommendation_is_trimmed securityAnalysis v :
  In v (SectionScan.extractRecommendations securityAnalysis) ->
  v <> EmptyString /\ trim v = v.
Proof.
  intros (_ & line & _ & _ & -> & Hne & _)%recommendationsFrom_sound.
  split; [exact Hne | apply trim_idempotent].
Qed.

(** X27.  In a freshly generated answer of [POST /api/generate] the
    vulnerabilities and the recommendations are read by the two
    extractors out of the one text that the security persona returned;
    each of them is a trimmed line that is not empty.  The gas analysis
    is the one of the code of the answer: every entry names a function
    by a proper name and carries the estimate 50000.  The code itself
    has passed the completeness check: it holds the SPDX licence
    identifier, a pragma and the word [contract], and no ellipsis. *)
Theorem fresh_answer_reports_lines_and_names :
  forall (env : Env) (o : Oracle) (now checked stored : Z) (settles : Persona -> nat)
         (req : ContractRequest)
         (contractCache cache1 : gmap string CacheEntry) (data : GenerationData) (tr : Trace),
    generate env o now checked stored settles req contractCache =
      (Generated data None, cache1, tr) ->
    (exists securityAnalysis,
        fst (processWithPersona env o (securityPrompt req) sandeep
               (contractType req) (entityType req) (transactionType req)) =
          Returned securityAnalysis /\
        dataVulnerabilities data = SectionScan.extractVulnerabilities securityAnalysis /\
        dataRecommendations data = SectionScan.extractRecommendations securityAnalysis) /\
    (forall finding,
        In finding (dataVulnerabilities data) \/ In finding (dataRecommendations data) ->
        finding <> EmptyString /\ trim finding = finding) /\
    dataGasAnalysis data = CodeScan.analyzeGasUsage (dataCode data) /\
    (forall entry, In entry (dataGasAnalysis data) ->
       identifier (functionName entry) = true /\ estimatedGas entry = 50000) /\
    includes (dataCode data) "SPDX-License-Identifier" = true /\
    includes (dataCode data) "pragma solidity" = true /\
    includes (dataCode data) "contract" = true /\
    includes (dataCode data) "..." = false.
Proof.
  intros env o now checked stored settles req contractCache cache1 data tr H.
  apply generate_fresh_findings in H as (Hc & Hg & sec & Hs & Hv & Hr).
  split; [eauto|]. split; [|split; [exact Hg|split]].
  - rewrite Hv, Hr. intros finding [Hin|Hin].
    + now apply extracted_vulnerability_is_trimmed in Hin.
    + now apply extracted_recommendation_is_trimmed in Hin.
  - rewrite Hg. unfold CodeScan.analyzeGasUsage.
    intros entry (name & <- & Hin)%in_map_iff. simpl.
    apply definitionsFrom_identifier in Hin as [Hi _]. auto.
  - unfold completeCode in Hc. apply negb_true_iff in Hc.
    repeat apply orb_false_iff in Hc as [Hc ?].
    repeat match goal with H : negb _ = false |- _ => apply negb_false_iff in H end.
    auto.
Qed.

End FreshAnswers.

Section FreshAnswersWitness.
Import JsString JsText TextNotions Http Server Notions Measures.

Lemma fresh_answer_reports_lines_and_names_witness :
  let run :=
    Server.generate Examples.typeError Examples.plainTemplate CodeScan.analyzeGasUsage
      SectionScan.extractVulnerabilities SectionScan.extractRecommendations
      Examples.allKeys Examples.helpful 0 1000 1000 Examples.atOnce Examples.llpSupplyChain ∅ in
  run = (Generated Scenarios.scannedData None, snd (fst run), snd run) /\
  dataGasAnalysis Scenarios.scannedData =
    CodeScan.analyzeGasUsage (dataCode Scenarios.scannedData) /\
  includes (dataCode Scenarios.scannedData) "pragma solidity" = true.
Proof.
  assert (Server.generate Examples.typeError Examples.plainTemplate CodeScan.analyzeGasUsage
            SectionScan.extractVulnerabilities SectionScan.extractRecommendations
            Examples.allKeys Examples.helpful 0 1000 1000 Examples.atOnce Examples.llpSupplyChain ∅ =
          (Generated Scenarios.scannedData None,
           snd (fst (Server.generate Examples.typeError Examples.plainTemplate CodeScan.analyzeGasUsage
                       SectionScan.extractVulnerabilities SectionScan.extractRecommendations
                       Examples.allKeys Examples.helpful 0 1000 1000 Examples.atOnce Examples.llpSupplyChain ∅)),
           snd (Server.generate Examples.typeError Examples.plainTemplate CodeScan.analyzeGasUsage
                  SectionScan.extractVulnerabilities SectionScan.extractRecommendations
                  Examples.allKeys Examples.helpful 0 1000 1000 Examples.atOnce Examples.llpSupplyChain ∅))) as H
    by (vm_compute; reflexivity).
  split; [exact H|].
  destruct (fresh_answer_reports_lines_and_names Examples.typeError Examples.plainTemplate
              Examples.allKeys Examples.helpful 0 1000 1000 Examples.atOnce
              Examples.llpSupplyChain ∅ _ Scenarios.scannedData _ H)
    as (_ & _ & Hg & _ & _ & Hp & _).
  split; [exact Hg | exact Hp].
Defined.

End FreshAnswersWitness.
